(** * Intelligent Document Analysis System: chunking, retrieval, orchestration

    A shallow embedding of the retrieval-augmented answering pipeline of
    [backend/app/services] (document_processor.py, vector_store.py,
    gemini_service.py, rag_service.py), followed by the properties of the
    specification that were checked against it.

    Conventions.
    - A Python [str] is a list of Unicode code points ([N]); a Python [int]
      is a [Z]; a Python [float] (distances, scores, clock readings) is the
      rational it denotes ([Q]), and arithmetic on floats rounds its exact
      result to binary64 (module [Float64]). Infinities and NaN are not
      modelled.
    - A Python [dict] used as a map is a [gmap].
    - A [while] loop is a function with an explicit iteration budget: [None]
      means that the budget ran out before the loop condition became false.
    - The embedding model, the vector index, the completion service, the
      file store and the clock are outside the program: their answers are
      supplied by records of oracles, and every call is recorded in a trace. *)

From Stdlib Require Import ZArith QArith Lia Lqa String Ascii DecimalString.
From Stdlib Require Import Qpower Qround Sorted.
From stdpp Require Import base option list gmap strings.

Local Open Scope Z_scope.

(** ** Python strings *)

Module Py.

Definition str := list N.

(** A string literal, as the code points of its characters. *)
Definition of_string (s : string) : str :=
  List.map N_of_ascii (list_ascii_of_string s).
Arguments of_string s%_string.

(** [len(s)] *)
Definition len (s : str) : Z := Z.of_nat (length s).

(** The characters removed by [str.strip()]: those for which
    [str.isspace] holds. *)
Definition is_space (c : N) : bool :=
  ((9 <=? c) && (c <=? 13) || (28 <=? c) && (c <=? 32)
   || (c =? 133) || (c =? 160) || (c =? 5760)
   || (8192 <=? c) && (c <=? 8202)
   || (c =? 8232) || (c =? 8233) || (c =? 8239) || (c =? 8287)
   || (c =? 12288))%N.

(** How a slice bound is read against a sequence of length [n]: a negative
    bound counts from the end, and the result is clipped to [0..n]. *)
Definition clamp_index (n i : Z) : Z :=
  if i <? 0 then Z.max 0 (i + n) else Z.min i n.

(** [s[a:b]] *)
Definition slice (s : str) (a b : Z) : str :=
  let a' := clamp_index (len s) a in
  let b' := clamp_index (len s) b in
  take (Z.to_nat (b' - a')) (drop (Z.to_nat a') s).

(** Does [sub] occur in [s] at offset [i]? *)
Definition match_at (s sub : str) (i : nat) : bool :=
  bool_decide (take (length sub) (drop i s) = sub).

(** The highest of the [k] offsets [lo .. lo+k-1] at which [sub] occurs,
    or [-1]. *)
Fixpoint rfind_scan (s sub : str) (lo : Z) (k : nat) : Z :=
  match k with
  | O => -1
  | S k' =>
      if match_at s sub (Z.to_nat (lo + Z.of_nat k'))
      then lo + Z.of_nat k'
      else rfind_scan s sub lo k'
  end.

(** [s.rfind(sub, a, b)]: the highest offset of an occurrence of [sub] that
    lies wholly inside [s[a:b]], or [-1]. The end bound is read like a slice
    bound; a negative start counts from the end and is clipped at 0. *)
Definition rfind (s sub : str) (a b : Z) : Z :=
  let b' := clamp_index (len s) b in
  let a' := if a <? 0 then Z.max 0 (a + len s) else a in
  rfind_scan s sub a' (Z.to_nat (b' - len sub - a' + 1)).

Fixpoint lstrip (s : str) : str :=
  match s with
  | [] => []
  | c :: s' => if is_space c then lstrip s' else s
  end.

Definition rstrip (s : str) : str := reverse (lstrip (reverse s)).

(** [s.strip()] *)
Definition strip (s : str) : str := rstrip (lstrip s).

(** Truth value of a string: non-empty. *)
Definition truthy (s : str) : bool :=
  match s with [] => false | _ => true end.

(** [len(s.split())]: the number of maximal runs of non-space characters. *)
Fixpoint count_words (in_word : bool) (s : str) : Z :=
  match s with
  | [] => 0
  | c :: s' =>
      if is_space c then count_words false s'
      else (if in_word then 0 else 1) + count_words true s'
  end.

Definition word_count (s : str) : Z := count_words false s.

(** [s.startswith(p)] *)
Definition startswith (p s : str) : bool :=
  bool_decide (take (length p) s = p).

(** [s.replace(old, new)] for a non-empty [old]: the occurrences of [old]
    are replaced from left to right, without overlap; [skip] counts the
    characters of the current occurrence that are still to be passed. *)
Fixpoint replace_from (old new : str) (skip : nat) (s : str) : str :=
  match s with
  | [] => []
  | c :: s' =>
      match skip with
      | S k => replace_from old new k s'
      | O =>
          if startswith old s
          then new ++ replace_from old new (length old - 1) s'
          else c :: replace_from old new O s'
      end
  end.

Definition replace (old new s : str) : str := replace_from old new O s.

(** [s.split(sep)] for a one-character separator; [cur] is the piece being
    read, in reverse. *)
Fixpoint split_from (sep : N) (cur : str) (s : str) : list str :=
  match s with
  | [] => [reverse cur]
  | c :: s' =>
      if (c =? sep)%N then reverse cur :: split_from sep [] s'
      else split_from sep (c :: cur) s'
  end.

Definition split (sep : N) (s : str) : list str := split_from sep [] s.

(** [sep.join(parts)] *)
Fixpoint join (sep : str) (parts : list str) : str :=
  match parts with
  | [] => []
  | [p] => p
  | p :: ps => p ++ sep ++ join sep ps
  end.

(** [str(i)] for a non-negative index. *)
Definition of_nat (i : nat) : str :=
  of_string (DecimalString.NilZero.string_of_uint (Nat.to_uint i)).

End Py.

Abbreviation str := Py.str.

(** ** Python lists *)

(** ** Python floats

    CPython's [float] is IEEE 754 binary64 and its arithmetic rounds to
    nearest, ties to even. A finite float is the rational it denotes. *)

Module Float64.

(** [floor(log2 q)] for a positive [q]. *)
Definition ilog2 (q : Q) : Z :=
  let k := Z.log2 (Qnum q) - Z.log2 (Z.pos (Qden q)) in
  if Qle_bool (2 ^ k) q then k else k - 1.

(** The integer nearest to [q], the even one of two at the same distance. *)
Definition nearest_even (q : Q) : Z :=
  let f := Qfloor q in
  match (q - inject_Z f ?= 1 # 2)%Q with
  | Lt => f
  | Gt => f + 1
  | Eq => if Z.even f then f else f + 1
  end.

(** A positive [q] rounded to 53 significant bits, or to a multiple of
    [2^-1074] below the normal range. *)
Definition round_pos (q : Q) : Q :=
  let e := Z.max (ilog2 q - 52) (-1074) in
  (inject_Z (nearest_even (q / 2 ^ e)) * 2 ^ e)%Q.

(** The float nearest to [q]. *)
Definition round (q : Q) : Q :=
  match Qnum q with
  | Z0 => 0%Q
  | Zpos _ => Qred (round_pos q)
  | Zneg _ => Qred (- round_pos (- q))
  end.

(** [a + b], [a - b] and [a / b] on floats *)
Definition add (a b : Q) : Q := round (a + b).
Definition sub (a b : Q) : Q := round (a - b).
Definition div (a b : Q) : Q := round (a / b).

Arguments round : simpl never.
Arguments add : simpl never.
Arguments sub : simpl never.
Arguments div : simpl never.

End Float64.

Module PyList.

(** [l[:k]] *)
Definition upto {A} (k : Z) (l : list A) : list A :=
  take (Z.to_nat (Py.clamp_index (Z.of_nat (length l)) k)) l.

(** One step of a stable sort: [x], which stood before every element of
    the sorted list [l], goes in front of the first element that need not
    precede it. [before y x] says that [y] must precede [x]. *)
Fixpoint insert_by {A} (before : A -> A -> bool) (x : A) (l : list A)
    : list A :=
  match l with
  | [] => [x]
  | y :: l' =>
      if before y x then y :: insert_by before x l' else x :: y :: l'
  end.

(** [l.sort(...)]: elements that compare equal keep their order. *)
Definition sort_by {A} (before : A -> A -> bool) (l : list A) : list A :=
  foldr (insert_by before) [] l.

(** [sum(l)] over floats: the elements are added to 0 from left to
    right, each addition rounded. (A CPython that compensates the rounding
    errors of [sum] can differ from this in the last bits.) *)
Definition sum (l : list Q) : Q := fold_left Float64.add l 0%Q.

End PyList.

(** ** core/config.py *)

Module Config.

Record Settings := {
  chunk_size : Z;
  chunk_overlap : Z
}.

(** The values of the class body. *)
Definition settings : Settings :=
  {| chunk_size := 1000; chunk_overlap := 200 |}.

End Config.

(** ** services/document_processor.py *)

Module DocumentProcessor.

(** The [metadata] dict of a chunk: the one-chunk path stores [filename]
    and [total_chunks]; the windowed path stores [filename] and
    [chunk_size], and [total_chunks] is filled in by the last loop. *)
Record ChunkMetadata := {
  md_filename : str;
  md_chunk_size : option Z;
  md_total_chunks : option Z
}.

Record Chunk := {
  content : str;
  chunk_index : Z;
  start_char : Z;
  end_char : Z;
  metadata : ChunkMetadata
}.

Definition sentence_endings : list str :=
  [Py.of_string "."; Py.of_string "!"; Py.of_string "?"; [10%N; 10%N]].

(** The [for ending in sentence_endings] loop: the largest [rfind] result. *)
Definition best_break (text : str) (search_start end_pos : Z) : Z :=
  fold_left
    (fun best ending =>
       let pos := Py.rfind text ending search_start end_pos in
       if best <? pos then pos else best)
    sentence_endings (-1).

(** The value of [end_pos] when the slice is taken: the window end, moved
    back to just after the last sentence ending of its final 100
    characters when the window stops short of the text end. *)
Definition window_end (text : str) (chunk_size start_pos : Z) : Z :=
  let text_length := Py.len text in
  let end_pos := Z.min (start_pos + chunk_size) text_length in
  if end_pos <? text_length then
    let search_start := Z.max (end_pos - 100) start_pos in
    let bb := best_break text search_start end_pos in
    if start_pos <? bb then bb + 1 else end_pos
  else end_pos.

(** The loop variables: [start_pos], [chunk_index], [chunks]. *)
Record LoopState := {
  ls_start_pos : Z;
  ls_chunk_index : Z;
  ls_chunks : list Chunk
}.

(** One pass through the body of [while start_pos < text_length]. *)
Definition loop_body (text filename : str) (chunk_size chunk_overlap : Z)
    (st : LoopState) : LoopState :=
  let start_pos := ls_start_pos st in
  let end_pos := window_end text chunk_size start_pos in
  let chunk_content := Py.strip (Py.slice text start_pos end_pos) in
  let next := Z.max (start_pos + chunk_size - chunk_overlap) end_pos in
  if Py.truthy chunk_content then
    {| ls_start_pos := next;
       ls_chunk_index := ls_chunk_index st + 1;
       ls_chunks := ls_chunks st ++
         [{| content := chunk_content;
             chunk_index := ls_chunk_index st;
             start_char := start_pos;
             end_char := end_pos;
             metadata := {| md_filename := filename;
                            md_chunk_size := Some (Py.len chunk_content);
                            md_total_chunks := None |} |}] |}
  else
    {| ls_start_pos := next;
       ls_chunk_index := ls_chunk_index st;
       ls_chunks := ls_chunks st |}.

(** The [while] loop, with a budget of [fuel] evaluations of its condition. *)
Fixpoint chunk_loop (fuel : nat) (text filename : str)
    (chunk_size chunk_overlap : Z) (st : LoopState) : option (list Chunk) :=
  match fuel with
  | O => None
  | S fuel' =>
      if ls_start_pos st <? Py.len text
      then chunk_loop fuel' text filename chunk_size chunk_overlap
             (loop_body text filename chunk_size chunk_overlap st)
      else Some (ls_chunks st)
  end.

(** [chunk["metadata"]["total_chunks"] = len(chunks)] *)
Definition set_total_chunks (n : Z) (c : Chunk) : Chunk :=
  {| content := content c;
     chunk_index := chunk_index c;
     start_char := start_char c;
     end_char := end_char c;
     metadata := {| md_filename := md_filename (metadata c);
                    md_chunk_size := md_chunk_size (metadata c);
                    md_total_chunks := Some n |} |}.

(** [chunk_text(text, filename, chunk_size, chunk_overlap)]; an argument
    left at [None] takes its value from the settings. *)
Definition chunk_text (fuel : nat) (cfg : Config.Settings) (text filename : str)
    (chunk_size chunk_overlap : option Z) : option (list Chunk) :=
  let chunk_size := default (Config.chunk_size cfg) chunk_size in
  let chunk_overlap := default (Config.chunk_overlap cfg) chunk_overlap in
  let text_length := Py.len text in
  if text_length <=? chunk_size then
    Some [{| content := text;
             chunk_index := 0;
             start_char := 0;
             end_char := text_length;
             metadata := {| md_filename := filename;
                            md_chunk_size := None;
                            md_total_chunks := Some 1 |} |}]
  else
    match chunk_loop fuel text filename chunk_size chunk_overlap
            {| ls_start_pos := 0; ls_chunk_index := 0; ls_chunks := [] |} with
    | None => None
    | Some chunks =>
        Some (List.map (set_total_chunks (Z.of_nat (length chunks))) chunks)
    end.

End DocumentProcessor.

(** ** models/document.py, models/chat.py *)

Module Models.

Record DocumentResponse := {
  id : str;
  filename : str;
  content_type : str;
  size : Z;
  upload_date : Q;
  page_count : option Z;
  word_count : option Z;
  status : str
}.

Record ChatSource := {
  document_id : str;
  document_name : str;
  page_number : option Z;
  chunk_text : str;
  relevance_score : Q
}.

Record ChatResponse := {
  question : str;
  answer : str;
  sources : list ChatSource;
  response_time : Q;
  timestamp : Q;
  document_ids : list str
}.

Record DocumentSummary := {
  ds_document_id : str;
  ds_summary : str;
  ds_key_points : list str;
  ds_word_count : Z;
  ds_generated_at : Q
}.

End Models.

(** ** The outside world

    What the services call but do not implement: the embedding model, the
    Chroma collection, the Gemini model, the upload directory with the
    format readers, the clock and the id generator. *)

Module Ext.

(** An exception, as the message [str(e)] it carries. *)
Definition exn := str.

(** The answer of an outside call: a value, or an exception. *)
Inductive result (A : Type) :=
| Ok (a : A)
| Err (e : exn).
Arguments Ok {A} a.
Arguments Err {A} e.

(** The metadata dict stored with a chunk in the collection, by the keys
    the services write or read. *)
Record StoredMetadata := {
  sm_document_id : str;
  sm_filename : str;
  sm_chunk_index : Z;
  sm_start_char : Z;
  sm_end_char : Z;
  sm_created_at : Q;
  sm_chunk_size : option Z;
  sm_total_chunks : option Z;
  sm_page_number : option Z
}.

(** The dict returned by [collection.query]: one inner list per query
    embedding. *)
Record QueryResult := {
  documents : list (list str);
  metadatas : list (list StoredMetadata);
  distances : list (list Q)
}.

(** The prompts sent to the model, as the template used and the values
    interpolated into it. *)
Inductive Prompt :=
| AnswerPrompt (context question : str)
| ComparePrompt (docs : list (str * str)).

Record ExtractionMetadata := {
  em_page_count : option Z;
  em_word_count : option Z
}.

(** The calls that leave the process. *)
Inductive event :=
| EvUuid
| EvTime
| EvNow
| EvSaveFile (filename : str)
| EvExtract (file_path filename : str)
| EvEncode (texts : list str)
| EvAdd (ids : list str)
| EvQuery (n_results : Z) (where_clause : option (list str))
| EvGenerate (p : Prompt).

(** The answers of the outside world. The clock and the id generator may
    depend on everything that happened before. *)
Record Services := {
  uuid4 : list event -> str;
  clock : list event -> Q;
  now : list event -> Q;
  save_file : list Byte.byte -> str -> result str;
  extract_text : str -> str -> str * ExtractionMetadata;
  encode : list str -> result (list (list Q));
  collection_add :
    list str -> list str -> list (list Q) -> list StoredMetadata ->
    result unit;
  collection_query :
    list (list Q) -> Z -> option (list str) -> result QueryResult;
  generate_content : Prompt -> result str
}.

(** An entry of [documents_store]. *)
Record DocEntry := {
  de_document : Models.DocumentResponse;
  de_file_path : str;
  de_text : str;
  de_metadata : ExtractionMetadata;
  de_chunks_count : Z
}.

(** The two dicts of [RAGService], and the calls made so far (latest
    first). *)
Record World := {
  documents_store : gmap str DocEntry;
  chat_history : gmap str (list Models.ChatResponse);
  trace : list event
}.

(** A call either returns, raises, or is cut short by the budget of a
    loop; the first two leave a world behind. *)
Inductive outcome (A : Type) :=
| Returned (a : A) (w : World)
| Raised (e : exn) (w : World)
| Unfinished.
Arguments Returned {A} a w.
Arguments Raised {A} e w.
Arguments Unfinished {A}.

Definition M (A : Type) := World -> outcome A.

Definition ret {A} (a : A) : M A := fun w => Returned a w.

Definition bind {A B} (m : M A) (k : A -> M B) : M B :=
  fun w =>
    match m w with
    | Returned a w' => k a w'
    | Raised e w' => Raised e w'
    | Unfinished => Unfinished
    end.

Definition raise {A} (e : exn) : M A := fun w => Raised e w.

(** [try: body except Exception as e: handler(e)] *)
Definition try_except {A} (body : M A) (handler : exn -> M A) : M A :=
  fun w =>
    match body w with
    | Returned a w' => Returned a w'
    | Raised e w' => handler e w'
    | Unfinished => Unfinished
    end.

Definition log (ev : event) (w : World) : World :=
  {| documents_store := documents_store w;
     chat_history := chat_history w;
     trace := ev :: trace w |}.

(** An outside call that cannot raise. *)
Definition call {A} (ev : event) (f : list event -> A) : M A :=
  fun w => Returned (f (trace w)) (log ev w).

(** An outside call that may raise. *)
Definition call_result {A} (ev : event) (r : result A) : M A :=
  fun w =>
    match r with
    | Ok a => Returned a (log ev w)
    | Err e => Raised e (log ev w)
    end.

(** The result of a loop under a budget. *)
Definition of_budget {A} (o : option A) : M A :=
  fun w => match o with Some a => Returned a w | None => Unfinished end.

(** A step of pure code that raises on [None] (a failed subscript). *)
Definition of_option {A} (e : exn) (o : option A) : M A :=
  fun w => match o with Some a => Returned a w | None => Raised e w end.

Definition get_documents_store : M (gmap str DocEntry) :=
  fun w => Returned (documents_store w) w.

Definition get_chat_history_store : M (gmap str (list Models.ChatResponse)) :=
  fun w => Returned (chat_history w) w.

Definition set_documents_store (d : gmap str DocEntry) : M unit :=
  fun w =>
    Returned tt {| documents_store := d;
                   chat_history := chat_history w;
                   trace := trace w |}.

Definition set_chat_history_store
    (h : gmap str (list Models.ChatResponse)) : M unit :=
  fun w =>
    Returned tt {| documents_store := documents_store w;
                   chat_history := h;
                   trace := trace w |}.

(** Run [f] on the elements of [l] in order, collecting the results. *)
Fixpoint for_each {A B} (f : A -> M B) (l : list A) : M (list B) :=
  match l with
  | [] => ret []
  | x :: l' =>
      bind (f x) (fun y => bind (for_each f l') (fun ys => ret (y :: ys)))
  end.

(** The dict returned by [collection.get]. *)
Record GetResult := {
  gr_ids : list str;
  gr_documents : list str;
  gr_metadatas : list StoredMetadata
}.

(** Further answers of the outside world: the rest of the collection, the
    model on the summary prompt (its word limit and the document text put
    into it), and the file system. These calls are not traced. *)
Record Backend := {
  collection_get : option str -> result GetResult;
  collection_delete : list str -> result unit;
  collection_count : result Z;
  collection_name : str;
  embedding_model_name : str;
  summary_content : Z -> str -> result str;
  path_exists : str -> result bool;
  os_remove : str -> result unit
}.

(** An untraced outside call that may raise. *)
Definition of_result {A} (r : result A) : M A :=
  fun w =>
    match r with
    | Ok a => Returned a w
    | Err e => Raised e w
    end.

End Ext.

Declare Scope eff_scope.
Delimit Scope eff_scope with eff.
Notation "x <- m ;; k" := (Ext.bind m (fun x => k))
  (at level 100, m at next level, right associativity) : eff_scope.
Notation "m ;;; k" := (Ext.bind m (fun _ => k))
  (at level 100, right associativity) : eff_scope.

Local Open Scope eff_scope.

(** ** services/vector_store.py *)

Module VectorStore.
Import Ext.

(** A chunk as [search_similar_chunks] returns it. *)
Record FoundChunk := {
  content : str;
  metadata : StoredMetadata;
  similarity_score : Q;
  document_id : str;
  filename : str;
  chunk_index : Z
}.

Section WithServices.
Context (ext : Services).

(** The metadata dict built for a chunk: the fixed keys, then the chunk's
    own [metadata] spread over them, so that the [filename] entry is the
    chunk's. *)
Definition stored_metadata (document_id filename : str) (created_at : Q)
    (chunk : DocumentProcessor.Chunk) : StoredMetadata :=
  let md := DocumentProcessor.metadata chunk in
  {| sm_document_id := document_id;
     sm_filename := DocumentProcessor.md_filename md;
     sm_chunk_index := DocumentProcessor.chunk_index chunk;
     sm_start_char := DocumentProcessor.start_char chunk;
     sm_end_char := DocumentProcessor.end_char chunk;
     sm_created_at := created_at;
     sm_chunk_size := DocumentProcessor.md_chunk_size md;
     sm_total_chunks := DocumentProcessor.md_total_chunks md;
     sm_page_number := None |}.

(** The [for i, chunk in enumerate(chunks)] loop: ids, documents and
    metadatas, with one reading of the clock per chunk. *)
Fixpoint prepare_chunks (document_id filename : str) (i : nat)
    (chunks : list DocumentProcessor.Chunk)
    : M (list (str * str * StoredMetadata)) :=
  match chunks with
  | [] => ret []
  | chunk :: rest =>
      created_at <- call EvNow (now ext) ;;
      let chunk_id := document_id ++ Py.of_string "_" ++ Py.of_nat i in
      let row := (chunk_id, DocumentProcessor.content chunk,
                  stored_metadata document_id filename created_at chunk) in
      rows <- prepare_chunks document_id filename (S i) rest ;;
      ret (row :: rows)
  end.

Definition add_document_chunks (document_id : str)
    (chunks : list DocumentProcessor.Chunk) (filename : str) : M bool :=
  try_except
    (rows <- prepare_chunks document_id filename O chunks ;;
     let ids := List.map (fun r => fst (fst r)) rows in
     let documents := List.map (fun r => snd (fst r)) rows in
     let metadatas := List.map snd rows in
     embeddings <- call_result (EvEncode documents) (encode ext documents) ;;
     call_result (EvAdd ids)
       (collection_add ext ids documents embeddings metadatas) ;;;
     ret true)
    (fun _ => ret false).

(** The [where] argument: a filter only for a non-empty list of ids. *)
Definition where_clause (document_ids : option (list str))
    : option (list str) :=
  match document_ids with
  | Some (d :: ds) => Some (d :: ds)
  | _ => None
  end.

(** The chunk built at position [i] of the first inner lists; [None] when
    a subscript is out of range. *)
Definition format_result (results : QueryResult) (i : nat)
    : option FoundChunk :=
  docs0 ← documents results !! O;
  doc ← docs0 !! i;
  metas0 ← metadatas results !! O;
  meta ← metas0 !! i;
  dists0 ← distances results !! O;
  dist ← dists0 !! i;
  Some {| content := doc;
          metadata := meta;
          similarity_score := Float64.sub 1 dist;
          document_id := sm_document_id meta;
          filename := sm_filename meta;
          chunk_index := sm_chunk_index meta |}.

(** The formatting block: empty when [results["documents"]] is empty, else
    one chunk per entry of its first list. *)
Definition format_results (results : QueryResult)
    : option (list FoundChunk) :=
  match documents results with
  | [] => Some []
  | docs0 :: _ => mapM (format_result results) (seq 0 (length docs0))
  end.

Definition search_similar_chunks (query : str)
    (document_ids : option (list str)) (top_k : Z) : M (list FoundChunk) :=
  try_except
    (query_embedding <- call_result (EvEncode [query]) (encode ext [query]) ;;
     let where_ := where_clause document_ids in
     results <- call_result (EvQuery top_k where_)
                  (collection_query ext query_embedding top_k where_) ;;
     of_option (Py.of_string "list index out of range")
       (format_results results))
    (fun _ => ret []).

End WithServices.

(** A chunk as [get_document_chunks] returns it. *)
Record StoredChunk := {
  sc_content : str;
  sc_metadata : StoredMetadata;
  sc_document_id : str;
  sc_filename : str;
  sc_chunk_index : Z
}.

(** The entry of [doc_similarities] for one document. *)
Record DocGroup := {
  dg_document_id : str;
  dg_filename : str;
  dg_similarities : list Q;
  dg_chunks : list FoundChunk
}.

(** An element of the list [find_similar_documents] returns. *)
Record SimilarDoc := {
  sd_document_id : str;
  sd_filename : str;
  sd_average_similarity : Q;
  sd_matching_chunks : Z;
  sd_sample_chunks : list FoundChunk
}.

(** The dict returned by [get_collection_stats]. *)
Inductive CollectionStats :=
| Stats (total_chunks unique_documents : Z)
    (embedding_model collection_name : str)
| StatsError (error : str).

(** The chunk built at position [i] of a [get] result. *)
Definition stored_chunk_at (results : GetResult) (i : nat)
    : option StoredChunk :=
  doc ← gr_documents results !! i;
  meta ← gr_metadatas results !! i;
  Some {| sc_content := doc;
          sc_metadata := meta;
          sc_document_id := sm_document_id meta;
          sc_filename := sm_filename meta;
          sc_chunk_index := sm_chunk_index meta |}.

Definition stored_chunks (results : GetResult) : option (list StoredChunk) :=
  mapM (stored_chunk_at results) (seq 0 (length (gr_documents results))).

(** [chunks.sort(key=lambda x: x["chunk_index"])] *)
Definition sort_by_chunk_index (chunks : list StoredChunk)
    : list StoredChunk :=
  PyList.sort_by (fun y x => sc_chunk_index y <? sc_chunk_index x) chunks.

(** The body of [for chunk in similar_chunks] for a chunk of another
    document: [doc_similarities] keeps its keys in the order in which they
    were first inserted. *)
Fixpoint add_to_group (chunk : FoundChunk) (groups : list DocGroup)
    : list DocGroup :=
  match groups with
  | [] =>
      [{| dg_document_id := document_id chunk;
          dg_filename := filename chunk;
          dg_similarities := [similarity_score chunk];
          dg_chunks := [chunk] |}]
  | g :: gs =>
      if decide (dg_document_id g = document_id chunk) then
        {| dg_document_id := dg_document_id g;
           dg_filename := dg_filename g;
           dg_similarities := dg_similarities g ++ [similarity_score chunk];
           dg_chunks := dg_chunks g ++ [chunk] |} :: gs
      else g :: add_to_group chunk gs
  end.

Definition group_chunks (source_id : str) (similar_chunks : list FoundChunk)
    : list DocGroup :=
  fold_left
    (fun groups chunk =>
       if decide (document_id chunk = source_id) then groups
       else add_to_group chunk groups)
    similar_chunks [].

(** The body of [for doc_data in doc_similarities.values()]. *)
Definition similar_doc (g : DocGroup) : SimilarDoc :=
  {| sd_document_id := dg_document_id g;
     sd_filename := dg_filename g;
     sd_average_similarity :=
       Float64.div (PyList.sum (dg_similarities g))
         (inject_Z (Z.of_nat (length (dg_similarities g))));
     sd_matching_chunks := Z.of_nat (length (dg_chunks g));
     sd_sample_chunks := take 2 (dg_chunks g) |}.

(** [similar_docs.sort(key=lambda x: x["average_similarity"],
    reverse=True)] *)
Definition sort_by_similarity (docs : list SimilarDoc) : list SimilarDoc :=
  PyList.sort_by
    (fun y x =>
       negb (Qle_bool (sd_average_similarity y) (sd_average_similarity x)))
    docs.

(** The ranking of [find_similar_documents] after the search. *)
Definition rank_documents (source_id : str) (top_k : Z)
    (similar_chunks : list FoundChunk) : list SimilarDoc :=
  PyList.upto top_k
    (sort_by_similarity
       (List.map similar_doc (group_chunks source_id similar_chunks))).

Section WithBackend.
Context (ext : Services) (be : Backend).

Definition get_document_chunks (document_id : str) : M (list StoredChunk) :=
  try_except
    (results <- of_result (collection_get be (Some document_id)) ;;
     chunks <- of_option (Py.of_string "list index out of range")
                 (stored_chunks results) ;;
     ret (sort_by_chunk_index chunks))
    (fun _ => ret []).

Definition delete_document_chunks (document_id : str) : M bool :=
  try_except
    (results <- of_result (collection_get be (Some document_id)) ;;
     match gr_ids results with
     | [] => ret tt
     | _ :: _ => of_result (collection_delete be (gr_ids results))
     end ;;;
     ret true)
    (fun _ => ret false).

Definition get_collection_stats : M CollectionStats :=
  try_except
    (count <- of_result (collection_count be) ;;
     results <- of_result (collection_get be None) ;;
     let unique_docs : gset str :=
       list_to_set (List.map sm_document_id (gr_metadatas results)) in
     ret (Stats count (Z.of_nat (size unique_docs))
            (embedding_model_name be) (collection_name be)))
    (fun e => ret (StatsError e)).

Definition find_similar_documents (document_id : str) (top_k : Z)
    : M (list SimilarDoc) :=
  try_except
    (source_chunks <- get_document_chunks document_id ;;
     match source_chunks with
     | [] => ret []
     | _ :: _ =>
         let representative_text :=
           Py.join (Py.of_string " ")
             (List.map sc_content (take 3 source_chunks)) in
         similar_chunks <- search_similar_chunks ext representative_text
                             None (top_k * 3) ;;
         ret (rank_documents document_id top_k similar_chunks)
     end)
    (fun _ => ret []).

End WithBackend.
End VectorStore.

(** ** services/gemini_service.py *)

Module GeminiService.
Import Ext.

Record Comparison := {
  similarities : list str;
  differences : list str;
  common_themes : list str
}.

Inductive section_name := Similarities | Differences.

(** The variables of the line scan. *)
Record ScanState := {
  current_section : option section_name;
  sc_similarities : list str;
  sc_differences : list str;
  sc_common_themes : list str
}.

Definition scan_line (st : ScanState) (raw_line : str) : ScanState :=
  let line := Py.strip raw_line in
  if Py.startswith (Py.of_string "SIMILARITIES:") line then
    {| current_section := Some Similarities;
       sc_similarities := sc_similarities st;
       sc_differences := sc_differences st;
       sc_common_themes := sc_common_themes st |}
  else if Py.startswith (Py.of_string "DIFFERENCES:") line then
    {| current_section := Some Differences;
       sc_similarities := sc_similarities st;
       sc_differences := sc_differences st;
       sc_common_themes := sc_common_themes st |}
  else if Py.startswith (Py.of_string "COMMON_THEMES:") line then
    {| current_section := current_section st;
       sc_similarities := sc_similarities st;
       sc_differences := sc_differences st;
       sc_common_themes :=
         List.map Py.strip
           (Py.split 44%N
              (Py.replace (Py.of_string "COMMON_THEMES:") [] line)) |}
  else if Py.startswith (Py.of_string "- ") line then
    match current_section st with
    | Some Similarities =>
        {| current_section := current_section st;
           sc_similarities :=
             sc_similarities st ++ [Py.replace (Py.of_string "- ") [] line];
           sc_differences := sc_differences st;
           sc_common_themes := sc_common_themes st |}
    | Some Differences =>
        {| current_section := current_section st;
           sc_similarities := sc_similarities st;
           sc_differences :=
             sc_differences st ++ [Py.replace (Py.of_string "- ") [] line];
           sc_common_themes := sc_common_themes st |}
    | None => st
    end
  else st.

Definition parse_comparison (response_text : str) : Comparison :=
  let st := fold_left scan_line (Py.split 10%N response_text)
              {| current_section := None;
                 sc_similarities := [];
                 sc_differences := [];
                 sc_common_themes := [] |} in
  {| similarities := sc_similarities st;
     differences := sc_differences st;
     common_themes := sc_common_themes st |}.

Section WithServices.
Context (ext : Services).

Definition generate_response (prompt context : str) : M str :=
  try_except
    (call_result (EvGenerate (AnswerPrompt context prompt))
       (generate_content ext (AnswerPrompt context prompt)))
    (fun _ =>
       ret (Py.of_string
         "I apologize, but I encountered an error while processing your request.")).

(** The documents named in the prompt: [doc_names[i]] with each content
    cut to 3000 characters. *)
Definition prompt_docs (doc_contents doc_names : list str)
    : option (list (str * str)) :=
  mapM (fun ic : nat * str =>
          name ← doc_names !! fst ic; Some (name, snd ic))
       (imap (fun i content => (i, Py.slice content 0 3000)) doc_contents).

Definition compare_documents (doc_contents doc_names : list str)
    : M Comparison :=
  try_except
    (docs <- of_option (Py.of_string "list index out of range")
               (prompt_docs doc_contents doc_names) ;;
     response_text <- call_result (EvGenerate (ComparePrompt docs))
                        (generate_content ext (ComparePrompt docs)) ;;
     ret (parse_comparison response_text))
    (fun _ =>
       ret {| similarities := []; differences := []; common_themes := [] |}).

End WithServices.

(** The dict returned by [generate_summary]. *)
Record Summary := {
  summary : str;
  key_points : list str;
  themes : list str
}.

Inductive summary_section := InSummary | InKeyPoints | InThemes.

(** The variables of the line scan of [generate_summary]. *)
Record SummaryScan := {
  ss_section : option summary_section;
  ss_summary : str;
  ss_key_points : list str;
  ss_themes : list str
}.

Definition scan_summary_line (st : SummaryScan) (raw_line : str)
    : SummaryScan :=
  let line := Py.strip raw_line in
  if Py.startswith (Py.of_string "SUMMARY:") line then
    {| ss_section := Some InSummary;
       ss_summary := Py.strip (Py.replace (Py.of_string "SUMMARY:") [] line);
       ss_key_points := ss_key_points st;
       ss_themes := ss_themes st |}
  else if Py.startswith (Py.of_string "KEY_POINTS:") line then
    {| ss_section := Some InKeyPoints;
       ss_summary := ss_summary st;
       ss_key_points := ss_key_points st;
       ss_themes := ss_themes st |}
  else if Py.startswith (Py.of_string "THEMES:") line then
    {| ss_section := Some InThemes;
       ss_summary := ss_summary st;
       ss_key_points := ss_key_points st;
       ss_themes :=
         List.map Py.strip
           (Py.split 44%N (Py.replace (Py.of_string "THEMES:") [] line)) |}
  else
    match ss_section st with
    | Some InKeyPoints =>
        if Py.startswith (Py.of_string "- ") line then
          {| ss_section := ss_section st;
             ss_summary := ss_summary st;
             ss_key_points :=
               ss_key_points st ++ [Py.replace (Py.of_string "- ") [] line];
             ss_themes := ss_themes st |}
        else st
    | Some InSummary =>
        if Py.truthy line then
          {| ss_section := ss_section st;
             ss_summary := ss_summary st ++ Py.of_string " " ++ line;
             ss_key_points := ss_key_points st;
             ss_themes := ss_themes st |}
        else st
    | _ => st
    end.

Definition parse_summary (response_text : str) : Summary :=
  let st := fold_left scan_summary_line (Py.split 10%N response_text)
              {| ss_section := None;
                 ss_summary := [];
                 ss_key_points := [];
                 ss_themes := [] |} in
  {| summary := Py.strip (ss_summary st);
     key_points := ss_key_points st;
     themes := ss_themes st |}.

Definition summary_unavailable : Summary :=
  {| summary := Py.of_string "Unable to generate summary at this time.";
     key_points := [];
     themes := [] |}.

Section WithBackend.
Context (be : Backend).

(** [generate_summary(text, max_length)]; the prompt carries the word
    limit and the first 8000 characters of the text. *)
Definition generate_summary (text : str) (max_length : Z) : M Summary :=
  try_except
    (response_text <- of_result
                        (summary_content be max_length
                           (Py.slice text 0 8000)) ;;
     ret (parse_summary response_text))
    (fun _ => ret summary_unavailable).

End WithBackend.
End GeminiService.

(** ** services/document_processor.py: the stored file *)

Module FileStore.
Import Ext.

Section WithBackend.
Context (be : Backend).

Definition delete_file (file_path : str) : M bool :=
  try_except
    (present <- of_result (path_exists be file_path) ;;
     if (present : bool) then
       of_result (os_remove be file_path) ;;;
       ret true
     else ret false)
    (fun _ => ret false).

End WithBackend.
End FileStore.

(** ** services/rag_service.py *)

Module RAGService.
Import Ext Models.

(** The dict returned by [compare_documents]: the parsed comparison with
    the [documents] entry added. *)
Record DocumentInfo := {
  di_id : str;
  di_filename : str;
  di_word_count : option Z
}.

Record ComparisonResult := {
  comparison : GeminiService.Comparison;
  cr_documents : list DocumentInfo
}.

(** [document_ids or []] *)
Definition ids_or_empty (document_ids : option (list str)) : list str :=
  match document_ids with
  | Some ids => ids
  | None => []
  end.

(** The excerpt of a source: the first 200 characters followed by an
    ellipsis when the content is longer than that. *)
Definition excerpt (content : str) : str :=
  if 200 <? Py.len content
  then Py.slice content 0 200 ++ Py.of_string "..."
  else content.

Definition source_of (chunk : VectorStore.FoundChunk) : ChatSource :=
  {| document_id := VectorStore.document_id chunk;
     document_name := VectorStore.filename chunk;
     page_number := sm_page_number (VectorStore.metadata chunk);
     chunk_text := excerpt (VectorStore.content chunk);
     relevance_score := VectorStore.similarity_score chunk |}.

Definition context_part (chunk : VectorStore.FoundChunk) : str :=
  Py.of_string "From " ++ VectorStore.filename chunk
    ++ [58%N; 10%N] ++ VectorStore.content chunk.

(** The separator of the context blocks: a rule between blank lines. *)
Definition context_separator : str :=
  [10%N; 10%N] ++ Py.of_string "---" ++ [10%N; 10%N].

(** [chat_history[doc_id].append(chat_response)], after creating the list
    when the key is missing. *)
Definition append_history (chat_response : ChatResponse) (doc_id : str)
    : M unit :=
  h <- get_chat_history_store ;;
  set_chat_history_store
    (<[doc_id := default [] (h !! doc_id) ++ [chat_response]]> h).

Section WithServices.
Context (ext : Services) (cfg : Config.Settings).

(** [fuel] is the budget handed to the loop of [chunk_text]. *)
Definition process_document (fuel : nat) (file_content : list Byte.byte)
    (filename content_type : str) : M DocumentResponse :=
  try_except
    (document_id <- call EvUuid (uuid4 ext) ;;
     file_path <- call_result (EvSaveFile filename)
                    (save_file ext file_content filename) ;;
     extracted <- call (EvExtract file_path filename)
                    (fun _ => extract_text ext file_path filename) ;;
     let text := fst extracted in
     let metadata := snd extracted in
     if negb (Py.truthy text) then
       raise (Py.of_string "Failed to extract text from document")
     else
       chunks <- of_budget
                   (DocumentProcessor.chunk_text fuel cfg text filename
                      None None) ;;
       match chunks with
       | [] => raise (Py.of_string "Failed to create text chunks")
       | _ :: _ =>
           success <- VectorStore.add_document_chunks ext document_id
                        chunks filename ;;
           if negb success then
             raise (Py.of_string
                      "Failed to store document in vector database")
           else
             upload_date <- call EvNow (now ext) ;;
             let doc_response :=
               {| id := document_id;
                  filename := filename;
                  content_type := content_type;
                  size := Z.of_nat (length file_content);
                  upload_date := upload_date;
                  page_count := em_page_count metadata;
                  word_count :=
                    Some (default (Py.word_count text)
                            (em_word_count metadata));
                  status := Py.of_string "processed" |} in
             store <- get_documents_store ;;
             set_documents_store
               (<[document_id :=
                    {| de_document := doc_response;
                       de_file_path := file_path;
                       de_text := text;
                       de_metadata := metadata;
                       de_chunks_count := Z.of_nat (length chunks) |}]>
                  store) ;;;
             ret doc_response
       end)
    (fun e => raise (Py.of_string "Document processing failed: " ++ e)).

(** The body of [ask_question], over the two module-level objects it
    calls: [search] stands for [vector_store.search_similar_chunks] and
    [generate] for [gemini_service.generate_response].

    [start_time] is the first binding of the [try] block and reading the
    clock does not raise, so the handler always finds it bound; it is
    bound here ahead of the block for that reason. *)
Definition ask_question_with
    (search : str -> option (list str) -> Z -> M (list VectorStore.FoundChunk))
    (generate : str -> str -> M str)
    (question : str) (document_ids : option (list str))
    (max_sources : Z) : M ChatResponse :=
  start_time <- call EvTime (clock ext) ;;
  try_except
    (relevant_chunks <- search question document_ids max_sources ;;
     match relevant_chunks with
     | [] =>
         end_time <- call EvTime (clock ext) ;;
         timestamp <- call EvNow (now ext) ;;
         ret {| question := question;
                answer := Py.of_string
                  "I couldn't find relevant information in the uploaded documents to answer your question.";
                sources := [];
                response_time := Float64.sub end_time start_time;
                timestamp := timestamp;
                document_ids := ids_or_empty document_ids |}
     | _ :: _ =>
         let context_parts := List.map context_part relevant_chunks in
         let sources := List.map source_of relevant_chunks in
         let context := Py.join context_separator context_parts in
         answer <- generate question context ;;
         end_time <- call EvTime (clock ext) ;;
         timestamp <- call EvNow (now ext) ;;
         let chat_response :=
           {| question := question;
              answer := answer;
              sources := sources;
              response_time := Float64.sub end_time start_time;
              timestamp := timestamp;
              document_ids := ids_or_empty document_ids |} in
         match document_ids with
         | Some (d :: ds) =>
             for_each (append_history chat_response) (d :: ds) ;;;
             ret tt
         | _ => ret tt
         end ;;;
         ret chat_response
     end)
    (fun e =>
       end_time <- call EvTime (clock ext) ;;
       timestamp <- call EvNow (now ext) ;;
       ret {| question := question;
              answer := Py.of_string
                "I encountered an error while processing your question: " ++ e;
              sources := [];
              response_time := Float64.sub end_time start_time;
              timestamp := timestamp;
              document_ids := ids_or_empty document_ids |}).

Definition ask_question : str -> option (list str) -> Z -> M ChatResponse :=
  ask_question_with (VectorStore.search_similar_chunks ext)
    (GeminiService.generate_response ext).

(** The body of [for doc_id in document_ids]: the text and the filename
    of a registered document. *)
Definition gather_document (doc_id : str) : M (str * str) :=
  store <- get_documents_store ;;
  match store !! doc_id with
  | None =>
      raise (Py.of_string "Document " ++ doc_id ++ Py.of_string " not found")
  | Some doc_data =>
      ret (de_text doc_data, Models.filename (de_document doc_data))
  end.

(** The comprehension that builds the [documents] entry; a subscript of
    [documents_store] raises for a missing key (the message is written
    here as the key). *)
Definition document_info (doc_id : str) : M DocumentInfo :=
  store <- get_documents_store ;;
  match store !! doc_id with
  | None => raise doc_id
  | Some doc_data =>
      ret {| di_id := doc_id;
             di_filename := Models.filename (de_document doc_data);
             di_word_count := Models.word_count (de_document doc_data) |}
  end.

Definition compare_documents (document_ids : list str) : M ComparisonResult :=
  try_except
    (if Z.of_nat (length document_ids) <? 2 then
       raise (Py.of_string
                "At least 2 documents are required for comparison")
     else
       gathered <- for_each gather_document document_ids ;;
       let doc_contents := List.map fst gathered in
       let doc_names := List.map snd gathered in
       comparison_result <- GeminiService.compare_documents ext
                              doc_contents doc_names ;;
       infos <- for_each document_info document_ids ;;
       ret {| comparison := comparison_result; cr_documents := infos |})
    (fun e => raise (Py.of_string "Document comparison failed: " ++ e)).

End WithServices.

Definition get_chat_history (document_id : str) : M (list ChatResponse) :=
  h <- get_chat_history_store ;;
  ret (default [] (h !! document_id)).

Definition clear_chat_history (document_id : str) : M bool :=
  try_except
    (h <- get_chat_history_store ;;
     match h !! document_id with
     | Some _ => set_chat_history_store (delete document_id h)
     | None => ret tt
     end ;;;
     ret true)
    (fun _ => ret false).

(** The dict returned by [get_system_stats]. *)
Inductive SystemStats :=
| SystemStatsOf (total_documents total_chunks total_conversations : Z)
    (vector_store_stats : VectorStore.CollectionStats)
    (embedding_model : str)
| SystemStatsError (error : str).

(** A similar document with the registry data added to it. *)
Record EnrichedDoc := {
  ed_similar : VectorStore.SimilarDoc;
  ed_document_info : DocumentResponse;
  ed_metadata : ExtractionMetadata
}.

(** [vector_stats.get("total_chunks", 0)] *)
Definition stats_total_chunks (vector_stats : VectorStore.CollectionStats)
    : Z :=
  match vector_stats with
  | VectorStore.Stats total_chunks _ _ _ => total_chunks
  | VectorStore.StatsError _ => 0
  end.

(** [vector_stats.get("embedding_model", "unknown")] *)
Definition stats_embedding_model
    (vector_stats : VectorStore.CollectionStats) : str :=
  match vector_stats with
  | VectorStore.Stats _ _ embedding_model _ => embedding_model
  | VectorStore.StatsError _ => Py.of_string "unknown"
  end.

(** [sum(len(history) for history in self.chat_history.values())] *)
Definition total_conversations (h : gmap str (list ChatResponse)) : Z :=
  map_fold (fun _ history acc => Z.of_nat (length history) + acc) 0 h.

Definition get_document (document_id : str) : M (option DocumentResponse) :=
  store <- get_documents_store ;;
  ret (de_document <$> store !! document_id).

Section WithBackend.
Context (ext : Services) (be : Backend).

Definition generate_document_summary (document_id : str)
    : M DocumentSummary :=
  try_except
    (store <- get_documents_store ;;
     match store !! document_id with
     | None => raise (Py.of_string "Document not found")
     | Some doc_data =>
         let text := de_text doc_data in
         summary_data <- GeminiService.generate_summary be text 500 ;;
         generated_at <- call EvNow (now ext) ;;
         ret {| ds_document_id := document_id;
                ds_summary := GeminiService.summary summary_data;
                ds_key_points := GeminiService.key_points summary_data;
                ds_word_count := Py.word_count text;
                ds_generated_at := generated_at |}
     end)
    (fun e => raise (Py.of_string "Summary generation failed: " ++ e)).

Definition delete_document (document_id : str) : M bool :=
  try_except
    (store <- get_documents_store ;;
     match store !! document_id with
     | None => ret false
     | Some doc_data =>
         VectorStore.delete_document_chunks be document_id ;;;
         FileStore.delete_file be (de_file_path doc_data) ;;;
         store' <- get_documents_store ;;
         set_documents_store (delete document_id store') ;;;
         h <- get_chat_history_store ;;
         match h !! document_id with
         | Some _ => set_chat_history_store (delete document_id h)
         | None => ret tt
         end ;;;
         ret true
     end)
    (fun _ => ret false).

Definition get_system_stats : M SystemStats :=
  try_except
    (vector_stats <- VectorStore.get_collection_stats be ;;
     store <- get_documents_store ;;
     h <- get_chat_history_store ;;
     ret (SystemStatsOf (Z.of_nat (base.size store))
            (stats_total_chunks vector_stats)
            (total_conversations h)
            vector_stats
            (stats_embedding_model vector_stats)))
    (fun e => ret (SystemStatsError e)).

(** The body of [for sim_doc in similar_docs]: documents no longer in the
    registry are passed over. *)
Definition enrich (store : gmap str DocEntry)
    (sim_doc : VectorStore.SimilarDoc) : option EnrichedDoc :=
  doc_data ← store !! VectorStore.sd_document_id sim_doc;
  Some {| ed_similar := sim_doc;
          ed_document_info := de_document doc_data;
          ed_metadata := de_metadata doc_data |}.

Definition find_similar_documents (document_id : str) (top_k : Z)
    : M (list EnrichedDoc) :=
  try_except
    (store <- get_documents_store ;;
     match store !! document_id with
     | None => raise (Py.of_string "Document not found")
     | Some _ =>
         similar_docs <- VectorStore.find_similar_documents ext be
                           document_id top_k ;;
         store' <- get_documents_store ;;
         ret (omap (enrich store') similar_docs)
     end)
    (fun _ => ret []).

End WithBackend.

End RAGService.

(** ** api/chat.py, api/documents.py

    A route handler returns its value or raises [HTTPException]; what the
    framework makes of either is outside the model. *)

Module Api.
Import Ext Models.

Inductive response (A : Type) :=
| Success (a : A)
| HTTPException (status_code : Z) (detail : str).
Arguments Success {A} a.
Arguments HTTPException {A} status_code detail.

(** A handler leaves a response and a world, unless a loop budget ran
    out. *)
Definition handler (A : Type) := World -> option (response A * World).

(** [try: ... except Exception as e: raise HTTPException(500, str(e))]
    around a body that raises no [HTTPException] of its own. *)
Definition route {A} (body : M A) : handler A :=
  fun w =>
    match body w with
    | Returned a w' => Some (Success a, w')
    | Raised e w' => Some (HTTPException 500 e, w')
    | Unfinished => None
    end.

(** The same around a body that ends in a check of its result:
    [except HTTPException: raise] lets the handler's own exception
    through. *)
Definition route_checked {A B} (body : M A) (check : A -> response B)
    : handler B :=
  fun w =>
    match body w with
    | Returned a w' => Some (check a, w')
    | Raised e w' => Some (HTTPException 500 e, w')
    | Unfinished => None
    end.

Definition cleared_message : str :=
  Py.of_string "Chat history cleared successfully".

Definition deleted_message : str :=
  Py.of_string "Document deleted successfully".

Definition get_chat_history (document_id : str)
    : handler (list ChatResponse) :=
  route (RAGService.get_chat_history document_id).

Definition clear_chat_history (document_id : str) : handler str :=
  route_checked (RAGService.clear_chat_history document_id)
    (fun success : bool =>
       if success then Success cleared_message
       else HTTPException 404 (Py.of_string "Document not found")).

Definition get_document (document_id : str) : handler DocumentResponse :=
  route_checked (RAGService.get_document document_id)
    (fun document =>
       match document with
       | Some d => Success d
       | None => HTTPException 404 (Py.of_string "Document not found")
       end).

Section WithBackend.
Context (ext : Services) (be : Backend) (cfg : Config.Settings).

(** [request] carries the fields of [ChatRequest]. *)
Definition ask_question (question : str) (document_ids : option (list str))
    (max_sources : Z) : handler ChatResponse :=
  route (RAGService.ask_question ext question document_ids max_sources).

(** [upload_document] on a file that passed [validate_file]. *)
Definition upload_document (fuel : nat) (file_content : list Byte.byte)
    (filename content_type : str) : handler DocumentResponse :=
  route (RAGService.process_document ext cfg fuel file_content filename
           content_type).

Definition delete_document (document_id : str) : handler str :=
  route_checked (RAGService.delete_document be document_id)
    (fun success : bool =>
       if success then Success deleted_message
       else HTTPException 404 (Py.of_string "Document not found")).

Definition summarize_document (document_id : str)
    : handler DocumentSummary :=
  route (RAGService.generate_document_summary ext be document_id).

Definition find_similar_documents (document_id : str) (top_k : Z)
    : handler (list RAGService.EnrichedDoc) :=
  route (RAGService.find_similar_documents ext be document_id top_k).

Definition compare_documents (document_ids : list str)
    : handler RAGService.ComparisonResult :=
  fun w =>
    if Z.of_nat (length document_ids) <? 2 then
      Some (HTTPException 400
              (Py.of_string "At least 2 document IDs are required"), w)
    else route (RAGService.compare_documents ext document_ids) w.

Definition get_system_stats : handler RAGService.SystemStats :=
  route (RAGService.get_system_stats be).

End WithBackend.
End Api.

(** * Statements about chunk sequences *)

(** Position [p] of the source text lies in the range of some chunk. *)
Definition covered (chunks : list DocumentProcessor.Chunk) (p : Z) : Prop :=
  Exists (fun ch => DocumentProcessor.start_char ch <= p
                    /\ p < DocumentProcessor.end_char ch) chunks.

(** [R] relates every element to the one right after it. *)
Definition adjacent {A} (R : A -> A -> Prop) (l : list A) : Prop :=
  forall i c d, l !! i = Some c -> l !! S i = Some d -> R c d.

(** The chunk indices are [0 .. n-1] in emission order. *)
Definition indexed (chunks : list DocumentProcessor.Chunk) : Prop :=
  forall i c, chunks !! i = Some c ->
    DocumentProcessor.chunk_index c = Z.of_nat i.

(** Loop invariant: the chunks emitted so far end at or before the cursor
    and do not run into one another. *)
Definition ends_before_cursor (st : DocumentProcessor.LoopState) : Prop :=
  Forall (fun c => DocumentProcessor.end_char c
                   <= DocumentProcessor.ls_start_pos st)
    (DocumentProcessor.ls_chunks st)
  /\ adjacent (fun c d => DocumentProcessor.end_char c
                          <= DocumentProcessor.start_char d)
       (DocumentProcessor.ls_chunks st).

(** Loop invariant: the counter is the number of chunks emitted so far,
    and each chunk carries its position. *)
Definition numbered (st : DocumentProcessor.LoopState) : Prop :=
  DocumentProcessor.ls_chunk_index st
  = Z.of_nat (length (DocumentProcessor.ls_chunks st))
  /\ indexed (DocumentProcessor.ls_chunks st).

(** Loop invariant: every chunk emitted so far has a non-empty range. *)
Definition ranges_nonempty (st : DocumentProcessor.LoopState) : Prop :=
  Forall (fun c => DocumentProcessor.start_char c
                   < DocumentProcessor.end_char c)
    (DocumentProcessor.ls_chunks st).

(** Loop invariant: every non-space character before the cursor lies in
    the range of an emitted chunk. *)
Definition covered_up_to (text : str) (st : DocumentProcessor.LoopState)
    : Prop :=
  0 <= DocumentProcessor.ls_start_pos st
  /\ forall (p : nat) c,
       text !! p = Some c -> Py.is_space c = false ->
       Z.of_nat p < DocumentProcessor.ls_start_pos st ->
       covered (DocumentProcessor.ls_chunks st) (Z.of_nat p).

(** * Statements about the services *)

(** The two dicts of the orchestrator are as they were. *)
Definition same_stores (w w' : Ext.World) : Prop :=
  Ext.documents_store w' = Ext.documents_store w
  /\ Ext.chat_history w' = Ext.chat_history w.

(** The world has moved on by the calls [evs] (latest first) and nothing
    else. *)
Definition extends_by (evs : list Ext.event) (w w' : Ext.World) : Prop :=
  Ext.trace w' = evs ++ Ext.trace w /\ same_stores w w'.

(** The embedding of the query or the query of the collection raises, or
    a row of the answer cannot be formatted. *)
Definition search_fails (ext : Ext.Services) (query : str)
    (document_ids : option (list str)) (top_k : Z) : Prop :=
  match Ext.encode ext [query] with
  | Ext.Err _ => True
  | Ext.Ok emb =>
      match Ext.collection_query ext emb top_k
              (VectorStore.where_clause document_ids) with
      | Ext.Err _ => True
      | Ext.Ok results => VectorStore.format_results results = None
      end
  end.

(** The outside calls of one search, latest first: the embedding of the
    query, and the query of the collection when the embedding succeeded. *)
Definition search_events (ext : Ext.Services) (query : str)
    (document_ids : option (list str)) (top_k : Z) : list Ext.event :=
  match Ext.encode ext [query] with
  | Ext.Err _ => [Ext.EvEncode [query]]
  | Ext.Ok _ =>
      [Ext.EvQuery top_k (VectorStore.where_clause document_ids);
       Ext.EvEncode [query]]
  end.

(** The collection answers the query with rows that format to [chunks]. *)
Definition search_returns (ext : Ext.Services) (query : str)
    (document_ids : option (list str)) (top_k : Z)
    (results : Ext.QueryResult) (chunks : list VectorStore.FoundChunk)
    : Prop :=
  exists emb,
    Ext.encode ext [query] = Ext.Ok emb
    /\ Ext.collection_query ext emb top_k
         (VectorStore.where_clause document_ids) = Ext.Ok results
    /\ VectorStore.format_results results = Some chunks.

(** The prompt that [ask_question] sends for the retrieved chunks. *)
Definition answer_prompt (question : str)
    (chunks : list VectorStore.FoundChunk) : Ext.Prompt :=
  Ext.AnswerPrompt
    (Py.join RAGService.context_separator
       (List.map RAGService.context_part chunks))
    question.

(** The model raises on the prompt built from [chunks]. *)
Definition completion_fails (ext : Ext.Services) (question : str)
    (chunks : list VectorStore.FoundChunk) : Prop :=
  exists e, Ext.generate_content ext (answer_prompt question chunks)
            = Ext.Err e.

(** What the adapter relies on from the collection: a query for [n]
    results yields at most [n] rows, nearest first. *)
Definition index_honours_top_k (ext : Ext.Services) : Prop :=
  forall emb n wc results docs0,
    Ext.collection_query ext emb n wc = Ext.Ok results ->
    Ext.documents results !! O = Some docs0 ->
    Z.of_nat (length docs0) <= n.

Definition index_ranks_by_distance (ext : Ext.Services) : Prop :=
  forall emb n wc results dists0,
    Ext.collection_query ext emb n wc = Ext.Ok results ->
    Ext.distances results !! O = Some dists0 ->
    adjacent Qle dists0.

(** The distance the collection reported for row [i]. *)
Definition reported_distance (results : Ext.QueryResult) (i : nat)
    : option Q :=
  dists0 ← Ext.distances results !! O; dists0 !! i.

(** The world in which [process_document] calls the adapter: after the
    id was drawn, the file saved and its text extracted. *)
Definition before_insert (w : Ext.World) (file_path filename : str)
    : Ext.World :=
  Ext.log (Ext.EvExtract file_path filename)
    (Ext.log (Ext.EvSaveFile filename) (Ext.log Ext.EvUuid w)).

Definition not_found_answer : str :=
  Py.of_string
    "I couldn't find relevant information in the uploaded documents to answer your question.".

Definition apology : str :=
  Py.of_string
    "I apologize, but I encountered an error while processing your request.".

(** * Scenarios *)

Definition empty_world : Ext.World :=
  {| Ext.documents_store := ∅; Ext.chat_history := ∅; Ext.trace := [] |}.

Definition sample_metadata : Ext.StoredMetadata :=
  {| Ext.sm_document_id := Py.of_string "doc-1";
     Ext.sm_filename := Py.of_string "notes.txt";
     Ext.sm_chunk_index := 0;
     Ext.sm_start_char := 0;
     Ext.sm_end_char := 5;
     Ext.sm_created_at := 0%Q;
     Ext.sm_chunk_size := None;
     Ext.sm_total_chunks := Some 1;
     Ext.sm_page_number := None |}.

(** One stored chunk, reported at distance [d]. *)
Definition one_row (d : Q) : Ext.QueryResult :=
  {| Ext.documents := [[Py.of_string "alpha"]];
     Ext.metadatas := [[sample_metadata]];
     Ext.distances := [[d]] |}.

(** Services in which every call succeeds: the file holds "hello world",
    the collection reports its one chunk at distance [d] when asked for at
    least one result, the model answers "ok". *)
Definition healthy (d : Q) : Ext.Services :=
  {| Ext.uuid4 := fun _ => Py.of_string "doc-1";
     Ext.clock := fun tr => inject_Z (Z.of_nat (length tr));
     Ext.now := fun tr => inject_Z (Z.of_nat (length tr));
     Ext.save_file := fun _ _ => Ext.Ok (Py.of_string "uploads/doc-1.txt");
     Ext.extract_text := fun _ _ =>
       (Py.of_string "hello world",
        {| Ext.em_page_count := None; Ext.em_word_count := Some 2 |});
     Ext.encode := fun texts => Ext.Ok (List.map (fun _ => [1%Q]) texts);
     Ext.collection_add := fun _ _ _ _ => Ext.Ok tt;
     Ext.collection_query := fun _ n _ =>
       if 1 <=? n then Ext.Ok (one_row d)
       else Ext.Err (Py.of_string "n_results must be positive");
     Ext.generate_content := fun _ => Ext.Ok (Py.of_string "ok") |}.

(** A registry entry for a plain-text document. *)
Definition text_entry (doc_id name text : str) : Ext.DocEntry :=
  {| Ext.de_document :=
       {| Models.id := doc_id;
          Models.filename := name;
          Models.content_type := Py.of_string "text/plain";
          Models.size := Py.len text;
          Models.upload_date := 0%Q;
          Models.page_count := None;
          Models.word_count := Some (Py.word_count text);
          Models.status := Py.of_string "processed" |};
     Ext.de_file_path := Py.of_string "uploads/" ++ name;
     Ext.de_text := text;
     Ext.de_metadata :=
       {| Ext.em_page_count := None;
          Ext.em_word_count := Some (Py.word_count text) |};
     Ext.de_chunks_count := 1 |}.

(** Two registered documents, no history, no call made yet. *)
Definition two_docs_world : Ext.World :=
  {| Ext.documents_store :=
       <[Py.of_string "a" :=
           text_entry (Py.of_string "a") (Py.of_string "a.txt")
             (Py.of_string "first text")]>
         (<[Py.of_string "b" :=
              text_entry (Py.of_string "b") (Py.of_string "b.txt")
                (Py.of_string "second text")]> ∅);
     Ext.chat_history := ∅;
     Ext.trace := [] |}.

(** A model answer in the requested format. *)
Definition comparison_reply : str :=
  Py.of_string "SIMILARITIES:" ++ [10%N]
  ++ Py.of_string "- both are notes" ++ [10%N]
  ++ Py.of_string "DIFFERENCES:" ++ [10%N]
  ++ Py.of_string "  - length" ++ [10%N]
  ++ Py.of_string "COMMON_THEMES: work, home".

(** The same, with the completion service raising. *)
Definition completion_down : Ext.Services :=
  {| Ext.uuid4 := Ext.uuid4 (healthy (1 # 4));
     Ext.clock := Ext.clock (healthy (1 # 4));
     Ext.now := Ext.now (healthy (1 # 4));
     Ext.save_file := Ext.save_file (healthy (1 # 4));
     Ext.extract_text := Ext.extract_text (healthy (1 # 4));
     Ext.encode := Ext.encode (healthy (1 # 4));
     Ext.collection_add := Ext.collection_add (healthy (1 # 4));
     Ext.collection_query := Ext.collection_query (healthy (1 # 4));
     Ext.generate_content := fun _ =>
       Ext.Err (Py.of_string "quota exceeded") |}.

(** The same, with the embedding model raising. *)
Definition index_down : Ext.Services :=
  {| Ext.uuid4 := Ext.uuid4 (healthy (1 # 4));
     Ext.clock := Ext.clock (healthy (1 # 4));
     Ext.now := Ext.now (healthy (1 # 4));
     Ext.save_file := Ext.save_file (healthy (1 # 4));
     Ext.extract_text := Ext.extract_text (healthy (1 # 4));
     Ext.encode := fun _ => Ext.Err (Py.of_string "model not loaded");
     Ext.collection_add := Ext.collection_add (healthy (1 # 4));
     Ext.collection_query := Ext.collection_query (healthy (1 # 4));
     Ext.generate_content := Ext.generate_content (healthy (1 # 4)) |}.

(** A short text with spaces at both ends. *)
Definition padded_text : str := Py.of_string " a ".

(** A sentence break right after the second character. *)
Definition gap_text : str := Py.of_string "a.bcdefgh".

(** Two words with four spaces between them. *)
Definition blank_text : str := Py.of_string "ab    cd".

(** * Further statements and scenarios *)

(** The search hits that belong to document [doc], in rank order. *)
Definition hits_of (doc : str) (chunks : list VectorStore.FoundChunk)
    : list VectorStore.FoundChunk :=
  filter (fun c => VectorStore.document_id c = doc) chunks.

(** Loop invariant of the grouping: the entry of a document other than
    the source holds exactly the hits of that document seen so far, with
    their scores, under the filename of the first of them. *)
Definition group_ok (source : str) (seen : list VectorStore.FoundChunk)
    (g : VectorStore.DocGroup) : Prop :=
  VectorStore.dg_document_id g <> source
  /\ VectorStore.dg_chunks g = hits_of (VectorStore.dg_document_id g) seen
  /\ VectorStore.dg_chunks g <> []
  /\ VectorStore.dg_similarities g
     = List.map VectorStore.similarity_score (VectorStore.dg_chunks g)
  /\ forall c0, head (VectorStore.dg_chunks g) = Some c0 ->
       VectorStore.dg_filename g = VectorStore.filename c0.

(** What one entry of the ranking says about the hits of its document. *)
Definition summarises (hits : list VectorStore.FoundChunk)
    (r : VectorStore.SimilarDoc) : Prop :=
  let mine := hits_of (VectorStore.sd_document_id r) hits in
  mine <> []
  /\ VectorStore.sd_matching_chunks r = Z.of_nat (length mine)
  /\ VectorStore.sd_sample_chunks r = take 2 mine
  /\ VectorStore.sd_average_similarity r
     = Float64.div
         (PyList.sum (List.map VectorStore.similarity_score mine))
         (inject_Z (Z.of_nat (length mine)))
  /\ forall c0, head mine = Some c0 ->
       VectorStore.sd_filename r = VectorStore.filename c0.

(** Some line of the reply starts, once stripped, with [label]. *)
Definition has_header (label response_text : str) : Prop :=
  Exists (fun raw => Py.startswith label (Py.strip raw) = true)
    (Py.split 10%N response_text).

(** [item] is a bullet line of the reply, stripped, with every "- " taken
    out. *)
Definition from_bullet (response_text item : str) : Prop :=
  exists raw,
    raw ∈ Py.split 10%N response_text
    /\ Py.startswith (Py.of_string "- ") (Py.strip raw) = true
    /\ item = Py.replace (Py.of_string "- ") [] (Py.strip raw).

(** [themes] is what the line [label ...] of the reply lists. *)
Definition from_list_line (label response_text : str) (themes : list str)
    : Prop :=
  exists raw,
    raw ∈ Py.split 10%N response_text
    /\ Py.startswith label (Py.strip raw) = true
    /\ themes
       = List.map Py.strip
           (Py.split 44%N (Py.replace label [] (Py.strip raw))).

(** A reply whose first bullet stands before any header. *)
Definition stray_bullet_reply : str :=
  Py.of_string "- early
DIFFERENCES:
- late".

(** A reply that does not follow the requested format. *)
Definition free_form_reply : str :=
  Py.of_string "The document is about tea.
- it is short".

(** The text [find_similar_documents] searches with. *)
Definition representative_text (source_chunks : list VectorStore.StoredChunk)
    : str :=
  Py.join (Py.of_string " ")
    (List.map VectorStore.sc_content (take 3 source_chunks)).

(** The fields a stored chunk copies out of its metadata. *)
Definition copies_metadata (c : VectorStore.StoredChunk) : Prop :=
  VectorStore.sc_document_id c = Ext.sm_document_id (VectorStore.sc_metadata c)
  /\ VectorStore.sc_filename c = Ext.sm_filename (VectorStore.sc_metadata c)
  /\ VectorStore.sc_chunk_index c
     = Ext.sm_chunk_index (VectorStore.sc_metadata c).

(** A backend in which every call succeeds: the collection holds the two
    chunks of document "a", out of order. *)
Definition stored_row (doc_id name : str) (index : Z) : Ext.StoredMetadata :=
  {| Ext.sm_document_id := doc_id;
     Ext.sm_filename := name;
     Ext.sm_chunk_index := index;
     Ext.sm_start_char := 0;
     Ext.sm_end_char := 5;
     Ext.sm_created_at := 0%Q;
     Ext.sm_chunk_size := Some 5;
     Ext.sm_total_chunks := Some 2;
     Ext.sm_page_number := None |}.

Definition working_backend : Ext.Backend :=
  {| Ext.collection_get := fun _ =>
       Ext.Ok
         {| Ext.gr_ids := [Py.of_string "a_1"; Py.of_string "a_0"];
            Ext.gr_documents := [Py.of_string "later"; Py.of_string "first"];
            Ext.gr_metadatas :=
              [stored_row (Py.of_string "a") (Py.of_string "a.txt") 1;
               stored_row (Py.of_string "a") (Py.of_string "a.txt") 0] |};
     Ext.collection_delete := fun _ => Ext.Ok tt;
     Ext.collection_count := Ext.Ok 2;
     Ext.collection_name := Py.of_string "documents";
     Ext.embedding_model_name := Py.of_string "all-MiniLM-L6-v2";
     Ext.summary_content := fun _ _ => Ext.Ok (Py.of_string "SUMMARY: ok");
     Ext.path_exists := fun _ => Ext.Ok true;
     Ext.os_remove := fun _ => Ext.Ok tt |}.

(** The answer of a collection that holds documents "a", "b" and "c":
    four rows, two of them of "b". *)
Definition library_rows : Ext.QueryResult :=
  {| Ext.documents :=
       [[Py.of_string "b zero"; Py.of_string "first";
         Py.of_string "c zero"; Py.of_string "b one"]];
     Ext.metadatas :=
       [[stored_row (Py.of_string "b") (Py.of_string "b.txt") 0;
         stored_row (Py.of_string "a") (Py.of_string "a.txt") 0;
         stored_row (Py.of_string "c") (Py.of_string "c.txt") 0;
         stored_row (Py.of_string "b") (Py.of_string "b.txt") 1]];
     Ext.distances := [[1 # 4; 3 # 8; 1 # 2; 3 # 4]] |}.

(** The first [n] rows of an answer. *)
Definition first_rows (n : nat) (rows : Ext.QueryResult) : Ext.QueryResult :=
  {| Ext.documents := List.map (take n) (Ext.documents rows);
     Ext.metadatas := List.map (take n) (Ext.metadatas rows);
     Ext.distances := List.map (take n) (Ext.distances rows) |}.

(** Services like [healthy], over that collection: a query for [n]
    results is answered with the [n] nearest rows. *)
Definition library : Ext.Services :=
  {| Ext.uuid4 := Ext.uuid4 (healthy 0);
     Ext.clock := Ext.clock (healthy 0);
     Ext.now := Ext.now (healthy 0);
     Ext.save_file := Ext.save_file (healthy 0);
     Ext.extract_text := Ext.extract_text (healthy 0);
     Ext.encode := Ext.encode (healthy 0);
     Ext.collection_add := Ext.collection_add (healthy 0);
     Ext.collection_query := fun _ n _ =>
       if 1 <=? n then Ext.Ok (first_rows (Z.to_nat n) library_rows)
       else Ext.Err (Py.of_string "n_results must be positive");
     Ext.generate_content := Ext.generate_content (healthy 0) |}.

(** An answer whose one row has no metadata, and services whose
    collection gives that answer. *)
Definition ragged_rows : Ext.QueryResult :=
  {| Ext.documents := [[Py.of_string "alpha"]];
     Ext.metadatas := [[]];
     Ext.distances := [[1 # 4]] |}.

Definition ragged_index : Ext.Services :=
  {| Ext.uuid4 := Ext.uuid4 (healthy 0);
     Ext.clock := Ext.clock (healthy 0);
     Ext.now := Ext.now (healthy 0);
     Ext.save_file := Ext.save_file (healthy 0);
     Ext.extract_text := Ext.extract_text (healthy 0);
     Ext.encode := Ext.encode (healthy 0);
     Ext.collection_add := Ext.collection_add (healthy 0);
     Ext.collection_query := fun _ _ _ => Ext.Ok ragged_rows;
     Ext.generate_content := Ext.generate_content (healthy 0) |}.

(** A backend in which every call raises. *)
Definition broken_backend : Ext.Backend :=
  {| Ext.collection_get := fun _ => Ext.Err (Py.of_string "index down");
     Ext.collection_delete := fun _ => Ext.Err (Py.of_string "index down");
     Ext.collection_count := Ext.Err (Py.of_string "index down");
     Ext.collection_name := Py.of_string "documents";
     Ext.embedding_model_name := Py.of_string "all-MiniLM-L6-v2";
     Ext.summary_content := fun _ _ => Ext.Err (Py.of_string "quota");
     Ext.path_exists := fun _ => Ext.Err (Py.of_string "io");
     Ext.os_remove := fun _ => Ext.Err (Py.of_string "io") |}.

(** * Proofs *)

(** Every [EvQuery] of an explicit list of events carries the expected
    arguments. *)
Ltac query_events :=
  let n := fresh "n" in
  let wc := fresh "wc" in
  let Hin := fresh "Hin" in
  intros n wc Hin;
  repeat (apply elem_of_cons in Hin as [Hin|Hin];
          [first [discriminate Hin | by injection Hin as -> ->]|]);
  by apply elem_of_nil in Hin.

(** Split a conjunction into its parts, without entering them. *)
Ltac split_all := repeat match goal with |- _ /\ _ => split end.

(** ** Rounding to binary64 *)

Section Float64Facts.
Import Float64.
Local Open Scope Q_scope.

Lemma two_pos (e : Z) : 0 < 2 ^ e.
Proof. by apply Qpower_0_lt. Qed.

Lemma two_succ (e : Z) : 2 ^ (e + 1) == 2 * 2 ^ e.
Proof. rewrite Qpower_plus by done. rewrite Qpower_1_r. ring. Qed.

Lemma two_pred (e : Z) : 2 * 2 ^ (e - 1) == 2 ^ e.
Proof. rewrite <- two_succ. by replace (e - 1 + 1)%Z with e by lia. Qed.

Lemma two_inject (e : Z) : (0 <= e)%Z -> inject_Z (2 ^ e) == 2 ^ e.
Proof. intros He. by rewrite Zpower_Qpower. Qed.

Lemma ratio_between (A B N D : Q) :
  0 < A -> 0 < B -> A <= N -> N < 2 * A -> B <= D -> D < 2 * B ->
  A / B < 2 * (N / D) /\ N / D < 2 * (A / B).
Proof.
  intros HA HB H1 H2 H3 H4.
  assert (0 < D) as HD by lra. assert (0 < N) as HN by lra.
  split.
  - apply Qlt_shift_div_r; [done|].
    assert (2 * (N / D) * B == 2 * N * B / D) as -> by (field; lra).
    apply Qlt_shift_div_l; [done|]. nra.
  - apply Qlt_shift_div_r; [done|].
    assert (2 * (A / B) * D == 2 * A * D / B) as -> by (field; lra).
    apply Qlt_shift_div_l; [done|]. nra.
Qed.

Lemma ilog2_spec (q : Q) :
  0 < q -> 2 ^ ilog2 q <= q /\ q < 2 ^ (ilog2 q + 1).
Proof.
  destruct q as [n d]. intros Hq.
  assert (0 < n)%Z as Hn.
  { unfold Qlt in Hq. simpl in Hq. lia. }
  unfold ilog2. cbn [Qnum Qden].
  set (a := Z.log2 n). set (b := Z.log2 (Z.pos d)).
  destruct (Z.log2_spec n Hn) as [Ha1 Ha2].
  destruct (Z.log2_spec (Z.pos d) ltac:(done)) as [Hb1 Hb2].
  fold a in Ha1, Ha2. fold b in Hb1, Hb2.
  assert (0 <= a)%Z as Ha0 by apply Z.log2_nonneg.
  assert (0 <= b)%Z as Hb0 by apply Z.log2_nonneg.
  rewrite <- Z.add_1_r in Ha2, Hb2.
  rewrite Zle_Qle, two_inject in Ha1, Hb1 by done.
  rewrite Zlt_Qlt, two_inject, two_succ in Ha2, Hb2 by lia.
  destruct (ratio_between (2 ^ a) (2 ^ b) (inject_Z n) (inject_Z (Z.pos d))
              (two_pos a) (two_pos b) Ha1 Ha2 Hb1 Hb2) as [Hlow Hhigh].
  rewrite <- Qmake_Qdiv, <- Qpower_minus in Hlow, Hhigh by done.
  destruct (Qle_bool (2 ^ (a - b)) (n # d)) eqn:Hcmp.
  - apply Qle_bool_iff in Hcmp. split; [done|]. by rewrite two_succ.
  - assert (n # d < 2 ^ (a - b)) as Hlt.
    { apply Qnot_le_lt. intros Hle. apply Qle_bool_iff in Hle. congruence. }
    replace (a - b - 1 + 1)%Z with (a - b)%Z by lia. split; [|done].
    rewrite <- two_pred in Hlow. lra.
Qed.

Lemma ilog2_monotone (x y : Q) : 0 < x -> x <= y -> (ilog2 x <= ilog2 y)%Z.
Proof.
  intros Hx Hxy.
  destruct (ilog2_spec x Hx) as [Hx1 _].
  destruct (ilog2_spec y ltac:(lra)) as [_ Hy2].
  assert (2 ^ ilog2 x < 2 ^ (ilog2 y + 1)) as Hlt by lra.
  apply Qpower_lt_compat_l_inv in Hlt; [lia|done].
Qed.

Lemma nearest_even_bounds (q : Q) :
  (Qfloor q <= nearest_even q <= Qfloor q + 1)%Z.
Proof.
  unfold nearest_even. cbv zeta.
  generalize (Qfloor q). intros f.
  destruct (_ ?= _); [destruct (Z.even _)|..]; lia.
Qed.

Lemma nearest_even_monotone (x y : Q) :
  x <= y -> (nearest_even x <= nearest_even y)%Z.
Proof.
  intros Hxy. pose proof (Qfloor_resp_le x y Hxy) as Hf.
  destruct (Z.eq_dec (Qfloor x) (Qfloor y)) as [Heq|Hne].
  - unfold nearest_even. cbv zeta. rewrite <- Heq.
    destruct (Qcompare_spec (x - inject_Z (Qfloor x)) (1 # 2));
      destruct (Qcompare_spec (y - inject_Z (Qfloor x)) (1 # 2));
      try (destruct (Z.even (Qfloor x))); try lia; exfalso; lra.
  - pose proof (nearest_even_bounds x). pose proof (nearest_even_bounds y).
    lia.
Qed.

Lemma nearest_even_integer (z : Z) : nearest_even (inject_Z z) = z.
Proof.
  unfold nearest_even. cbv zeta. rewrite Qfloor_Z.
  destruct (Qcompare_spec (inject_Z z - inject_Z z) (1 # 2));
    [exfalso; lra|done|exfalso; lra].
Qed.

Lemma round_pos_monotone (x y : Q) :
  0 < x -> x <= y -> round_pos x <= round_pos y.
Proof.
  intros Hx Hxy. assert (0 < y) as Hy by lra. unfold round_pos.
  pose proof (ilog2_monotone x y Hx Hxy) as Hl.
  set (ex := Z.max (ilog2 x - 52) (-1074)).
  set (ey := Z.max (ilog2 y - 52) (-1074)).
  destruct (Z.eq_dec ex ey) as [Heq|Hne].
  - rewrite <- Heq. apply Qmult_le_compat_r; [|apply Qlt_le_weak, two_pos].
    rewrite <- Zle_Qle. apply nearest_even_monotone.
    apply Qmult_le_compat_r; [done|].
    apply Qlt_le_weak, Qinv_lt_0_compat, two_pos.
  - assert (ex + 1 <= ey)%Z as Hlt by lia.
    assert (ey = ilog2 y - 52)%Z as Hey by lia.
    assert (ilog2 x + 1 <= ex + 53)%Z as Hex by lia.
    destruct (ilog2_spec x Hx) as [_ Hx2].
    destruct (ilog2_spec y Hy) as [Hy1 _].
    apply Qle_trans with (2 ^ (ey + 52)).
    + apply Qle_trans with (inject_Z (2 ^ 53) * 2 ^ ex).
      * apply Qmult_le_compat_r; [|apply Qlt_le_weak, two_pos].
        rewrite <- Zle_Qle, <- (nearest_even_integer (2 ^ 53)).
        apply nearest_even_monotone. apply Qle_shift_div_r; [apply two_pos|].
        rewrite two_inject, <- Qpower_plus by done.
        apply Qlt_le_weak, Qlt_le_trans with (2 ^ (ilog2 x + 1)); [done|].
        apply Qpower_le_compat_l; [lia|done].
      * rewrite two_inject, <- Qpower_plus by done.
        apply Qpower_le_compat_l; [lia|done].
    + apply Qle_trans with (inject_Z (2 ^ 52) * 2 ^ ey).
      * rewrite two_inject, <- Qpower_plus by done.
        apply Qpower_le_compat_l; [lia|done].
      * apply Qmult_le_compat_r; [|apply Qlt_le_weak, two_pos].
        rewrite <- Zle_Qle, <- (nearest_even_integer (2 ^ 52)).
        apply nearest_even_monotone. apply Qle_shift_div_l; [apply two_pos|].
        rewrite two_inject, <- Qpower_plus by done.
        apply Qle_trans with (2 ^ ilog2 y); [|done].
        apply Qpower_le_compat_l; [lia|done].
Qed.

Lemma round_pos_nonneg (x : Q) : 0 < x -> 0 <= round_pos x.
Proof.
  intros Hx. unfold round_pos.
  apply Qmult_le_0_compat; [|apply Qlt_le_weak, two_pos].
  change 0 with (inject_Z 0). rewrite <- Zle_Qle.
  rewrite <- (nearest_even_integer 0). apply nearest_even_monotone.
  apply Qle_shift_div_l; [apply two_pos|].
  change (inject_Z 0) with 0. rewrite Qmult_0_l. lra.
Qed.

Lemma sign_pos (q : Q) p : Qnum q = Z.pos p -> 0 < q.
Proof. destruct q as [n d]. simpl. intros ->. done. Qed.

Lemma sign_neg (q : Q) p : Qnum q = Z.neg p -> q < 0.
Proof. destruct q as [n d]. simpl. intros ->. done. Qed.

Lemma sign_zero (q : Q) : Qnum q = 0%Z -> q == 0.
Proof. destruct q as [n d]. simpl. intros ->. done. Qed.

Lemma round_sign (q : Q) :
  (0 <= q -> 0 <= round q) /\ (q <= 0 -> round q <= 0).
Proof.
  unfold round. destruct (Qnum q) as [|p|p] eqn:Hs.
  - split; done.
  - apply sign_pos in Hs. rewrite Qred_correct. split.
    + intros _. by apply round_pos_nonneg.
    + intros Hq. lra.
  - apply sign_neg in Hs. rewrite Qred_correct. split.
    + intros Hq. lra.
    + intros _. pose proof (round_pos_nonneg (- q) ltac:(lra)). lra.
Qed.

Lemma round_one : round 1 = 1.
Proof. by vm_compute. Qed.

Lemma round_minus_one : round (-1) = -1.
Proof. by vm_compute. Qed.

Lemma round_monotone (x y : Q) : x <= y -> round x <= round y.
Proof.
  intros Hxy.
  destruct (Qlt_le_dec 0 x) as [Hx|Hx]; [|destruct (Qlt_le_dec y 0) as [Hy|Hy]].
  - unfold round.
    destruct (Qnum x) as [|p|p] eqn:Hsx;
      [apply sign_zero in Hsx; lra| |apply sign_neg in Hsx; lra].
    destruct (Qnum y) as [|p'|p'] eqn:Hsy;
      [apply sign_zero in Hsy; lra| |apply sign_neg in Hsy; lra].
    rewrite !Qred_correct. by apply round_pos_monotone.
  - unfold round.
    destruct (Qnum x) as [|p|p] eqn:Hsx;
      [apply sign_zero in Hsx; lra|apply sign_pos in Hsx; lra|].
    destruct (Qnum y) as [|p'|p'] eqn:Hsy;
      [apply sign_zero in Hsy; lra|apply sign_pos in Hsy; lra|].
    rewrite !Qred_correct.
    pose proof (round_pos_monotone (- y) (- x) ltac:(lra) ltac:(lra)). lra.
  - apply Qle_trans with 0; [by apply round_sign|by apply round_sign].
Qed.

Lemma nearest_even_eq (x y : Q) : x == y -> nearest_even x = nearest_even y.
Proof.
  intros Hxy. apply Z.le_antisymm; apply nearest_even_monotone;
    rewrite Hxy; apply Qle_refl.
Qed.

Lemma round_pos_integer (z : Z) :
  (0 < z < 2 ^ 53)%Z -> round_pos (inject_Z z) == inject_Z z.
Proof.
  intros [Hz0 Hz]. unfold round_pos.
  assert (0 < inject_Z z) as Hq by (change 0 with (inject_Z 0); by rewrite <- Zlt_Qlt).
  destruct (ilog2_spec (inject_Z z) Hq) as [Hl _].
  assert (ilog2 (inject_Z z) < 53)%Z as Hl53.
  { apply Qpower_lt_compat_l_inv with 2; [|done].
    apply Qle_lt_trans with (inject_Z z); [done|].
    rewrite <- (two_inject 53) by done. by rewrite <- Zlt_Qlt. }
  set (e := Z.max (ilog2 (inject_Z z) - 52) (-1074)).
  assert (e <= 0)%Z as He by lia.
  assert (2 ^ e == / inject_Z (2 ^ (- e))) as Hpow.
  { rewrite two_inject by lia. rewrite <- Qpower_opp.
    by replace (- - e)%Z with e by lia. }
  assert (0 < inject_Z (2 ^ (- e))) as Hpos.
  { rewrite two_inject by lia. apply two_pos. }
  assert (inject_Z z / 2 ^ e == inject_Z (z * 2 ^ (- e))) as Hdiv.
  { rewrite Hpow, inject_Z_mult. field. lra. }
  rewrite (nearest_even_eq _ _ Hdiv), nearest_even_integer.
  rewrite Hpow, inject_Z_mult. field. lra.
Qed.

Lemma round_integer (z : Z) :
  (Z.abs z < 2 ^ 53)%Z -> round (inject_Z z) == inject_Z z.
Proof.
  intros Hz. unfold round. destruct z as [|p|p]; cbn [Qnum inject_Z].
  - done.
  - rewrite Qred_correct. apply (round_pos_integer (Z.pos p)). lia.
  - rewrite Qred_correct.
    change (- inject_Z (Z.neg p)) with (inject_Z (Z.pos p)).
    rewrite (round_pos_integer (Z.pos p)) by lia. done.
Qed.

Lemma round_le_one (q : Q) : q <= 1 -> round q <= 1.
Proof.
  intros Hq. apply Qle_trans with (round 1); [by apply round_monotone|].
  by rewrite round_one.
Qed.

Lemma round_ge_minus_one (q : Q) : -1 <= q -> -1 <= round q.
Proof.
  intros Hq. apply Qle_trans with (round (-1)); [|by apply round_monotone].
  by rewrite round_minus_one.
Qed.

End Float64Facts.

(** ** Strings *)

Section StringFacts.
Import Py.

Lemma truthy_false (s : str) : truthy s = false <-> s = [].
Proof. by destruct s. Qed.

Lemma lstrip_head (s : str) c r : lstrip s = c :: r -> is_space c = false.
Proof.
  induction s as [|x s IH]; simpl; [discriminate|].
  destruct (is_space x) eqn:Hx; [exact IH|].
  intros [= <- <-]. exact Hx.
Qed.

Lemma lstrip_nil (s : str) :
  lstrip s = [] -> Forall (fun c => is_space c = true) s.
Proof.
  induction s as [|x s IH]; simpl; intros H; [constructor|].
  destruct (is_space x) eqn:Hx; [|discriminate].
  constructor; auto.
Qed.

(** A slice that strips to nothing holds only space characters. *)
Lemma strip_nil (s : str) :
  strip s = [] -> Forall (fun c => is_space c = true) s.
Proof.
  unfold strip, rstrip. intros H.
  apply (f_equal reverse) in H. rewrite reverse_involutive in H.
  change (reverse []) with (@nil N) in H.
  apply lstrip_nil in H. rewrite Forall_reverse in H.
  destruct (lstrip s) as [|c r] eqn:Hl; [by apply lstrip_nil|].
  apply lstrip_head in Hl. inversion H; congruence.
Qed.

Lemma clamp_index_in_range n i : 0 <= i <= n -> clamp_index n i = i.
Proof. unfold clamp_index. intros H. destruct (Z.ltb_spec i 0); lia. Qed.

Lemma clamp_index_below n i : 0 < n -> i < n -> clamp_index n i < n.
Proof. unfold clamp_index. intros Hn H. destruct (Z.ltb_spec i 0); lia. Qed.

Lemma len_nonneg (s : str) : 0 <= len s.
Proof. unfold len. lia. Qed.

(** The characters of [s[a:b]] are those of [s] at the positions
    [a .. b-1]. *)
Lemma slice_elem (s : str) a b (p : nat) c :
  0 <= a -> b <= len s -> a <= Z.of_nat p < b ->
  s !! p = Some c -> c ∈ slice s a b.
Proof.
  intros Ha Hb Hp Hc. unfold slice.
  rewrite !clamp_index_in_range by (unfold len in *; lia).
  apply list_elem_of_lookup. exists (p - Z.to_nat a)%nat.
  rewrite lookup_take_lt by lia.
  rewrite lookup_drop. rewrite <- Hc. f_equal. lia.
Qed.

Lemma rfind_scan_bounds (s sub : str) lo k :
  rfind_scan s sub lo k = -1
  \/ (lo <= rfind_scan s sub lo k < lo + Z.of_nat k).
Proof.
  induction k as [|k IH]; simpl; [by left|].
  destruct (match_at _ _ _); [right; lia|].
  destruct IH as [->|IH]; [by left|right; lia].
Qed.

(** A hit of [rfind] lies wholly before the end bound. *)
Lemma rfind_bounds (s sub : str) a b :
  rfind s sub a b = -1
  \/ ((if a <? 0 then Z.max 0 (a + len s) else a) <= rfind s sub a b
      /\ rfind s sub a b + len sub <= clamp_index (len s) b).
Proof.
  unfold rfind.
  destruct (rfind_scan_bounds s sub
              (if a <? 0 then Z.max 0 (a + len s) else a)
              (Z.to_nat (clamp_index (len s) b - len sub
                         - (if a <? 0 then Z.max 0 (a + len s) else a) + 1)))
    as [->|H]; [by left|right; lia].
Qed.

End StringFacts.

(** ** The window of one loop pass *)

Section WindowFacts.
Import Py DocumentProcessor.

(** The break position is [-1] or a position of the search range whose
    successor is still inside the window. *)
Lemma best_break_bounds (text : str) search_start end_pos :
  best_break text search_start end_pos = -1
  \/ ((if search_start <? 0 then Z.max 0 (search_start + len text)
       else search_start) <= best_break text search_start end_pos
      /\ best_break text search_start end_pos + 1
         <= clamp_index (len text) end_pos).
Proof.
  unfold best_break, sentence_endings. simpl fold_left.
  pose proof (rfind_bounds text (of_string ".") search_start end_pos) as H1.
  pose proof (rfind_bounds text (of_string "!") search_start end_pos) as H2.
  pose proof (rfind_bounds text (of_string "?") search_start end_pos) as H3.
  pose proof (rfind_bounds text [10%N; 10%N] search_start end_pos) as H4.
  change (len (of_string ".")) with 1 in H1.
  change (len (of_string "!")) with 1 in H2.
  change (len (of_string "?")) with 1 in H3.
  change (len [10%N; 10%N]) with 2 in H4.
  repeat match goal with
         | |- context [if ?a <? ?b then _ else _] =>
             lazymatch a with
             | search_start => fail
             | _ => destruct (Z.ltb_spec a b)
             end
         end; lia.
Qed.

Lemma window_end_after (text : str) cs s :
  1 <= cs -> s < len text -> s < window_end text cs s.
Proof.
  intros Hcs Hs. unfold window_end.
  destruct (Z.ltb_spec (Z.min (s + cs) (len text)) (len text)).
  - destruct (Z.ltb_spec s
      (best_break text (Z.max (Z.min (s + cs) (len text) - 100) s)
         (Z.min (s + cs) (len text)))); lia.
  - lia.
Qed.

(** With a positive window size the cut never leaves the window: it is
    the window end itself, or a sentence break less than 100 characters
    before it. *)
Lemma window_end_cases (text : str) cs s :
  1 <= cs -> 0 <= s < len text ->
  window_end text cs s = Z.min (s + cs) (len text)
  \/ (s + cs < len text
      /\ s + cs - 99 <= window_end text cs s <= s + cs).
Proof.
  intros Hcs Hs. unfold window_end.
  destruct (Z.ltb_spec (Z.min (s + cs) (len text)) (len text)) as [Hlt|];
    [|by left].
  pose proof (best_break_bounds text
                (Z.max (Z.min (s + cs) (len text) - 100) s)
                (Z.min (s + cs) (len text))) as Hb.
  rewrite clamp_index_in_range in Hb by lia.
  destruct (Z.ltb_spec (Z.max (Z.min (s + cs) (len text) - 100) s) 0);
    [lia|].
  destruct (Z.ltb_spec s
      (best_break text (Z.max (Z.min (s + cs) (len text) - 100) s)
         (Z.min (s + cs) (len text)))); [|by left].
  right. lia.
Qed.

Lemma window_end_le (text : str) cs s :
  1 <= cs -> 0 <= s < len text -> window_end text cs s <= len text.
Proof.
  intros Hcs Hs. destruct (window_end_cases text cs s Hcs Hs); lia.
Qed.

(** A window of size zero ends where it starts. *)
Lemma window_end_zero (text : str) s :
  0 <= s < len text -> window_end text 0 s = s.
Proof.
  intros Hs. unfold window_end. cbv zeta.
  replace (Z.min (s + 0) (len text)) with s by lia.
  destruct (Z.ltb_spec s (len text)); [|lia].
  replace (Z.max (s - 100) s) with s by lia.
  pose proof (best_break_bounds text s s) as Hb.
  rewrite clamp_index_in_range in Hb by lia.
  destruct (Z.ltb_spec s 0); [lia|].
  destruct (Z.ltb_spec s (best_break text s s)); lia.
Qed.

(** With a window size of zero or less the cut stays short of the text
    end. *)
Lemma window_end_stuck (text : str) cs s :
  cs <= 0 -> 0 < len text -> s < len text ->
  window_end text cs s < len text.
Proof.
  intros Hcs Hn Hs. unfold window_end.
  destruct (Z.ltb_spec (Z.min (s + cs) (len text)) (len text)) as [Hlt|];
    [|lia].
  pose proof (best_break_bounds text
                (Z.max (Z.min (s + cs) (len text) - 100) s)
                (Z.min (s + cs) (len text))) as Hb.
  pose proof (clamp_index_below (len text) (Z.min (s + cs) (len text)) Hn Hlt).
  destruct (Z.ltb_spec s
      (best_break text (Z.max (Z.min (s + cs) (len text) - 100) s)
         (Z.min (s + cs) (len text)))); lia.
Qed.

End WindowFacts.

(** ** The loop of [chunk_text] *)

Lemma adjacent_snoc {A} (R : A -> A -> Prop) (l : list A) c :
  adjacent R l -> (forall d, last l = Some d -> R d c) ->
  adjacent R (l ++ [c]).
Proof.
  intros Hl Hc i x y Hx Hy.
  destruct (decide (S i < length l)%nat) as [Hi|Hi].
  - rewrite lookup_app_l in Hx by lia. rewrite lookup_app_l in Hy by lia.
    eauto.
  - assert (S i = length l) as Hi'.
    { apply lookup_lt_Some in Hy. rewrite length_app in Hy. simpl in Hy. lia. }
    rewrite lookup_app_l in Hx by lia.
    rewrite Hi', list_lookup_middle in Hy by done. injection Hy as <-.
    apply Hc. rewrite last_lookup. rewrite <- Hx. f_equal. lia.
Qed.

Section LoopFacts.
Import Py DocumentProcessor.
Context (text filename : str) (cs ov : Z).

(** What one pass does to the loop variables. *)
Lemma loop_body_start (st : LoopState) :
  ls_start_pos (loop_body text filename cs ov st)
  = Z.max (ls_start_pos st + cs - ov) (window_end text cs (ls_start_pos st)).
Proof. unfold loop_body. by destruct (truthy _). Qed.

Lemma loop_body_chunks (st : LoopState) :
  (strip (slice text (ls_start_pos st)
            (window_end text cs (ls_start_pos st))) = []
   /\ ls_chunks (loop_body text filename cs ov st) = ls_chunks st
   /\ ls_chunk_index (loop_body text filename cs ov st) = ls_chunk_index st)
  \/ (exists c,
        ls_chunks (loop_body text filename cs ov st) = ls_chunks st ++ [c]
        /\ ls_chunk_index (loop_body text filename cs ov st)
           = ls_chunk_index st + 1
        /\ chunk_index c = ls_chunk_index st
        /\ start_char c = ls_start_pos st
        /\ end_char c = window_end text cs (ls_start_pos st)).
Proof.
  unfold loop_body.
  destruct (truthy _) eqn:Ht.
  - right. eexists. repeat split; reflexivity.
  - left. apply truthy_false in Ht. by rewrite Ht.
Qed.

(** A property kept by every pass holds of the variables on exit. *)
Lemma chunk_loop_invariant (I : LoopState -> Prop) :
  (forall st, I st -> ls_start_pos st < len text ->
     I (loop_body text filename cs ov st)) ->
  forall fuel st res,
    I st -> chunk_loop fuel text filename cs ov st = Some res ->
    exists st', I st' /\ len text <= ls_start_pos st' /\ ls_chunks st' = res.
Proof.
  intros Hstep fuel. induction fuel as [|fuel IH]; intros st res HI;
    simpl; [discriminate|].
  destruct (Z.ltb_spec (ls_start_pos st) (len text)) as [Hlt|Hge].
  - intros H. apply (IH _ _ (Hstep _ HI Hlt) H).
  - intros [= <-]. exists st. auto.
Qed.

(** With a positive window size the loop leaves after at most
    [len(text)] passes. *)
Lemma chunk_loop_returns :
  1 <= cs ->
  forall fuel st,
    (Z.to_nat (len text - ls_start_pos st) < fuel)%nat ->
    is_Some (chunk_loop fuel text filename cs ov st).
Proof.
  intros Hcs fuel. induction fuel as [|fuel IH]; intros st Hf; [lia|].
  simpl. destruct (Z.ltb_spec (ls_start_pos st) (len text)) as [Hlt|Hge];
    [|eauto].
  apply IH. rewrite loop_body_start.
  pose proof (window_end_after text cs _ Hcs Hlt). lia.
Qed.

(** A finished loop gives the same chunks under any larger budget. *)
Lemma chunk_loop_budget fuel fuel' st res :
  (fuel <= fuel')%nat ->
  chunk_loop fuel text filename cs ov st = Some res ->
  chunk_loop fuel' text filename cs ov st = Some res.
Proof.
  revert fuel' st. induction fuel as [|fuel IH]; intros fuel' st Hle;
    [discriminate|].
  destruct fuel' as [|fuel']; [lia|]. simpl.
  destruct (ls_start_pos st <? len text); [|done].
  apply IH. lia.
Qed.

(** With a window size of zero or less that is smaller than the overlap,
    the cursor never reaches the end of a non-empty text. *)
Lemma chunk_loop_stuck :
  cs <= 0 -> cs < ov -> 0 < len text ->
  forall fuel st,
    ls_start_pos st < len text ->
    chunk_loop fuel text filename cs ov st = None.
Proof.
  intros Hcs Hov Hn fuel st Hs.
  destruct (chunk_loop fuel text filename cs ov st) as [res|] eqn:E;
    [|done].
  destruct (chunk_loop_invariant (fun st => ls_start_pos st < len text))
    with (fuel := fuel) (st := st) (res := res) as (st' & H1 & H2 & _);
    [|done|done|lia].
  intros st0 H0 _. rewrite loop_body_start.
  pose proof (window_end_stuck text cs _ Hcs Hn H0). lia.
Qed.

(** Each pass moves the cursor to the cut or beyond it. *)
Lemma ends_before_cursor_step (st : LoopState) :
  1 <= cs \/ ov <= cs ->
  ends_before_cursor st -> ls_start_pos st < len text ->
  ends_before_cursor (loop_body text filename cs ov st).
Proof.
  intros Hcfg [Hends Hadj] Hlt. unfold ends_before_cursor.
  rewrite loop_body_start.
  assert (ls_start_pos st
          <= Z.max (ls_start_pos st + cs - ov)
               (window_end text cs (ls_start_pos st))) as Hmono.
  { destruct Hcfg as [Hcs|Hov]; [|lia].
    pose proof (window_end_after text cs _ Hcs Hlt). lia. }
  destruct (loop_body_chunks st) as [(_ & -> & _)|(c & -> & _ & _ & Hs & He)].
  - split; [|done]. eapply Forall_impl; [exact Hends|]. simpl. lia.
  - split.
    + apply Forall_app. split.
      * eapply Forall_impl; [exact Hends|]. simpl. lia.
      * constructor; [lia|constructor].
    + apply adjacent_snoc; [done|]. intros d Hd. rewrite Hs.
      apply last_Some_elem_of in Hd.
      rewrite Forall_forall in Hends. by apply Hends.
Qed.

Lemma numbered_step (st : LoopState) :
  numbered st -> numbered (loop_body text filename cs ov st).
Proof.
  intros [Hn Hi]. unfold numbered.
  destruct (loop_body_chunks st)
    as [(_ & -> & ->)|(c & -> & -> & Hc & _ & _)]; [done|].
  split; [rewrite length_app; simpl; lia|].
  intros i x Hx. destruct (decide (i < length (ls_chunks st))%nat).
  - rewrite lookup_app_l in Hx by lia. by apply Hi.
  - assert (i = length (ls_chunks st)) as ->.
    { apply lookup_lt_Some in Hx. rewrite length_app in Hx. simpl in Hx. lia. }
    rewrite list_lookup_middle in Hx by done. injection Hx as <-. lia.
Qed.

Lemma ranges_nonempty_step (st : LoopState) :
  1 <= cs -> ranges_nonempty st -> ls_start_pos st < len text ->
  ranges_nonempty (loop_body text filename cs ov st).
Proof.
  intros Hcs Hr Hlt. unfold ranges_nonempty.
  destruct (loop_body_chunks st)
    as [(_ & -> & _)|(c & -> & _ & _ & Hs & He)]; [done|].
  apply Forall_app. split; [done|].
  constructor; [|constructor].
  pose proof (window_end_after text cs _ Hcs Hlt). lia.
Qed.

Lemma covered_app (l1 l2 : list Chunk) p :
  covered l1 p -> covered (l1 ++ l2) p.
Proof. unfold covered. rewrite Exists_app. auto. Qed.

(** With an overlap of 99 or more the cursor moves exactly to the cut, so
    the windows tile the text; a window is dropped only when it holds
    nothing but space. *)
Lemma covered_up_to_step (st : LoopState) :
  1 <= cs -> 99 <= ov ->
  covered_up_to text st -> ls_start_pos st < len text ->
  covered_up_to text (loop_body text filename cs ov st).
Proof.
  intros Hcs Hov [H0 Hcov] Hlt. unfold covered_up_to.
  rewrite loop_body_start.
  pose proof (window_end_after text cs _ Hcs Hlt) as Hafter.
  pose proof (window_end_le text cs _ Hcs (conj H0 Hlt)) as Hle.
  split; [lia|]. intros p c Hp Hc Hpos.
  assert (Z.of_nat p < len text) as Hpn.
  { apply lookup_lt_Some in Hp. unfold len. lia. }
  assert (Z.of_nat p < window_end text cs (ls_start_pos st)) as Hpw.
  { destruct (window_end_cases text cs _ Hcs (conj H0 Hlt)); lia. }
  destruct (decide (Z.of_nat p < ls_start_pos st)) as [Hold|Hnew].
  - destruct (loop_body_chunks st) as [(_ & -> & _)|(x & -> & _)];
      [|apply covered_app]; by eapply Hcov.
  - destruct (loop_body_chunks st)
      as [(Hblank & _ & _)|(x & -> & _ & _ & Hs & He)].
    + apply strip_nil in Hblank. rewrite Forall_forall in Hblank.
      assert (is_space c = true); [|congruence].
      apply Hblank. eapply slice_elem; eauto; lia.
    + unfold covered. rewrite Exists_app. right. constructor. lia.
Qed.

End LoopFacts.

(** ** [chunk_text] *)

Section ChunkTextFacts.
Import Py DocumentProcessor.
Context (cfg : Config.Settings) (text filename : str) (cs ov : Z).

(** Arguments left out are read from the settings. *)
Lemma chunk_text_defaults fuel :
  chunk_text fuel cfg text filename None None
  = chunk_text fuel cfg text filename
      (Some (Config.chunk_size cfg)) (Some (Config.chunk_overlap cfg)).
Proof. reflexivity. Qed.

(** The one-chunk path stores the text as it is. *)
Lemma chunk_text_short fuel :
  len text <= cs ->
  chunk_text fuel cfg text filename (Some cs) (Some ov)
  = Some [{| content := text; chunk_index := 0; start_char := 0;
             end_char := len text;
             metadata := {| md_filename := filename;
                            md_chunk_size := None;
                            md_total_chunks := Some 1 |} |}].
Proof.
  intros H. unfold chunk_text. simpl.
  destruct (Z.leb_spec (len text) cs); [done|lia].
Qed.

(** The windowed path is the loop followed by the [total_chunks] pass. *)
Lemma chunk_text_long fuel chunks :
  cs < len text ->
  chunk_text fuel cfg text filename (Some cs) (Some ov) = Some chunks ->
  exists raw,
    chunk_loop fuel text filename cs ov
      {| ls_start_pos := 0; ls_chunk_index := 0; ls_chunks := [] |}
    = Some raw
    /\ chunks = set_total_chunks (Z.of_nat (length raw)) <$> raw.
Proof.
  intros H. unfold chunk_text. simpl.
  destruct (Z.leb_spec (len text) cs); [lia|].
  destruct (chunk_loop _ _ _ _ _ _) as [raw|]; [|discriminate].
  intros [= <-]. by exists raw.
Qed.

(** With a positive window size [chunk_text] returns within
    [len(text) + 1] evaluations of the loop condition. *)
Lemma chunk_text_returns :
  1 <= cs ->
  exists chunks,
    chunk_text (S (length text)) cfg text filename (Some cs) (Some ov)
    = Some chunks.
Proof.
  intros Hcs. unfold chunk_text. simpl default. cbv zeta.
  destruct (Z.leb_spec (len text) cs); [eauto|].
  destruct (chunk_loop_returns text filename cs ov Hcs (S (length text))
              {| ls_start_pos := 0; ls_chunk_index := 0; ls_chunks := [] |})
    as [raw Hraw].
  { simpl. unfold len. lia. }
  rewrite Hraw. eauto.
Qed.

Lemma adjacent_set_total (R : Chunk -> Chunk -> Prop) n (raw : list Chunk) :
  (forall c d, R c d -> R (set_total_chunks n c) (set_total_chunks n d)) ->
  adjacent R raw -> adjacent R (set_total_chunks n <$> raw).
Proof.
  intros HR Hadj i c d. rewrite !list_lookup_fmap.
  destruct (raw !! i) as [c0|] eqn:Hc; [|discriminate].
  destruct (raw !! S i) as [d0|] eqn:Hd; [|discriminate].
  intros [= <-] [= <-]. eauto.
Qed.

Lemma covered_set_total n (raw : list Chunk) p :
  covered raw p -> covered (set_total_chunks n <$> raw) p.
Proof.
  unfold covered. rewrite !Exists_exists.
  intros (c & Hc & H). exists (set_total_chunks n c).
  split; [|done]. apply list_elem_of_fmap. eauto.
Qed.

Lemma indexed_set_total n (raw : list Chunk) :
  indexed raw -> indexed (set_total_chunks n <$> raw).
Proof.
  intros H i c. rewrite list_lookup_fmap.
  destruct (raw !! i) as [c0|] eqn:Hc; [|discriminate].
  intros [= <-]. exact (H i c0 Hc).
Qed.

(** The chunks of a finished loop end before the next one starts, for
    every window size and overlap: when the cursor could move backwards
    (a window size of zero or less, smaller than the overlap) the loop
    does not finish. *)
Lemma chunk_loop_disjoint fuel raw :
  chunk_loop fuel text filename cs ov
    {| ls_start_pos := 0; ls_chunk_index := 0; ls_chunks := [] |}
  = Some raw ->
  adjacent (fun c d => end_char c <= start_char d) raw.
Proof.
  intros Hraw.
  destruct (decide (1 <= cs \/ ov <= cs)) as [Hcfg|Hcfg].
  - destruct (chunk_loop_invariant text filename cs ov ends_before_cursor)
      with (fuel := fuel) (res := raw)
           (st := {| ls_start_pos := 0; ls_chunk_index := 0;
                     ls_chunks := [] |})
      as (st' & [_ H] & _ & <-); auto.
    + intros st. by apply ends_before_cursor_step.
    + split; [constructor|]. intros i c d Hc. done.
  - destruct (decide (0 < len text)) as [Hn|Hn].
    + rewrite chunk_loop_stuck in Hraw by (simpl; lia). discriminate.
    + destruct fuel as [|fuel]; [discriminate|]. simpl in Hraw.
      destruct (Z.ltb_spec 0 (len text)); [lia|].
      injection Hraw as <-. intros i c d Hc. done.
Qed.

(** With a positive window size the chunks of a finished loop are
    numbered from 0, have non-empty ranges, and follow one another. *)
Lemma chunk_loop_ordered fuel raw :
  1 <= cs ->
  chunk_loop fuel text filename cs ov
    {| ls_start_pos := 0; ls_chunk_index := 0; ls_chunks := [] |}
  = Some raw ->
  indexed raw
  /\ Forall (fun c => start_char c < end_char c) raw
  /\ adjacent (fun c d => end_char c <= start_char d) raw.
Proof.
  intros Hcs Hraw.
  destruct (chunk_loop_invariant text filename cs ov
              (fun st => numbered st /\ ranges_nonempty st
                         /\ ends_before_cursor st))
    with (fuel := fuel) (res := raw)
         (st := {| ls_start_pos := 0; ls_chunk_index := 0;
                   ls_chunks := [] |})
    as (st' & ([_ Hi] & Hr & [_ Ha]) & _ & <-); auto.
  - intros st (Hn & Hr & He) Hlt. split; [by apply numbered_step|].
    split; [by apply ranges_nonempty_step|].
    apply ends_before_cursor_step; auto.
  - split; [|split].
    + split; [done|]. intros i c Hc. done.
    + constructor.
    + split; [constructor|]. intros i c d Hc. done.
Qed.

(** With a positive window size and an overlap of 99 or more, every
    non-space character lies in the range of a chunk of the finished
    loop. *)
(** With a window size of zero every window is empty: a loop that
    finishes has emitted nothing. *)
Lemma chunk_loop_zero_window fuel raw :
  cs = 0 ->
  chunk_loop fuel text filename cs ov
    {| ls_start_pos := 0; ls_chunk_index := 0; ls_chunks := [] |}
  = Some raw ->
  raw = [].
Proof.
  intros Hcs Hraw.
  destruct (chunk_loop_invariant text filename cs ov
              (fun st => 0 <= ls_start_pos st /\ ls_chunks st = []))
    with (fuel := fuel) (res := raw)
         (st := {| ls_start_pos := 0; ls_chunk_index := 0;
                   ls_chunks := [] |})
    as (st' & [_ Hnil] & _ & <-); [|by split|exact Hraw|exact Hnil].
  intros st [Hpos Hnil] Hlt. unfold loop_body. subst cs.
  rewrite window_end_zero by lia.
  assert (slice text (ls_start_pos st) (ls_start_pos st) = []) as ->.
  { unfold slice. by rewrite Z.sub_diag. }
  change (truthy (strip [])) with false. cbv iota.
  cbn [ls_start_pos ls_chunks]. split; [lia|done].
Qed.

Lemma chunk_loop_covers fuel raw :
  1 <= cs -> 99 <= ov ->
  chunk_loop fuel text filename cs ov
    {| ls_start_pos := 0; ls_chunk_index := 0; ls_chunks := [] |}
  = Some raw ->
  forall (p : nat) c,
    text !! p = Some c -> is_space c = false -> covered raw (Z.of_nat p).
Proof.
  intros Hcs Hov Hraw p c Hp Hc.
  destruct (chunk_loop_invariant text filename cs ov (covered_up_to text))
    with (fuel := fuel) (res := raw)
         (st := {| ls_start_pos := 0; ls_chunk_index := 0;
                   ls_chunks := [] |})
    as (st' & [_ Hcov] & Hexit & <-); auto.
  - intros st. by apply covered_up_to_step.
  - split; [done|]. simpl. intros. lia.
  - eapply Hcov; eauto. apply lookup_lt_Some in Hp. unfold len in Hexit. lia.
Qed.

Lemma adjacent_weaken (R S : Chunk -> Chunk -> Prop) (P : Chunk -> Prop)
    (l : list Chunk) :
  (forall c d, P c -> P d -> R c d -> S c d) ->
  Forall P l -> adjacent R l -> adjacent S l.
Proof.
  intros HRS HP HR i c d Hc Hd. rewrite Forall_forall in HP.
  apply HRS; [eapply HP, list_elem_of_lookup_2, Hc
             |eapply HP, list_elem_of_lookup_2, Hd|by eapply HR].
Qed.

Lemma adjacent_singleton (R : Chunk -> Chunk -> Prop) c : adjacent R [c].
Proof. intros [|i] x y Hx Hy; discriminate. Qed.

End ChunkTextFacts.

(** ** The chunking claims *)

Section ChunkingClaims.
Import Py DocumentProcessor.

(** C3, at a text shorter than the window that has spaces at both ends:
    [chunk_text] returns exactly one chunk with chunk_index 0, start_char 0
    and end_char len(text), but its content is the input text itself, spaces
    included, and not the trimmed text. *)
Theorem chunk_text_short_keeps_spaces :
  len padded_text <= Config.chunk_size Config.settings
  /\ exists c,
       chunk_text 0 Config.settings padded_text [] None None = Some [c]
       /\ chunk_index c = 0 /\ start_char c = 0
       /\ end_char c = len padded_text
       /\ content c = padded_text
       /\ strip padded_text = of_string "a"
       /\ content c <> strip padded_text.
Proof.
  split; [by vm_compute|].
  eexists. split; [reflexivity|]. repeat split. by vm_compute.
Qed.

(** C4 as stated fails in two ways. With chunk_size 4 and overlap 0 the
    cut after the sentence break of "a.bcdefgh" is position 2 and the next
    window starts at 4, so positions 2 and 3 lie in no chunk. With
    chunk_size 2 and overlap 200 the windows of "ab    cd" that hold only
    spaces are dropped, so position 2 lies in no chunk. *)
Lemma chunk_text_leaves_positions_uncovered :
  (exists chunks,
     chunk_text 4 Config.settings gap_text [] (Some 4) (Some 0) = Some chunks
     /\ 0 <= 2 < len gap_text /\ ~ covered chunks 2)
  /\ (exists chunks,
        chunk_text 5 Config.settings blank_text [] (Some 2) (Some 200)
        = Some chunks
        /\ 0 <= 2 < len blank_text /\ ~ covered chunks 2).
Proof.
  split; eexists; (split; [by vm_compute|]); (split; [by vm_compute|]);
    unfold covered; rewrite Exists_exists; intros (c & Hc & H1 & H2);
    set_unfold; destruct_or!; subst; simpl in *; lia.
Qed.

(** C4, amended: for every text and every configuration with a window
    size of at least 1 and an overlap of at least 99, [chunk_text] returns,
    and the ranges of its chunks cover every position of the text that
    holds a non-space character (all positions when the text fits in one
    window), start positions are non-decreasing, and the overlap of
    adjacent chunks is within the configured overlap. *)
Theorem chunk_text_covers_text cfg text filename cs ov :
  1 <= cs -> 99 <= ov ->
  (exists chunks,
     chunk_text (S (length text)) cfg text filename (Some cs) (Some ov)
     = Some chunks)
  /\ forall fuel chunks,
       chunk_text fuel cfg text filename (Some cs) (Some ov) = Some chunks ->
       (forall (p : nat) c,
          text !! p = Some c -> is_space c = false ->
          covered chunks (Z.of_nat p))
       /\ (len text <= cs ->
           forall p, 0 <= p < len text -> covered chunks p)
       /\ adjacent (fun c d => start_char c <= start_char d) chunks
       /\ adjacent (fun c d => Z.max 0 (end_char c - start_char d) <= ov)
            chunks.
Proof.
  intros Hcs Hov. split; [by apply chunk_text_returns|].
  intros fuel chunks H.
  destruct (decide (len text <= cs)) as [Hshort|Hlong].
  - rewrite chunk_text_short in H by done. injection H as <-.
    repeat split; try apply adjacent_singleton.
    + intros p c Hp _. constructor. simpl.
      apply lookup_lt_Some in Hp. unfold len. lia.
    + intros _ p Hp. constructor. simpl. lia.
  - apply chunk_text_long in H as (raw & Hraw & ->); [|lia].
    destruct (chunk_loop_ordered _ _ _ _ _ _ Hcs Hraw) as (_ & Hne & Hadj).
    repeat split.
    + intros p c Hp Hc. apply covered_set_total.
      by eapply chunk_loop_covers.
    + lia.
    + apply adjacent_set_total; [done|].
      eapply adjacent_weaken; [|exact Hne|exact Hadj]. simpl. lia.
    + apply adjacent_set_total; [done|].
      eapply adjacent_weaken; [|exact Hne|exact Hadj]. simpl. lia.
Qed.

Lemma chunk_text_covers_text_witness :
  1 <= 2 /\ 99 <= 200
  /\ exists chunks,
       chunk_text (S (length blank_text)) Config.settings blank_text []
         (Some 2) (Some 200) = Some chunks
       /\ covered chunks 7.
Proof.
  split; [lia|]. split; [lia|].
  destruct (chunk_text_covers_text Config.settings blank_text [] 2 200
              ltac:(lia) ltac:(lia)) as [[chunks H] Hall].
  exists chunks. split; [exact H|].
  destruct (Hall _ _ H) as (Hcov & _).
  exact (Hcov 7%nat 100%N eq_refl eq_refl).
Defined.

(** C5: for every text and every configuration whose window size is a
    character count (chunk_size >= 0), the chunk_index values of the chunks
    produced by [chunk_text] are 0, 1, ..., n-1 in emission order, every
    chunk has start_char <= end_char, and both offsets are non-decreasing
    along the sequence; and the sequence is produced whenever chunk_size is
    at least 1. *)
Theorem chunk_text_indices_and_offsets cfg text filename cs ov :
  0 <= cs ->
  (1 <= cs ->
   exists chunks,
     chunk_text (S (length text)) cfg text filename (Some cs) (Some ov)
     = Some chunks)
  /\ forall fuel chunks,
       chunk_text fuel cfg text filename (Some cs) (Some ov) = Some chunks ->
       indexed chunks
       /\ Forall (fun c => start_char c <= end_char c) chunks
       /\ adjacent (fun c d => start_char c <= start_char d
                               /\ end_char c <= end_char d) chunks.
Proof.
  intros Hcs. split; [by apply chunk_text_returns|].
  intros fuel chunks H.
  destruct (decide (len text <= cs)) as [Hshort|Hlong].
  - rewrite chunk_text_short in H by done. injection H as <-.
    split; [|split]; [| |apply adjacent_singleton].
    + intros [|i] c; [|discriminate]. by intros [= <-].
    + constructor; [|constructor]. simpl. apply len_nonneg.
  - apply chunk_text_long in H as (raw & Hraw & ->); [|lia].
    destruct (decide (cs = 0)) as [Hzero|Hpos].
    + rewrite (chunk_loop_zero_window _ _ _ _ _ _ Hzero Hraw).
      split; [|split]; [by intros i c|constructor|by intros i c d].
    + assert (1 <= cs) as Hcs1 by lia.
      destruct (chunk_loop_ordered _ _ _ _ _ _ Hcs1 Hraw)
        as (Hidx & Hne & Hadj).
      split; [|split].
      * by apply indexed_set_total.
      * apply Forall_fmap. eapply Forall_impl; [exact Hne|]. simpl. lia.
      * apply adjacent_set_total; [done|].
        eapply adjacent_weaken; [|exact Hne|exact Hadj]. simpl. lia.
Qed.

Lemma chunk_text_indices_and_offsets_witness :
  0 <= 4
  /\ exists chunks,
       chunk_text (S (length gap_text)) Config.settings gap_text []
         (Some 4) (Some 0) = Some chunks
       /\ length chunks = 3%nat
       /\ indexed chunks
       /\ Forall (fun c => start_char c <= end_char c) chunks
       /\ adjacent (fun c d => start_char c <= start_char d
                               /\ end_char c <= end_char d) chunks.
Proof.
  split; [lia|].
  destruct (chunk_text_indices_and_offsets Config.settings gap_text [] 4 0
              ltac:(lia)) as [Hret Hall].
  destruct (Hret ltac:(lia)) as [chunks H].
  exists chunks. split; [exact H|].
  split; [vm_compute in H; by injection H as <-|].
  exact (Hall _ _ H).
Defined.

(** C8: for every text longer than chunk_size and every chunk_size and
    chunk_overlap, each chunk of the sequence produced by [chunk_text]
    starts at or after the end of the chunk before it, so adjacent chunks
    share no character; and the sequence is produced whenever chunk_size is
    at least 1. *)
Theorem chunk_text_adjacent_chunks_disjoint cfg text filename cs ov :
  cs < len text ->
  (1 <= cs ->
   exists chunks,
     chunk_text (S (length text)) cfg text filename (Some cs) (Some ov)
     = Some chunks)
  /\ forall fuel chunks,
       chunk_text fuel cfg text filename (Some cs) (Some ov) = Some chunks ->
       adjacent (fun c d => end_char c <= start_char d) chunks.
Proof.
  intros Hlong. split; [by apply chunk_text_returns|].
  intros fuel chunks H.
  apply chunk_text_long in H as (raw & Hraw & ->); [|done].
  apply adjacent_set_total; [done|]. by eapply chunk_loop_disjoint.
Qed.

Lemma chunk_text_adjacent_chunks_disjoint_witness :
  4 < len gap_text
  /\ exists chunks,
       chunk_text (S (length gap_text)) Config.settings gap_text []
         (Some 4) (Some 0) = Some chunks
       /\ adjacent (fun c d => end_char c <= start_char d) chunks.
Proof.
  split; [reflexivity|].
  destruct (chunk_text_adjacent_chunks_disjoint Config.settings gap_text []
              4 0 eq_refl) as [Hret Hall].
  destruct (Hret ltac:(lia)) as [chunks H].
  exists chunks. split; [exact H|exact (Hall _ _ H)].
Defined.

End ChunkingClaims.

(** ** The chat history store *)

Section HistoryClaims.
Import Ext RAGService.

(** C10: for every document id, seen before or not, [clear_chat_history]
    returns True, [get_chat_history] for that id then returns the empty
    sequence, and a second clear returns True and changes nothing more. *)
Theorem clear_chat_history_idempotent (document_id : str) (w : World) :
  exists w',
    clear_chat_history document_id w = Returned true w'
    /\ get_chat_history document_id w' = Returned [] w'
    /\ clear_chat_history document_id w' = Returned true w'.
Proof.
  unfold clear_chat_history, get_chat_history, try_except, bind,
    get_chat_history_store, set_chat_history_store, ret.
  destruct (chat_history w !! document_id) as [h|] eqn:Hh.
  - eexists. split; [reflexivity|]. simpl.
    rewrite lookup_delete_eq. by split.
  - exists w. rewrite Hh. by split.
Qed.

(** Clearing one id leaves the registry, the trace and the history of
    every other id as they were. *)
Lemma clear_chat_history_frame (document_id other : str) (w : World) :
  other <> document_id ->
  exists w',
    clear_chat_history document_id w = Returned true w'
    /\ documents_store w' = documents_store w
    /\ trace w' = trace w
    /\ chat_history w' !! other = chat_history w !! other.
Proof.
  intros Hne.
  unfold clear_chat_history, try_except, bind, get_chat_history_store,
    set_chat_history_store, ret.
  destruct (chat_history w !! document_id) as [h|] eqn:Hh.
  - eexists. split; [reflexivity|]. simpl.
    by rewrite lookup_delete_ne.
  - by exists w.
Qed.

End HistoryClaims.

(** ** Comparison *)

Section CompareClaims.
Import Ext RAGService.

(** C7: for every list of fewer than 2 document ids, [compare_documents]
    raises, and the world it leaves is the one it started in: the trace of
    outside calls has not grown, so the completion service was not
    invoked. *)
Theorem compare_documents_requires_two (ext : Services)
    (document_ids : list str) (w : World) :
  (length document_ids < 2)%nat ->
  compare_documents ext document_ids w
  = Raised (Py.of_string "Document comparison failed: "
            ++ Py.of_string "At least 2 documents are required for comparison")
      w.
Proof.
  intros Hlen. unfold compare_documents, try_except.
  destruct (Z.ltb_spec (Z.of_nat (length document_ids)) 2); [done|lia].
Qed.

Lemma compare_documents_requires_two_witness :
  (length [Py.of_string "a"] < 2)%nat
  /\ exists e,
       compare_documents (healthy (1 # 4)) [Py.of_string "a"] empty_world
       = Raised e empty_world.
Proof.
  split; [simpl; lia|]. eexists.
  apply (compare_documents_requires_two (healthy (1 # 4))
           [Py.of_string "a"] empty_world).
  simpl. lia.
Defined.

(** With two registered documents the completion service is called, once,
    with the names and texts of both. *)
Example compare_documents_calls_service :
  exists r w',
    compare_documents (healthy (1 # 4))
      [Py.of_string "a"; Py.of_string "b"] two_docs_world
    = Returned r w'
    /\ trace w'
       = [EvGenerate
            (ComparePrompt
               [(Py.of_string "a.txt", Py.of_string "first text");
                (Py.of_string "b.txt", Py.of_string "second text")])]
    /\ List.map di_filename (cr_documents r)
       = [Py.of_string "a.txt"; Py.of_string "b.txt"].
Proof. eexists. eexists. split; [by vm_compute|]. by split. Qed.

(** The line scan on an answer in the requested format. *)
Example parse_comparison_reply :
  GeminiService.parse_comparison comparison_reply
  = {| GeminiService.similarities := [Py.of_string "both are notes"];
       GeminiService.differences := [Py.of_string "length"];
       GeminiService.common_themes :=
         [Py.of_string "work"; Py.of_string "home"] |}.
Proof. by vm_compute. Qed.

End CompareClaims.

(** ** Retrieval *)

Section SearchFacts.
Import Ext VectorStore.
Context (ext : Services).

(** [search_similar_chunks] always returns; it touches nothing but the
    trace, queries the collection with the filter of [where_clause], and
    returns the formatted rows, or nothing when a call raises or a row
    cannot be formatted. *)
Lemma search_similar_chunks_spec (query : str)
    (document_ids : option (list str)) (top_k : Z) (w : World) :
  exists chunks evs w',
    search_similar_chunks ext query document_ids top_k w = Returned chunks w'
    /\ extends_by evs w w'
    /\ (forall n wc, EvQuery n wc ∈ evs ->
          n = top_k /\ wc = where_clause document_ids)
    /\ (search_fails ext query document_ids top_k -> chunks = [])
    /\ (forall results chunks',
          search_returns ext query document_ids top_k results chunks' ->
          chunks = chunks')
    /\ (chunks <> [] ->
        exists results,
          search_returns ext query document_ids top_k results chunks)
    /\ evs = search_events ext query document_ids top_k.
Proof.
  unfold search_similar_chunks, try_except, bind, call_result, of_option,
    ret, search_fails, search_returns, search_events.
  destruct (encode ext [query]) as [emb|e] eqn:Henc.
  - destruct (collection_query ext emb top_k (where_clause document_ids))
      as [results|e] eqn:Hq.
    + destruct (format_results results) as [chunks|] eqn:Hf.
      * exists chunks,
          [EvQuery top_k (where_clause document_ids); EvEncode [query]].
        eexists. split; [reflexivity|]. split; [by repeat split|].
        split; [query_events|]. split; [congruence|].
        split; [|split; [|done]].
        -- intros r c' (emb' & [= <-] & Hq' & Hf'). congruence.
        -- intros _. exists results, emb. auto.
      * exists [],
          [EvQuery top_k (where_clause document_ids); EvEncode [query]].
        eexists. split; [reflexivity|]. split; [by repeat split|].
        split; [query_events|]. split; [done|]. split; [|by split].
        intros r c' (emb' & [= <-] & Hq' & Hf'). congruence.
    + exists [],
        [EvQuery top_k (where_clause document_ids); EvEncode [query]].
      eexists. split; [reflexivity|]. split; [by repeat split|].
      split; [query_events|]. split; [done|]. split; [|by split].
      intros r c' (emb' & [= <-] & Hq' & Hf'). congruence.
  - exists [], [EvEncode [query]].
    eexists. split; [reflexivity|]. split; [by repeat split|].
    split; [query_events|]. split; [done|]. split; [|by split].
    intros r c' (emb' & [=] & _).
Qed.

(** A formatted row carries the content, the metadata and the float
    difference of 1 and the distance of its position. *)
Lemma format_results_lookup (results : QueryResult) chunks i c :
  format_results results = Some chunks -> chunks !! i = Some c ->
  exists d,
    reported_distance results i = Some d
    /\ similarity_score c = Float64.sub 1 d.
Proof.
  unfold format_results, reported_distance.
  destruct (documents results) as [|docs0 rest] eqn:Hd.
  { intros [= <-]. done. }
  intros Hm Hc. apply mapM_Some in Hm.
  destruct (Forall2_lookup_r _ _ _ _ _ Hm Hc) as (j & Hj & Hfmt).
  apply lookup_seq in Hj as [-> _]. simpl in Hfmt.
  unfold format_result in Hfmt. rewrite Hd in Hfmt. simpl in Hfmt.
  destruct (docs0 !! i); [|done]. simpl in Hfmt.
  destruct (metadatas results !! O) as [metas0|]; [|done]. simpl in Hfmt.
  destruct (metas0 !! i); [|done]. simpl in Hfmt.
  destruct (distances results !! O) as [dists0|]; [|done]. simpl in *.
  destruct (dists0 !! i) as [d|]; [|done]. simpl in Hfmt.
  injection Hfmt as <-. by exists d.
Qed.

Lemma format_results_length (results : QueryResult) chunks :
  format_results results = Some chunks ->
  chunks = []
  \/ exists docs0, documents results !! O = Some docs0
                   /\ length chunks = length docs0.
Proof.
  unfold format_results.
  destruct (documents results) as [|docs0 rest] eqn:Hd.
  { intros [= <-]. by left. }
  intros Hm. right. exists docs0. split; [done|].
  apply length_mapM in Hm. by rewrite length_seq in Hm.
Qed.

End SearchFacts.

Section SearchClaims.
Import Ext VectorStore.

(** C2 as stated fails on the score range: a chunk that the collection
    reports at distance 3/2, which lies in [0,2], gets the similarity score
    1 - 3/2 = -1/2, which is below 0. *)
Lemma search_similar_chunks_negative_score :
  exists c w',
    search_similar_chunks (healthy (3 # 2)) (Py.of_string "q") None 5
      empty_world = Returned [c] w'
    /\ reported_distance (one_row (3 # 2)) 0 = Some (3 # 2)
    /\ (0 <= 3 # 2 <= 2)%Q
    /\ (similarity_score c < 0)%Q.
Proof.
  eexists. eexists. split; [reflexivity|]. split; [reflexivity|].
  split; [split; discriminate|]. by vm_compute.
Qed.

(** C2, amended: for every query with top_k >= 0, against a collection
    that answers a query for n results with at most n rows, nearest first,
    [search_similar_chunks] returns at most top_k chunks, in the order of
    the collection and therefore by descending similarity score, and the
    score of every returned chunk is the float difference of 1 and the
    distance reported for it: it lies in [-1,1] when that distance lies in
    [0,2], and in [0,1] when the distance lies in [0,1]. *)
Theorem search_similar_chunks_ranked (ext : Services) (query : str)
    (document_ids : option (list str)) (top_k : Z) (w : World) :
  0 <= top_k ->
  index_honours_top_k ext ->
  index_ranks_by_distance ext ->
  exists chunks w',
    search_similar_chunks ext query document_ids top_k w = Returned chunks w'
    /\ Z.of_nat (length chunks) <= top_k
    /\ adjacent (fun c d => (similarity_score d <= similarity_score c)%Q)
         chunks
    /\ forall i c,
         chunks !! i = Some c ->
         exists results d,
           search_returns ext query document_ids top_k results chunks
           /\ reported_distance results i = Some d
           /\ similarity_score c = Float64.sub 1 d
           /\ ((0 <= d <= 2)%Q -> (-1 <= similarity_score c <= 1)%Q)
           /\ ((0 <= d <= 1)%Q -> (0 <= similarity_score c <= 1)%Q).
Proof.
  intros Hk Htop Hrank.
  destruct (search_similar_chunks_spec ext query document_ids top_k w)
    as (chunks & evs & w' & Hrun & _ & _ & _ & _ & Hres & _).
  exists chunks, w'. split; [exact Hrun|].
  destruct (decide (chunks = [])) as [->|Hne].
  { split; [simpl; lia|]. split; intros i c; by rewrite lookup_nil. }
  destruct (Hres Hne) as (results & Hsr).
  pose proof Hsr as (emb & Henc & Hq & Hfmt).
  split; [|split].
  - destruct (format_results_length results chunks Hfmt)
      as [->|(docs0 & Hd & ->)]; [simpl; lia|].
    eapply Htop; eauto.
  - intros i c d Hc Hd.
    destruct (format_results_lookup results chunks i c Hfmt Hc)
      as (di & Hdi & ->).
    destruct (format_results_lookup results chunks (S i) d Hfmt Hd)
      as (dj & Hdj & ->).
    unfold reported_distance in Hdi, Hdj.
    destruct (distances results !! O) as [dists0|] eqn:Hdist; [|done].
    simpl in Hdi, Hdj.
    pose proof (Hrank _ _ _ _ _ Hq Hdist i di dj Hdi Hdj).
    apply round_monotone. lra.
  - intros i c Hc.
    destruct (format_results_lookup results chunks i c Hfmt Hc)
      as (d & Hd & Hs).
    exists results, d. rewrite Hs.
    split; [done|]. split; [done|]. split; [done|].
    unfold Float64.sub. split; intros [Hlo Hhi]; split.
    + apply round_ge_minus_one. lra.
    + apply round_le_one. lra.
    + apply round_sign. lra.
    + apply round_le_one. lra.
Qed.

Lemma library_honours_top_k : index_honours_top_k library.
Proof.
  intros emb n wc results docs0 Hq Hd. simpl in Hq.
  destruct (Z.leb_spec 1 n); [|discriminate].
  injection Hq as <-. injection Hd as <-. rewrite length_take. simpl. lia.
Qed.

Lemma library_ranks_by_distance : index_ranks_by_distance library.
Proof.
  intros emb n wc results dists0 Hq Hd. simpl in Hq.
  destruct (Z.leb_spec 1 n); [|discriminate].
  injection Hq as <-. injection Hd as <-. intros i x y Hx Hy.
  apply lookup_take_Some in Hx as [Hx _].
  apply lookup_take_Some in Hy as [Hy _].
  destruct i as [|[|[|[|i]]]]; try discriminate;
    injection Hx as <-; injection Hy as <-; discriminate.
Qed.

Lemma search_similar_chunks_ranked_witness :
  0 <= 3
  /\ exists chunks w',
       search_similar_chunks library (Py.of_string "q") None 3 empty_world
       = Returned chunks w'
       /\ length chunks = 3%nat
       /\ adjacent (fun c d => (similarity_score d <= similarity_score c)%Q)
            chunks
       /\ Forall (fun c => (0 <= similarity_score c <= 1)%Q) chunks.
Proof.
  split; [lia|].
  destruct (search_similar_chunks_ranked library (Py.of_string "q") None 3
              empty_world ltac:(lia) library_honours_top_k
              library_ranks_by_distance)
    as (chunks & w' & Hrun & _ & Hsorted & Hscore).
  exists chunks, w'. split; [exact Hrun|].
  assert (length chunks = 3%nat) as Hlen.
  { vm_compute in Hrun. by injection Hrun as <- _. }
  split; [exact Hlen|]. split; [exact Hsorted|].
  apply Forall_lookup. intros i c Hc.
  destruct (Hscore i c Hc) as (results & d & Hsr & Hd & _ & _ & H01).
  apply H01. destruct Hsr as (emb & _ & [= <-] & _).
  destruct i as [|[|[|i]]]; try (injection Hd as <-; split; discriminate).
  apply lookup_lt_Some in Hc. lia.
Defined.

End SearchClaims.

(** ** Answering *)

Section AskFacts.
Import Ext Models RAGService.
Context (ext : Services).

(** Appending to the history never raises and touches nothing else. *)
Lemma for_each_append_history (resp : ChatResponse) (ids : list str)
    (w : World) :
  exists us w',
    for_each (append_history resp) ids w = Returned us w'
    /\ trace w' = trace w
    /\ documents_store w' = documents_store w.
Proof.
  revert w. induction ids as [|doc_id ids IH]; intros w.
  - exists [], w. done.
  - simpl. unfold bind at 1. unfold append_history at 1.
    unfold bind at 1, get_chat_history_store, set_chat_history_store.
    cbv beta iota. unfold bind.
    match goal with
    | |- context [for_each _ ids ?w1] =>
        destruct (IH w1) as (us & w' & Hrun & Htr & Hds)
    end.
    rewrite Hrun. exists (tt :: us), w'. done.
Qed.

(** [generate_response] always returns: the text of the model, or the
    apology when the model raises. *)
Lemma generate_response_spec (prompt context : str) (w : World) :
  exists answer,
    GeminiService.generate_response ext prompt context w
    = Returned answer (log (EvGenerate (AnswerPrompt context prompt)) w)
    /\ ((exists e, generate_content ext (AnswerPrompt context prompt) = Err e)
        -> answer = apology)
    /\ (forall t, generate_content ext (AnswerPrompt context prompt) = Ok t
        -> answer = t).
Proof.
  unfold GeminiService.generate_response, try_except, call_result, ret.
  destruct (generate_content ext (AnswerPrompt context prompt)) as [t|e].
  - exists t. split; [done|]. split; [by intros [e [=]]|by intros t' [= <-]].
  - exists apology. split; [done|]. split; [done|by intros t' [=]].
Qed.

(** The handler of [ask_question]: should the search step or the
    generation step raise, the call still returns, with the error message
    as its answer, no sources, and the time elapsed. The two services
    never raise, so [ask_question] itself does not take this path. *)
Lemma ask_question_with_handler
    (search : str -> option (list str) -> Z -> M (list VectorStore.FoundChunk))
    (generate : str -> str -> M str)
    (question : str) (document_ids : option (list str)) (max_sources : Z)
    (w : World) e w1 :
  search question document_ids max_sources (log EvTime w) = Raised e w1
  \/ (exists c chunks w0,
        search question document_ids max_sources (log EvTime w)
        = Returned (c :: chunks) w0
        /\ generate question
             (Py.join context_separator
                (List.map context_part (c :: chunks))) w0
           = Raised e w1) ->
  ask_question_with ext search generate question document_ids max_sources w
  = Returned
      {| Models.question := question;
         answer := Py.of_string
           "I encountered an error while processing your question: " ++ e;
         sources := [];
         response_time :=
           Float64.sub (clock ext (trace w1)) (clock ext (trace w));
         timestamp := now ext (EvTime :: trace w1);
         Models.document_ids := ids_or_empty document_ids |}
      (log EvNow (log EvTime w1)).
Proof.
  intros Hraise.
  unfold ask_question_with, bind at 1, call at 1. cbv beta iota.
  unfold try_except, bind at 1.
  destruct Hraise as [->|(c & chunks & w0 & -> & Hgen)].
  - reflexivity.
  - cbv beta iota. unfold bind at 1. by rewrite Hgen.
Qed.

(** The paths of [ask_question]: it always returns; with no chunk found
    it gives the fixed answer without calling the model; otherwise it
    sends the prompt built from the chunks, attaches one source per chunk,
    and appends to the history only under a filter. *)
Lemma ask_question_spec (question : str) (document_ids : option (list str))
    (max_sources : Z) (w : World) :
  exists chunks sevs resp w',
    ask_question ext question document_ids max_sources w = Returned resp w'
    /\ (forall n wc, EvQuery n wc ∈ sevs ->
          n = max_sources /\ wc = VectorStore.where_clause document_ids)
    /\ (search_fails ext question document_ids max_sources -> chunks = [])
    /\ (forall results chunks',
          search_returns ext question document_ids max_sources results
            chunks' -> chunks = chunks')
    /\ Models.question resp = question
    /\ Models.document_ids resp = ids_or_empty document_ids
    /\ response_time resp
       = Float64.sub
           (clock ext (match chunks with
                       | [] => sevs
                       | _ =>
                           EvGenerate (answer_prompt question chunks) :: sevs
                       end ++ EvTime :: trace w))
           (clock ext (trace w))
    /\ documents_store w' = documents_store w
    /\ match chunks with
       | [] =>
           answer resp = not_found_answer
           /\ sources resp = []
           /\ trace w' = EvNow :: EvTime :: sevs ++ EvTime :: trace w
           /\ chat_history w' = chat_history w
       | _ :: _ =>
           sources resp = List.map source_of chunks
           /\ trace w'
              = EvNow :: EvTime :: EvGenerate (answer_prompt question chunks)
                  :: sevs ++ EvTime :: trace w
           /\ (completion_fails ext question chunks -> answer resp = apology)
           /\ (forall t,
                 generate_content ext (answer_prompt question chunks) = Ok t ->
                 answer resp = t)
           /\ (VectorStore.where_clause document_ids = None ->
               chat_history w' = chat_history w)
       end
    /\ sevs = search_events ext question document_ids max_sources.
Proof.
  destruct (search_similar_chunks_spec ext question document_ids max_sources
              (log EvTime w))
    as (chunks & sevs & w1 & Hrun & [Htr [Hds Hch]] & Hq & Hfail & Hret & _
        & Hevs).
  simpl in Htr, Hds, Hch.
  exists chunks, sevs.
  unfold ask_question, ask_question_with, bind at 1, call at 1.
  cbv beta iota.
  unfold try_except, bind at 1. rewrite Hrun. cbv beta iota.
  destruct chunks as [|c chunks].
  - unfold bind, call, ret. cbv beta iota.
    eexists. eexists. split; [reflexivity|].
    simpl. rewrite Htr. split_all; auto.
  - destruct (generate_response_spec question
                (Py.join context_separator
                   (List.map context_part (c :: chunks))) w1)
      as (ans & Hgen & Hbad & Hgood).
    unfold bind at 1. rewrite Hgen. cbv beta iota.
    unfold bind at 1, call at 1. cbv beta iota.
    unfold bind at 1, call at 1. cbv beta iota.
    unfold bind at 1.
    destruct document_ids as [[|d ds]|].
    + unfold ret. eexists. eexists. split; [reflexivity|].
      simpl. rewrite Htr. split_all; auto.
    + unfold bind at 1.
      match goal with
      | |- context [for_each (append_history ?r) (d :: ds) ?w2] =>
          destruct (for_each_append_history r (d :: ds) w2)
            as (us & w3 & Hloop & Htr3 & Hds3)
      end.
      rewrite Hloop. unfold ret.
      eexists. eexists. split; [reflexivity|].
      simpl in Htr3, Hds3. simpl. rewrite Htr3, Hds3, Htr.
      split_all; auto. discriminate.
    + unfold ret. eexists. eexists. split; [reflexivity|].
      simpl. rewrite Htr. split_all; auto.
Qed.

End AskFacts.

Section AskClaims.
Import Ext Models RAGService.

(** C6 as stated fails on the sources: when the collection returns a chunk
    and the completion service raises, [ask_question] returns the apology
    as its answer together with the source of that chunk, not with empty
    sources. *)
Lemma ask_question_keeps_sources_on_completion_failure :
  exists resp w',
    ask_question completion_down (Py.of_string "q") None 5 empty_world
    = Returned resp w'
    /\ (forall p, exists e, generate_content completion_down p = Err e)
    /\ answer resp = apology
    /\ sources resp <> [].
Proof.
  eexists. eexists. split; [reflexivity|].
  split; [intros p; eexists; reflexivity|]. split; [reflexivity|].
  discriminate.
Qed.

(** C6, amended: for every question [ask_question] returns a ChatResponse
    and never raises. The response carries the elapsed time: the clock is
    read once at entry and once after the calls of the search and of the
    completion service, and response_time is the float difference of the
    second reading and the first. If the chunk search fails (the embedding
    or the query raises, or a row cannot be formatted), the answer is the
    fixed no-relevant-information message and the sources are empty. If
    chunks are found and the completion service raises, the answer is the
    apology and the sources are those of the retrieved chunks. *)
Theorem ask_question_always_answers (ext : Services) (question : str)
    (document_ids : option (list str)) (max_sources : Z) (w : World) :
  exists resp gen w',
    ask_question ext question document_ids max_sources w = Returned resp w'
    /\ trace w'
       = EvNow :: EvTime
           :: gen ++ search_events ext question document_ids max_sources
           ++ EvTime :: trace w
    /\ response_time resp
       = Float64.sub
           (clock ext
              (gen ++ search_events ext question document_ids max_sources
               ++ EvTime :: trace w))
           (clock ext (trace w))
    /\ (search_fails ext question document_ids max_sources ->
        answer resp = not_found_answer /\ sources resp = [])
    /\ (forall results chunks,
          search_returns ext question document_ids max_sources results
            chunks ->
          chunks <> [] ->
          completion_fails ext question chunks ->
          answer resp = apology
          /\ sources resp = List.map source_of chunks).
Proof.
  destruct (ask_question_spec ext question document_ids max_sources w)
    as (chunks & sevs & resp & w' & Hrun & _ & Hfail & Hret & _ & _
        & Htime & _ & Hpath & <-).
  exists resp,
    (match chunks with
     | [] => []
     | _ :: _ => [EvGenerate (answer_prompt question chunks)]
     end), w'.
  split; [exact Hrun|]. split; [|split; [|split]].
  - destruct chunks as [|c rest].
    + by destruct Hpath as (_ & _ & -> & _).
    + by destruct Hpath as (_ & -> & _).
  - rewrite Htime. by destruct chunks.
  - intros Hf. rewrite (Hfail Hf) in Hpath. by destruct Hpath as (? & ? & _).
  - intros results chunks' Hsr Hne Hcf. rewrite <- (Hret _ _ Hsr) in *.
    destruct chunks as [|c rest]; [done|].
    destruct Hpath as (Hsrc & _ & Hbad & _). auto.
Qed.

Lemma ask_question_always_answers_witness :
  search_fails ragged_index (Py.of_string "q") None 5
  /\ exists resp w',
       ask_question ragged_index (Py.of_string "q") None 5 empty_world
       = Returned resp w'
       /\ answer resp = not_found_answer /\ sources resp = []
       /\ trace w'
          = [EvNow; EvTime; EvQuery 5 None; EvEncode [Py.of_string "q"];
             EvTime]
       /\ response_time resp = 3%Q.
Proof.
  assert (search_fails ragged_index (Py.of_string "q") None 5) as Hfails
    by reflexivity.
  split; [exact Hfails|].
  destruct (ask_question_always_answers ragged_index (Py.of_string "q")
              None 5 empty_world)
    as (resp & gen & w' & Hrun & Htr & Htime & Hfail & _).
  exists resp, w'. split; [exact Hrun|].
  destruct (Hfail Hfails) as [Hans Hsrc]. split; [exact Hans|].
  split; [exact Hsrc|].
  vm_compute in Hrun. injection Hrun as <- <-. split; by vm_compute.
Defined.

(** C9: [ask_question] with document_ids equal to the empty list does what
    it does with document_ids left out: the two calls have the same
    outcome. The search is made without a filter: the question is embedded
    and, when that succeeds, the collection is queried for max_sources rows
    over all documents; these are the only calls besides the clock readings
    and the completion, and the sources of the response are those of the
    rows that this unfiltered query returns. The chat history is as it was,
    and the document_ids of the returned ChatResponse is the empty list. *)
Theorem ask_question_empty_scope (ext : Services) (question : str)
    (max_sources : Z) (w : World) :
  ask_question ext question (Some []) max_sources w
  = ask_question ext question None max_sources w
  /\ exists resp gen w',
       ask_question ext question (Some []) max_sources w = Returned resp w'
       /\ Models.document_ids resp = []
       /\ trace w'
          = EvNow :: EvTime
              :: gen ++ search_events ext question None max_sources
              ++ EvTime :: trace w
       /\ Forall (fun ev => exists p, ev = EvGenerate p) gen
       /\ EvEncode [question]
            ∈ search_events ext question None max_sources
       /\ (forall emb, encode ext [question] = Ok emb ->
             EvQuery max_sources None
               ∈ search_events ext question None max_sources)
       /\ (forall results chunks,
             search_returns ext question None max_sources results chunks ->
             sources resp = List.map source_of chunks)
       /\ chat_history w' = chat_history w.
Proof.
  split; [reflexivity|].
  destruct (ask_question_spec ext question (Some []) max_sources w)
    as (chunks & sevs & resp & w' & Hrun & _ & _ & Hret & _ & Hids
        & _ & _ & Hpath & Hsevs).
  change (search_events ext question (Some []) max_sources)
    with (search_events ext question None max_sources) in Hsevs.
  subst sevs.
  exists resp,
    (match chunks with
     | [] => []
     | _ :: _ => [EvGenerate (answer_prompt question chunks)]
     end), w'.
  split; [exact Hrun|]. split; [exact Hids|]. split_all.
  - destruct chunks as [|c rest].
    + by destruct Hpath as (_ & _ & -> & _).
    + by destruct Hpath as (_ & -> & _).
  - destruct chunks; repeat constructor. by eexists.
  - unfold search_events. destruct (encode ext [question]).
    + apply list_elem_of_further, list_elem_of_here.
    + apply list_elem_of_here.
  - intros emb Henc. unfold search_events. rewrite Henc.
    apply list_elem_of_here.
  - intros results chunks' Hsr.
    rewrite <- (Hret results chunks' Hsr).
    destruct chunks as [|c rest].
    + by destruct Hpath as (_ & -> & _).
    + by destruct Hpath as (-> & _).
  - destruct chunks as [|c rest].
    + by destruct Hpath as (_ & _ & _ & ->).
    + destruct Hpath as (_ & _ & _ & _ & Hch). by apply Hch.
Qed.

End AskClaims.

(** ** Ingestion *)

Section IngestFacts.
Import Ext Models RAGService.
Context (ext : Services).

Lemma prepare_chunks_spec (document_id filename : str) (i : nat)
    (chunks : list DocumentProcessor.Chunk) (w : World) :
  exists rows w',
    VectorStore.prepare_chunks ext document_id filename i chunks w
    = Returned rows w'
    /\ same_stores w w'.
Proof.
  revert i w. induction chunks as [|chunk rest IH]; intros i w.
  - exists [], w. by split.
  - simpl. unfold bind at 1, call at 1. cbv beta iota. unfold bind at 1.
    destruct (IH (S i) (log EvNow w)) as (rows & w' & Hrun & Hsame).
    rewrite Hrun. eexists. exists w'. split; [reflexivity|exact Hsame].
Qed.

(** The adapter reports success or failure, and touches neither dict. *)
Lemma add_document_chunks_spec (document_id : str)
    (chunks : list DocumentProcessor.Chunk) (filename : str) (w : World) :
  exists success w',
    VectorStore.add_document_chunks ext document_id chunks filename w
    = Returned success w'
    /\ same_stores w w'.
Proof.
  unfold VectorStore.add_document_chunks, try_except, bind at 1.
  destruct (prepare_chunks_spec document_id filename O chunks w)
    as (rows & w1 & -> & Hds & Hch).
  unfold bind, call_result, ret.
  destruct (encode ext _) as [embeddings|e].
  - destruct (collection_add ext _ _ _ _) as [[]|e];
      eexists; eexists; (split; [reflexivity|]); by split.
  - eexists. eexists. split; [reflexivity|]. by split.
Qed.

(** However [process_document] comes to raise, it leaves both dicts as
    they were: the registry is written only on the path that returns. *)
Lemma process_document_raises_clean (cfg : Config.Settings) (fuel : nat)
    (file_content : list Byte.byte) (filename content_type : str)
    (w : World) e w' :
  process_document ext cfg fuel file_content filename content_type w
  = Raised e w' ->
  same_stores w w'.
Proof.
  unfold process_document, try_except, bind at 1, call at 1.
  cbv beta iota. unfold bind at 1, call_result at 1.
  destruct (save_file ext file_content filename) as [file_path|e0];
    [|intros [= _ <-]; by split].
  cbv beta iota. unfold bind at 1, call at 1. cbv beta iota.
  destruct (Py.truthy (fst (extract_text ext file_path filename)));
    [|intros [= _ <-]; by split].
  change (negb true) with false. cbv iota.
  unfold bind at 1, of_budget at 1.
  destruct (DocumentProcessor.chunk_text fuel cfg _ filename None None)
    as [[|chunk rest]|]; [intros [= _ <-]; by split| |discriminate].
  cbv beta iota. unfold bind at 1.
  destruct (add_document_chunks_spec (uuid4 ext (trace w)) (chunk :: rest)
              filename
              (log (EvExtract file_path filename)
                 (log (EvSaveFile filename) (log EvUuid w))))
    as ([|] & w3 & -> & Hsame).
  - discriminate.
  - intros [= _ <-]. exact Hsame.
Qed.

End IngestFacts.

Section IngestClaims.
Import Ext Models RAGService.

(** C1: for every ingest call in which the file was saved, if the extracted
    text is empty, or chunking yields no chunk, or the adapter reports
    failure for the chunks, then [process_document] raises, and the
    document registry and the chat history store are as they were before
    the call. *)
Theorem process_document_failure_registers_nothing (ext : Services)
    (cfg : Config.Settings) (fuel : nat) (file_content : list Byte.byte)
    (filename content_type : str) (w : World) (file_path : str) :
  save_file ext file_content filename = Ok file_path ->
  (fst (extract_text ext file_path filename) = []
   \/ DocumentProcessor.chunk_text fuel cfg
        (fst (extract_text ext file_path filename)) filename None None
      = Some []
   \/ exists chunks w2,
        DocumentProcessor.chunk_text fuel cfg
          (fst (extract_text ext file_path filename)) filename None None
        = Some chunks
        /\ VectorStore.add_document_chunks ext (uuid4 ext (trace w)) chunks
             filename (before_insert w file_path filename)
           = Returned false w2) ->
  exists e w',
    process_document ext cfg fuel file_content filename content_type w
    = Raised e w'
    /\ same_stores w w'.
Proof.
  intros Hsave Hcase.
  unfold process_document, try_except, bind at 1, call at 1.
  cbv beta iota. unfold bind at 1, call_result at 1. rewrite Hsave.
  cbv beta iota. unfold bind at 1, call at 1. cbv beta iota.
  destruct (fst (extract_text ext file_path filename)) as [|ch text] eqn:Htext.
  { simpl. eexists. eexists. split; [reflexivity|]. by split. }
  change (negb (Py.truthy (ch :: text))) with false. cbv iota.
  unfold bind at 1, of_budget at 1.
  destruct Hcase as [Hempty|[Hnone|(chunks & w2 & Hchunks & Hadd)]];
    [discriminate| |].
  - rewrite Hnone. cbv beta iota.
    eexists. eexists. split; [reflexivity|]. by split.
  - rewrite Hchunks. cbv beta iota.
    destruct chunks as [|chunk rest].
    { eexists. eexists. split; [reflexivity|]. by split. }
    destruct (add_document_chunks_spec ext (uuid4 ext (trace w))
                (chunk :: rest) filename (before_insert w file_path filename))
      as (success & w3 & Hrun & Hsame).
    rewrite Hadd in Hrun. injection Hrun as <- <-.
    unfold before_insert in Hadd.
    unfold bind at 1. rewrite Hadd. cbv beta iota.
    change (negb false) with true. cbv iota.
    eexists. eexists. split; [reflexivity|]. exact Hsame.
Qed.

End IngestClaims.

Section IngestExamples.
Import Ext Models RAGService.

Lemma process_document_failure_registers_nothing_witness :
  save_file index_down [] (Py.of_string "notes.txt")
  = Ok (Py.of_string "uploads/doc-1.txt")
  /\ exists e w',
       process_document index_down Config.settings 0 []
         (Py.of_string "notes.txt") (Py.of_string "text/plain") empty_world
       = Raised e w'
       /\ same_stores empty_world w'.
Proof.
  split; [reflexivity|].
  apply (process_document_failure_registers_nothing index_down
           Config.settings 0 [] (Py.of_string "notes.txt")
           (Py.of_string "text/plain") empty_world
           (Py.of_string "uploads/doc-1.txt")); [reflexivity|].
  right. right. eexists. eexists. split; reflexivity.
Defined.

(** When every step succeeds the document is registered under its id. *)
Example process_document_registers :
  exists doc w',
    process_document (healthy (1 # 4)) Config.settings 0 []
      (Py.of_string "notes.txt") (Py.of_string "text/plain") empty_world
    = Returned doc w'
    /\ id doc = Py.of_string "doc-1"
    /\ (de_text <$> documents_store w' !! Py.of_string "doc-1")
       = Some (Py.of_string "hello world").
Proof.
  eexists. eexists. split; [reflexivity|]. split; [reflexivity|].
  by vm_compute.
Qed.

(** Under a filter the exchange is appended to the history of the listed
    document, and the query carries the filter. *)
Example ask_question_scoped :
  exists resp w',
    ask_question (healthy (1 # 4)) (Py.of_string "q")
      (Some [Py.of_string "doc-1"]) 5 empty_world
    = Returned resp w'
    /\ chat_history w' !! Py.of_string "doc-1" = Some [resp]
    /\ EvQuery 5 (Some [Py.of_string "doc-1"]) ∈ trace w'.
Proof.
  eexists. eexists. split; [reflexivity|]. split; [by vm_compute|].
  apply list_elem_of_In. simpl. tauto.
Qed.

End IngestExamples.

(** * Further properties *)

(** ** Chunk contents and offsets *)

Section ChunkContentFacts.
Import Py DocumentProcessor.

Lemma lstrip_drop (s : str) : exists k, lstrip s = drop k s.
Proof.
  induction s as [|c s [k IH]]; [by exists O|]. simpl.
  destruct (is_space c); [by exists (S k)|by exists O].
Qed.

Lemma length_lstrip (s : str) : (length (lstrip s) <= length s)%nat.
Proof. destruct (lstrip_drop s) as [k ->]. rewrite length_drop. lia. Qed.

Lemma length_strip (s : str) : (length (strip s) <= length s)%nat.
Proof.
  unfold strip, rstrip. rewrite length_reverse.
  etrans; [apply length_lstrip|]. rewrite length_reverse.
  apply length_lstrip.
Qed.

(** What [strip] leaves begins and ends with a character that is not
    space. *)
Lemma strip_last (s : str) c : last (strip s) = Some c -> is_space c = false.
Proof.
  unfold strip, rstrip. rewrite last_reverse.
  destruct (lstrip (reverse (lstrip s))) as [|x r] eqn:E; [done|].
  intros [= <-]. by eapply lstrip_head.
Qed.

Lemma strip_head (s : str) c : head (strip s) = Some c -> is_space c = false.
Proof.
  unfold strip, rstrip.
  destruct (lstrip_drop (reverse (lstrip s))) as [k ->].
  rewrite reverse_drop, reverse_involutive, length_reverse.
  destruct (lstrip s) as [|x r] eqn:E; [by rewrite take_nil|].
  destruct (length (x :: r) - k)%nat; [done|]. simpl.
  intros [= <-]. by eapply lstrip_head.
Qed.

Lemma length_slice (s : str) a b :
  0 <= a -> a <= b -> b <= len s -> len (slice s a b) <= b - a.
Proof.
  intros Ha Hab Hb. unfold slice, len in *.
  rewrite !clamp_index_in_range by lia.
  rewrite length_take. lia.
Qed.

(** [s[:b]] has at most [b] characters. *)
Lemma length_prefix_slice (s : str) b : 0 <= b -> len (slice s 0 b) <= b.
Proof.
  intros Hb. unfold slice, len. rewrite length_take. unfold clamp_index.
  destruct (Z.ltb_spec 0 0); destruct (Z.ltb_spec b 0); lia.
Qed.

End ChunkContentFacts.

Section ChunkContentClaims.
Import Py DocumentProcessor.

(** The chunk a loop pass emits, if it emits one. *)
Lemma loop_body_emits (text filename : str) cs ov (st : LoopState) :
  ls_chunks (loop_body text filename cs ov st) = ls_chunks st
  \/ (strip (slice text (ls_start_pos st)
              (window_end text cs (ls_start_pos st))) <> []
      /\ ls_chunks (loop_body text filename cs ov st)
         = ls_chunks st ++
           [{| content :=
                 strip (slice text (ls_start_pos st)
                          (window_end text cs (ls_start_pos st)));
               chunk_index := ls_chunk_index st;
               start_char := ls_start_pos st;
               end_char := window_end text cs (ls_start_pos st);
               metadata :=
                 {| md_filename := filename;
                    md_chunk_size :=
                      Some (len (strip (slice text (ls_start_pos st)
                                          (window_end text cs
                                             (ls_start_pos st)))));
                    md_total_chunks := None |} |}]).
Proof.
  unfold loop_body. destruct (truthy _) eqn:Ht; [|by left].
  right. split; [|done]. intros H. by rewrite H in Ht.
Qed.

(** X1: with a window size of at least 1, [chunk_text] returns, and every
    chunk lies inside the text and inside one window: 0 <= start_char <=
    end_char <= len(text), end_char - start_char <= chunk_size, and the
    content has at most chunk_size characters. *)
Theorem chunk_text_chunks_within_window cfg text filename cs ov :
  1 <= cs ->
  (exists chunks,
     chunk_text (S (length text)) cfg text filename (Some cs) (Some ov)
     = Some chunks)
  /\ forall fuel chunks,
       chunk_text fuel cfg text filename (Some cs) (Some ov) = Some chunks ->
       Forall (fun c => 0 <= start_char c /\ start_char c <= end_char c
                        /\ end_char c <= len text
                        /\ end_char c - start_char c <= cs
                        /\ len (content c) <= cs) chunks.
Proof.
  intros Hcs. split; [by apply chunk_text_returns|].
  intros fuel chunks H.
  destruct (decide (len text <= cs)) as [Hshort|Hlong].
  - rewrite chunk_text_short in H by done. injection H as <-.
    constructor; [|constructor]. simpl. pose proof (len_nonneg text). lia.
  - apply chunk_text_long in H as (raw & Hraw & ->); [|lia].
    apply Forall_fmap.
    destruct (chunk_loop_invariant text filename cs ov
                (fun st => 0 <= ls_start_pos st
                   /\ Forall (fun c => 0 <= start_char c
                                /\ start_char c <= end_char c
                                /\ end_char c <= len text
                                /\ end_char c - start_char c <= cs
                                /\ len (content c) <= cs) (ls_chunks st)))
      with (fuel := fuel) (res := raw)
           (st := {| ls_start_pos := 0; ls_chunk_index := 0;
                     ls_chunks := [] |})
      as (st' & [_ Hall] & _ & <-); [|by split|done|exact Hall].
    intros st [H0 Hall] Hlt.
    pose proof (window_end_after text cs _ Hcs Hlt) as Hafter.
    pose proof (window_end_le text cs _ Hcs (conj H0 Hlt)) as Hle.
    assert (window_end text cs (ls_start_pos st) <= ls_start_pos st + cs)
      as Hwin.
    { destruct (window_end_cases text cs _ Hcs (conj H0 Hlt)); lia. }
    split; [rewrite loop_body_start; lia|].
    destruct (loop_body_emits text filename cs ov st) as [->|[_ ->]];
      [done|].
    apply Forall_app. split; [done|]. constructor; [|constructor]. simpl.
    pose proof (length_strip (slice text (ls_start_pos st)
                                (window_end text cs (ls_start_pos st)))).
    pose proof (length_slice text (ls_start_pos st)
                  (window_end text cs (ls_start_pos st))).
    unfold len in *. lia.
Qed.

Lemma chunk_text_chunks_within_window_witness :
  1 <= 4
  /\ exists chunks,
       chunk_text (S (length gap_text)) Config.settings gap_text []
         (Some 4) (Some 0) = Some chunks
       /\ length chunks = 3%nat
       /\ Forall (fun c => len (content c) <= 4) chunks.
Proof.
  split; [lia|].
  destruct (chunk_text_chunks_within_window Config.settings gap_text [] 4 0
              ltac:(lia)) as [[chunks H] Hall].
  exists chunks. split; [exact H|].
  split; [vm_compute in H; by injection H as <-|].
  eapply Forall_impl; [exact (Hall _ _ H)|]. simpl. tauto.
Defined.

(** X2: on the windowed path (the text is longer than chunk_size) the
    content of every chunk is the trimmed slice of the text between its
    offsets; it is not empty and neither begins nor ends with a space
    character; and its metadata holds the filename, the length of the
    content and the number of chunks returned. *)
Theorem chunk_text_windowed_contents cfg text filename cs ov :
  cs < len text ->
  forall fuel chunks,
    chunk_text fuel cfg text filename (Some cs) (Some ov) = Some chunks ->
    Forall (fun c =>
              content c = strip (slice text (start_char c) (end_char c))
              /\ content c <> []
              /\ (forall ch, head (content c) = Some ch ->
                    is_space ch = false)
              /\ (forall ch, last (content c) = Some ch ->
                    is_space ch = false)
              /\ metadata c
                 = {| md_filename := filename;
                      md_chunk_size := Some (len (content c));
                      md_total_chunks := Some (Z.of_nat (length chunks)) |})
      chunks.
Proof.
  intros Hlong fuel chunks H.
  apply chunk_text_long in H as (raw & Hraw & ->); [|lia].
  rewrite length_fmap. apply Forall_fmap.
  destruct (chunk_loop_invariant text filename cs ov
              (fun st =>
                 Forall (fun c =>
                           content c
                           = strip (slice text (start_char c) (end_char c))
                           /\ content c <> []
                           /\ md_filename (metadata c) = filename
                           /\ md_chunk_size (metadata c)
                              = Some (len (content c))) (ls_chunks st)))
    with (fuel := fuel) (res := raw)
         (st := {| ls_start_pos := 0; ls_chunk_index := 0;
                   ls_chunks := [] |})
    as (st' & Hall & _ & <-); [|by constructor|done|].
  - intros st Hall Hlt.
    destruct (loop_body_emits text filename cs ov st) as [->|[Hne ->]];
      [done|].
    apply Forall_app. split; [done|]. by constructor.
  - eapply Forall_impl; [exact Hall|]. simpl.
    intros c (Hc & Hne & Hf & Hs).
    split_all; [done|done| | |by rewrite Hf, Hs].
    + intros ch. rewrite Hc. apply strip_head.
    + intros ch. rewrite Hc. apply strip_last.
Qed.

Lemma chunk_text_windowed_contents_witness :
  2 < len blank_text
  /\ exists chunks,
       chunk_text 5 Config.settings blank_text [] (Some 2) (Some 200)
       = Some chunks
       /\ Forall (fun c => content c <> []) chunks.
Proof.
  split; [reflexivity|].
  destruct (chunk_text 5 Config.settings blank_text [] (Some 2) (Some 200))
    as [chunks|] eqn:E; [|by vm_compute in E].
  exists chunks. split; [done|].
  eapply Forall_impl.
  - exact (chunk_text_windowed_contents Config.settings blank_text [] 2 200
             eq_refl 5%nat chunks E).
  - simpl. tauto.
Defined.

End ChunkContentClaims.

(** ** Sources and history of an answer *)

Section AskMoreFacts.
Import Ext Models RAGService.

(** The excerpt of a source is the content itself up to 200 characters,
    and its first 200 characters followed by three dots beyond that. *)
Lemma excerpt_spec (content : str) :
  (Py.len content <= 200 -> excerpt content = content)
  /\ (200 < Py.len content ->
      excerpt content = take 200 content ++ Py.of_string "...")
  /\ Py.len (excerpt content) <= 203.
Proof.
  unfold excerpt. destruct (Z.ltb_spec 200 (Py.len content)) as [Hlt|Hle].
  - assert (Py.slice content 0 200 = take 200 content) as ->.
    { unfold Py.slice.
      rewrite !clamp_index_in_range by (unfold Py.len in *; lia). done. }
    split; [lia|]. split; [done|].
    unfold Py.len in *. rewrite length_app, length_take.
    change (length (Py.of_string "...")) with 3%nat. lia.
  - split; [done|]. split; [lia|lia].
Qed.

(** The history after the [for doc_id in document_ids] loop: every listed
    id has the response appended once per occurrence in the list. *)
Lemma for_each_append_history_lookup (resp : ChatResponse) (ids : list str)
    (w : World) :
  exists us w',
    for_each (append_history resp) ids w = Returned us w'
    /\ trace w' = trace w
    /\ documents_store w' = documents_store w
    /\ forall x,
         chat_history w' !! x
         = match length (filter (fun y => y = x) ids) with
           | O => chat_history w !! x
           | S n => Some (default [] (chat_history w !! x)
                          ++ replicate (S n) resp)
           end.
Proof.
  revert w. induction ids as [|y ids IH]; intros w.
  - exists [], w. by split_all.
  - simpl for_each. unfold bind at 1. unfold append_history at 1.
    unfold bind at 1, get_chat_history_store, set_chat_history_store.
    cbv beta iota. unfold bind.
    match goal with
    | |- context [for_each _ ids ?w1] =>
        destruct (IH w1) as (us & w' & Hrun & Htr & Hds & Hh)
    end.
    rewrite Hrun. exists (tt :: us), w'. split_all; [done..|].
    intros x. rewrite Hh. simpl chat_history.
    rewrite filter_cons. destruct (decide (y = x)) as [->|Hne].
    + rewrite lookup_insert_eq. simpl length.
      destruct (length (filter (fun y => y = x) ids)); [done|].
      simpl. by rewrite <- app_assoc.
    + by rewrite lookup_insert_ne.
Qed.

(** A search logs only its own two kinds of call. *)
Lemma search_similar_chunks_calls (ext : Services) (query : str)
    (document_ids : option (list str)) (top_k : Z) (w : World) chunks w1 :
  VectorStore.search_similar_chunks ext query document_ids top_k w
  = Returned chunks w1 ->
  same_stores w w1
  /\ forall p, EvGenerate p ∈ trace w1 -> EvGenerate p ∈ trace w.
Proof.
  unfold VectorStore.search_similar_chunks, try_except, bind, call_result,
    of_option, ret.
  destruct (encode ext [query]) as [emb|e].
  - destruct (collection_query ext emb top_k _) as [results|e].
    + destruct (VectorStore.format_results results);
        intros [= _ <-]; (split; [by split|]); simpl; intros p Hin;
        rewrite !elem_of_cons in Hin; by destruct Hin as [|[|]].
    + intros [= _ <-]. split; [by split|]. simpl. intros p Hin.
      rewrite !elem_of_cons in Hin. by destruct Hin as [|[|]].
  - intros [= _ <-]. split; [by split|]. simpl. intros p Hin.
    rewrite !elem_of_cons in Hin. by destruct Hin as [|].
Qed.

(** The run of [ask_question] when the search returns no chunk. *)
Lemma ask_question_nothing_found_run (ext : Services) (question : str)
    (document_ids : option (list str)) (max_sources : Z) (w w1 : World) :
  VectorStore.search_similar_chunks ext question document_ids max_sources
    (log EvTime w) = Returned [] w1 ->
  ask_question ext question document_ids max_sources w
  = Returned
      {| Models.question := question;
         answer := not_found_answer;
         sources := [];
         response_time :=
           Float64.sub (clock ext (trace w1)) (clock ext (trace w));
         timestamp := now ext (EvTime :: trace w1);
         Models.document_ids := ids_or_empty document_ids |}
      (log EvNow (log EvTime w1)).
Proof.
  intros Hrun.
  unfold ask_question, ask_question_with, bind at 1, call at 1.
  cbv beta iota. unfold try_except, bind at 1. by rewrite Hrun.
Qed.

(** The run of [ask_question] when the search returns chunks. *)
Lemma ask_question_found_run (ext : Services) (question : str)
    (document_ids : option (list str)) (max_sources : Z) (w w1 : World)
    c chunks :
  VectorStore.search_similar_chunks ext question document_ids max_sources
    (log EvTime w) = Returned (c :: chunks) w1 ->
  exists resp w',
    ask_question ext question document_ids max_sources w = Returned resp w'
    /\ sources resp = List.map source_of (c :: chunks)
    /\ documents_store w' = documents_store w1
    /\ forall x,
         chat_history w' !! x
         = match length (filter (fun y => y = x)
                           (ids_or_empty document_ids)) with
           | O => chat_history w1 !! x
           | S n => Some (default [] (chat_history w1 !! x)
                          ++ replicate (S n) resp)
           end.
Proof.
  intros Hrun.
  unfold ask_question, ask_question_with, bind at 1, call at 1.
  cbv beta iota. unfold try_except, bind at 1. rewrite Hrun.
  cbv beta iota.
  destruct (generate_response_spec ext question
              (Py.join context_separator
                 (List.map context_part (c :: chunks))) w1)
    as (ans & Hgen & _).
  unfold bind at 1. rewrite Hgen. cbv beta iota.
  unfold bind at 1, call at 1. cbv beta iota.
  unfold bind at 1, call at 1. cbv beta iota.
  unfold bind at 1.
  destruct document_ids as [[|d ds]|].
  - unfold ret. eexists. eexists. split; [reflexivity|]. by split_all.
  - unfold bind at 1.
    match goal with
    | |- context [for_each (append_history ?r) (d :: ds) ?w2] =>
        destruct (for_each_append_history_lookup r (d :: ds) w2)
          as (us & w3 & Hloop & Htr3 & Hds3 & Hh)
    end.
    rewrite Hloop. unfold ret. eexists. eexists.
    split; [reflexivity|]. split_all; [done|done|]. exact Hh.
  - unfold ret. eexists. eexists. split; [reflexivity|]. by split_all.
Qed.

End AskMoreFacts.

Section AskMoreClaims.
Import Ext Models RAGService.

(** X3: the sources of an answer are one per retrieved chunk, in the order
    of retrieval; each names the chunk's document and filename and carries
    its similarity score, and its text is the chunk content when that has
    at most 200 characters and otherwise the first 200 characters followed
    by "...", so never more than 203 characters. *)
Theorem ask_question_sources (ext : Services) (question : str)
    (document_ids : option (list str)) (max_sources : Z) (w : World) :
  exists resp w',
    ask_question ext question document_ids max_sources w = Returned resp w'
    /\ Forall (fun s => Py.len (chunk_text s) <= 203) (sources resp)
    /\ forall results chunks,
         search_returns ext question document_ids max_sources results
           chunks ->
         Forall2
           (fun s c =>
              document_id s = VectorStore.document_id c
              /\ document_name s = VectorStore.filename c
              /\ relevance_score s = VectorStore.similarity_score c
              /\ (Py.len (VectorStore.content c) <= 200 ->
                  chunk_text s = VectorStore.content c)
              /\ (200 < Py.len (VectorStore.content c) ->
                  chunk_text s
                  = take 200 (VectorStore.content c) ++ Py.of_string "..."))
           (sources resp) chunks.
Proof.
  destruct (ask_question_spec ext question document_ids max_sources w)
    as (chunks & sevs & resp & w' & Hrun & _ & _ & Hret & _ & _ & _ & _
        & Hpath & _).
  exists resp, w'. split; [exact Hrun|].
  assert (sources resp = List.map source_of chunks) as ->.
  { destruct chunks; [by destruct Hpath as (_ & -> & _)|].
    by destruct Hpath as (-> & _). }
  split.
  - apply Forall_fmap, Forall_true. intros c. simpl.
    apply (excerpt_spec (VectorStore.content c)).
  - intros results chunks' Hsr. rewrite <- (Hret _ _ Hsr).
    apply Forall2_fmap_l, Forall_Forall2_diag, Forall_true.
    intros c. simpl.
    destruct (excerpt_spec (VectorStore.content c)) as (? & ? & _).
    by split_all.
Qed.

(** X4: when chunks are retrieved under a filter, the returned response is
    appended to the history of every listed document, once per occurrence
    of its id in the list, after what was there; the history of every
    other document and the registry are as they were. *)
Theorem ask_question_appends_history (ext : Services) (question : str)
    (ids : list str) (max_sources : Z) (w : World) results chunks :
  search_returns ext question (Some ids) max_sources results chunks ->
  chunks <> [] ->
  exists resp w',
    ask_question ext question (Some ids) max_sources w = Returned resp w'
    /\ documents_store w' = documents_store w
    /\ forall x,
         chat_history w' !! x
         = match length (filter (fun y => y = x) ids) with
           | O => chat_history w !! x
           | S n => Some (default [] (chat_history w !! x)
                          ++ replicate (S n) resp)
           end.
Proof.
  intros Hsr Hne.
  destruct (search_similar_chunks_spec ext question (Some ids) max_sources
              (log EvTime w))
    as (found & evs & w1 & Hrun & (_ & Hds & Hch) & _ & _ & Hret & _).
  rewrite (Hret _ _ Hsr) in Hrun.
  destruct chunks as [|c chunks]; [done|].
  destruct (ask_question_found_run ext question (Some ids) max_sources w w1
              c chunks Hrun) as (resp & w' & Hask & _ & Hds' & Hh).
  exists resp, w'. split; [exact Hask|]. split; [by rewrite Hds'|].
  intros x. rewrite Hh. simpl ids_or_empty. simpl in Hch. by rewrite Hch.
Qed.

Lemma ask_question_appends_history_witness :
  exists resp w',
    ask_question (healthy (1 # 4)) (Py.of_string "q")
      (Some [Py.of_string "doc-1"]) 5 empty_world = Returned resp w'
    /\ chat_history w' !! Py.of_string "doc-1" = Some [resp].
Proof.
  destruct (ask_question_appends_history (healthy (1 # 4))
              (Py.of_string "q") [Py.of_string "doc-1"] 5 empty_world
              (one_row (1 # 4))
              [{| VectorStore.content := Py.of_string "alpha";
                  VectorStore.metadata := sample_metadata;
                  VectorStore.similarity_score := Float64.sub 1 (1 # 4);
                  VectorStore.document_id := Py.of_string "doc-1";
                  VectorStore.filename := Py.of_string "notes.txt";
                  VectorStore.chunk_index := 0 |}])
    as (resp & w' & Hrun & _ & Hh).
  - eexists. split; [reflexivity|]. split; reflexivity.
  - discriminate.
  - exists resp, w'. split; [exact Hrun|].
    exact (Hh (Py.of_string "doc-1")).
Defined.

(** X5: when the search fails (the embedding or the query raises, or a
    row of the answer cannot be formatted) or returns no rows,
    [ask_question] gives the fixed no-relevant-information answer with empty
    sources, does not call the completion service, and appends nothing to
    any history, also under a filter. *)
Theorem ask_question_nothing_found (ext : Services) (question : str)
    (document_ids : option (list str)) (max_sources : Z) (w : World) :
  search_fails ext question document_ids max_sources
  \/ (exists results,
        search_returns ext question document_ids max_sources results []) ->
  exists resp w',
    ask_question ext question document_ids max_sources w = Returned resp w'
    /\ answer resp = not_found_answer
    /\ sources resp = []
    /\ Models.document_ids resp = ids_or_empty document_ids
    /\ same_stores w w'
    /\ forall p, EvGenerate p ∈ trace w' -> EvGenerate p ∈ trace w.
Proof.
  intros Hcase.
  destruct (search_similar_chunks_spec ext question document_ids max_sources
              (log EvTime w))
    as (found & evs & w1 & Hrun & _ & _ & Hfail & Hret & _).
  assert (found = []) as ->.
  { destruct Hcase as [Hf|[results Hsr]]; [by apply Hfail|].
    by apply (Hret results). }
  destruct (search_similar_chunks_calls _ _ _ _ _ _ _ Hrun)
    as [[Hd Hc] Hgen].
  rewrite (ask_question_nothing_found_run _ _ _ _ _ _ Hrun).
  eexists. eexists. split; [reflexivity|].
  split; [done|]. split; [done|]. split; [done|].
  split; [by split|]. simpl. intros p Hin. rewrite !elem_of_cons in Hin.
    destruct Hin as [|[|Hin]]; [done|done|].
    apply Hgen in Hin. simpl in Hin. rewrite elem_of_cons in Hin.
    by destruct Hin.
Qed.

Lemma ask_question_nothing_found_witness :
  search_fails ragged_index (Py.of_string "q")
    (Some [Py.of_string "doc-1"]) 5
  /\ exists resp w',
       ask_question ragged_index (Py.of_string "q")
         (Some [Py.of_string "doc-1"]) 5 empty_world = Returned resp w'
       /\ answer resp = not_found_answer
       /\ sources resp = []
       /\ chat_history w' = ∅.
Proof.
  assert (search_fails ragged_index (Py.of_string "q")
            (Some [Py.of_string "doc-1"]) 5) as Hfail by reflexivity.
  split; [exact Hfail|].
  destruct (ask_question_nothing_found ragged_index (Py.of_string "q")
              (Some [Py.of_string "doc-1"]) 5 empty_world (or_introl Hfail))
    as (resp & w' & Hrun & Hans & Hsrc & _ & [_ Hch] & _).
  exists resp, w'. split; [exact Hrun|]. split; [exact Hans|].
  split; [exact Hsrc|exact Hch].
Defined.

End AskMoreClaims.

(** ** The document registry *)

Section RegistryFacts.
Import Ext Models RAGService.

(** Deleting the chunks of a document returns a flag and changes nothing
    in the world of the orchestrator. *)
Lemma delete_document_chunks_spec (be : Backend) (document_id : str)
    (w : World) :
  exists success,
    VectorStore.delete_document_chunks be document_id w = Returned success w.
Proof.
  unfold VectorStore.delete_document_chunks, try_except, bind, of_result, ret.
  destruct (collection_get be (Some document_id)) as [results|e]; [|eauto].
  destruct (gr_ids results); [eauto|].
  destruct (collection_delete be _) as [[]|e]; eauto.
Qed.

Lemma delete_file_spec (be : Backend) (file_path : str) (w : World) :
  exists success, FileStore.delete_file be file_path w = Returned success w.
Proof.
  unfold FileStore.delete_file, try_except, bind, of_result, ret.
  destruct (path_exists be file_path) as [[|]|e]; [|eauto..].
  destruct (os_remove be file_path) as [[]|e]; eauto.
Qed.

(** The path of [process_document] that returns. *)
Lemma process_document_returns (ext : Services) (cfg : Config.Settings)
    (fuel : nat) (file_content : list Byte.byte) (filename content_type : str)
    (w : World) doc w' :
  process_document ext cfg fuel file_content filename content_type w
  = Returned doc w' ->
  exists file_path chunk chunks w2,
    save_file ext file_content filename = Ok file_path
    /\ fst (extract_text ext file_path filename) <> []
    /\ DocumentProcessor.chunk_text fuel cfg
         (fst (extract_text ext file_path filename)) filename None None
       = Some (chunk :: chunks)
    /\ VectorStore.add_document_chunks ext (uuid4 ext (trace w))
         (chunk :: chunks) filename (before_insert w file_path filename)
       = Returned true w2
    /\ doc = {| id := uuid4 ext (trace w);
                Models.filename := filename;
                Models.content_type := content_type;
                size := Z.of_nat (length file_content);
                upload_date := now ext (trace w2);
                page_count :=
                  em_page_count (snd (extract_text ext file_path filename));
                word_count :=
                  Some (default
                          (Py.word_count
                             (fst (extract_text ext file_path filename)))
                          (em_word_count
                             (snd (extract_text ext file_path filename))));
                status := Py.of_string "processed" |}
    /\ w' = {| documents_store :=
                 <[uuid4 ext (trace w) :=
                     {| de_document := doc;
                        de_file_path := file_path;
                        de_text := fst (extract_text ext file_path filename);
                        de_metadata :=
                          snd (extract_text ext file_path filename);
                        de_chunks_count :=
                          Z.of_nat (length (chunk :: chunks)) |}]>
                   (documents_store w2);
               chat_history := chat_history w2;
               trace := EvNow :: trace w2 |}
    /\ same_stores w w2.
Proof.
  unfold process_document, try_except, bind at 1, call at 1.
  cbv beta iota. unfold bind at 1, call_result at 1.
  destruct (save_file ext file_content filename) as [file_path|e0];
    [|discriminate].
  cbv beta iota. unfold bind at 1, call at 1. cbv beta iota.
  destruct (fst (extract_text ext file_path filename)) as [|ch text] eqn:Ht;
    [discriminate|].
  change (negb (Py.truthy (ch :: text))) with false. cbv iota.
  unfold bind at 1, of_budget at 1.
  destruct (DocumentProcessor.chunk_text fuel cfg _ filename None None)
    as [[|chunk rest]|] eqn:Hc; [discriminate| |discriminate].
  cbv beta iota. unfold bind at 1.
  destruct (add_document_chunks_spec ext (uuid4 ext (trace w))
              (chunk :: rest) filename
              (log (EvExtract file_path filename)
                 (log (EvSaveFile filename) (log EvUuid w))))
    as ([|] & w2 & Hadd & Hsame); rewrite Hadd; [|discriminate].
  cbv beta iota. change (negb true) with false. cbv iota.
  unfold bind, call, get_documents_store, set_documents_store, ret.
  intros [= <- <-].
  exists file_path, chunk, rest, w2. rewrite Ht. by split_all.
Qed.

End RegistryFacts.

Section RegistryClaims.
Import Ext Models RAGService.

(** X6: when [process_document] returns a document, it is registered
    under its id with status "processed": [get_document] on that id gives
    the document back, the stored text is not empty, the stored chunk count
    is the number of chunks of that text (at least one), every other
    registry entry is as it was, and the chat history is untouched. *)
Theorem process_document_registers_document (ext : Services)
    (cfg : Config.Settings) (fuel : nat) (file_content : list Byte.byte)
    (filename content_type : str) (w : World) doc w' :
  process_document ext cfg fuel file_content filename content_type w
  = Returned doc w' ->
  get_document (id doc) w' = Returned (Some doc) w'
  /\ status doc = Py.of_string "processed"
  /\ Models.filename doc = filename
  /\ size doc = Z.of_nat (length file_content)
  /\ (exists entry chunks,
        documents_store w' !! id doc = Some entry
        /\ de_text entry <> []
        /\ DocumentProcessor.chunk_text fuel cfg (de_text entry) filename
             None None = Some chunks
        /\ chunks <> []
        /\ de_chunks_count entry = Z.of_nat (length chunks))
  /\ (forall other, other <> id doc ->
        documents_store w' !! other = documents_store w !! other)
  /\ chat_history w' = chat_history w.
Proof.
  intros Hrun.
  destruct (process_document_returns _ _ _ _ _ _ _ _ _ Hrun)
    as (file_path & chunk & chunks & w2 & _ & Htext & Hchunks & _ & Hdoc
        & -> & Hds & Hch).
  assert (id doc = uuid4 ext (trace w)) as Hid by (by rewrite Hdoc).
  unfold get_document, bind, get_documents_store, ret. simpl.
  rewrite Hid, lookup_insert_eq. split; [done|].
  split; [by rewrite Hdoc|]. split; [by rewrite Hdoc|].
  split; [by rewrite Hdoc|]. split; [|split; [|done]].
  - eexists. exists (chunk :: chunks). split; [reflexivity|]. by split_all.
  - intros other Hne. by rewrite lookup_insert_ne, Hds.
Qed.

Lemma process_document_registers_document_witness :
  exists doc w',
    process_document (healthy (1 # 4)) Config.settings 0 []
      (Py.of_string "notes.txt") (Py.of_string "text/plain") empty_world
    = Returned doc w'
    /\ get_document (id doc) w' = Returned (Some doc) w'.
Proof.
  destruct (process_document (healthy (1 # 4)) Config.settings 0 []
              (Py.of_string "notes.txt") (Py.of_string "text/plain")
              empty_world) as [doc w'| |] eqn:E; [|by vm_compute in E..].
  exists doc, w'. split; [done|].
  exact (proj1 (process_document_registers_document _ _ _ _ _ _ _ _ _ E)).
Defined.

(** X7: deleting a registered document returns True whatever the index
    and the file system answer; the document leaves the registry and its
    chat history goes with it, so that [get_document] then gives None,
    [get_chat_history] gives the empty list and a second delete returns
    False; the entries and histories of other ids are as they were. *)
Theorem delete_document_cascades (be : Backend) (document_id : str)
    (w : World) :
  is_Some (documents_store w !! document_id) ->
  exists w',
    delete_document be document_id w = Returned true w'
    /\ documents_store w' = delete document_id (documents_store w)
    /\ chat_history w' = delete document_id (chat_history w)
    /\ trace w' = trace w
    /\ get_document document_id w' = Returned None w'
    /\ get_chat_history document_id w' = Returned [] w'
    /\ delete_document be document_id w' = Returned false w'.
Proof.
  intros [doc_data Hdoc].
  unfold delete_document at 1, try_except, bind at 1, get_documents_store.
  cbv beta iota. rewrite Hdoc.
  destruct (delete_document_chunks_spec be document_id w) as [b1 Hb1].
  unfold bind at 1. rewrite Hb1. cbv beta iota.
  destruct (delete_file_spec be (de_file_path doc_data) w) as [b2 Hb2].
  unfold bind at 1. rewrite Hb2. cbv beta iota.
  unfold bind, set_documents_store, get_chat_history_store,
    set_chat_history_store, ret. cbv beta iota.
  assert (forall w' : World,
            documents_store w' = delete document_id (documents_store w) ->
            chat_history w' = delete document_id (chat_history w) ->
            get_document document_id w' = Returned None w'
            /\ get_chat_history document_id w' = Returned [] w'
            /\ delete_document be document_id w' = Returned false w')
    as Hafter.
  { intros w' Hd Hc.
    unfold get_document, get_chat_history, delete_document, try_except, bind,
      get_documents_store, get_chat_history_store, ret.
    by rewrite Hd, Hc, !lookup_delete_eq. }
  cbn [chat_history documents_store trace].
  destruct (chat_history w !! document_id) as [h|] eqn:Hh.
  - eexists. split; [reflexivity|]. simpl.
    split; [done|]. split; [done|]. split; [done|]. by apply Hafter.
  - eexists. split; [reflexivity|]. simpl.
    assert (chat_history w = delete document_id (chat_history w)) as Hc.
    { by rewrite delete_id. }
    split; [done|]. split; [done|]. split; [done|]. by apply Hafter.
Qed.

Lemma delete_document_cascades_witness :
  is_Some (documents_store two_docs_world !! Py.of_string "a")
  /\ forall be, exists w',
       delete_document be (Py.of_string "a") two_docs_world
       = Returned true w'
       /\ get_document (Py.of_string "a") w' = Returned None w'.
Proof.
  assert (is_Some (documents_store two_docs_world !! Py.of_string "a"))
    as H by (eexists; vm_compute; reflexivity).
  split; [exact H|]. intros be.
  destruct (delete_document_cascades be (Py.of_string "a") two_docs_world H)
    as (w' & Hrun & _ & _ & _ & Hget & _).
  exists w'. by split.
Defined.

(** X8: deleting an id that is not registered returns False and changes
    nothing, whatever the index and the file system would answer; a chat
    history kept under that id stays. *)
Theorem delete_document_unknown (be : Backend) (document_id : str)
    (w : World) :
  documents_store w !! document_id = None ->
  delete_document be document_id w = Returned false w.
Proof.
  intros Hdoc.
  unfold delete_document, try_except, bind, get_documents_store.
  by rewrite Hdoc.
Qed.

Lemma delete_document_unknown_witness :
  documents_store two_docs_world !! Py.of_string "c" = None
  /\ forall be,
       delete_document be (Py.of_string "c") two_docs_world
       = Returned false two_docs_world.
Proof.
  assert (documents_store two_docs_world !! Py.of_string "c" = None)
    as H by (by vm_compute).
  split; [exact H|]. intros be.
  exact (delete_document_unknown be (Py.of_string "c") two_docs_world H).
Defined.

(** X9: summarising an unregistered id raises "Summary generation failed:
    Document not found" and changes nothing. For a registered document the
    call returns a summary even when the model raises: then the summary is
    the fixed "Unable to generate summary at this time." with no key
    points; otherwise it is what the line scan reads from the reply. In
    both cases the word count is that of the stored text and the model is
    given at most the first 8000 characters of it. *)
Theorem generate_document_summary_outcomes (ext : Services) (be : Backend)
    (document_id : str) (w : World) :
  match documents_store w !! document_id with
  | None =>
      generate_document_summary ext be document_id w
      = Raised (Py.of_string "Summary generation failed: "
                ++ Py.of_string "Document not found") w
  | Some doc_data =>
      exists s,
        generate_document_summary ext be document_id w
        = Returned s (log EvNow w)
        /\ ds_document_id s = document_id
        /\ ds_word_count s = Py.word_count (de_text doc_data)
        /\ Py.len (Py.slice (de_text doc_data) 0 8000) <= 8000
        /\ match summary_content be 500
                   (Py.slice (de_text doc_data) 0 8000) with
           | Err _ =>
               ds_summary s
               = Py.of_string "Unable to generate summary at this time."
               /\ ds_key_points s = []
           | Ok reply =>
               ds_summary s
               = GeminiService.summary (GeminiService.parse_summary reply)
               /\ ds_key_points s
                  = GeminiService.key_points
                      (GeminiService.parse_summary reply)
           end
  end.
Proof.
  destruct (documents_store w !! document_id) as [doc_data|] eqn:Hdoc;
    unfold generate_document_summary, try_except;
    unfold bind at 1; unfold get_documents_store; cbv beta iota;
    rewrite Hdoc; [|done].
  unfold GeminiService.generate_summary, try_except, bind, of_result, call,
    ret.
  assert (Py.len (Py.slice (de_text doc_data) 0 8000) <= 8000) as Hlen.
  { apply length_prefix_slice. lia. }
  destruct (summary_content be 500 (Py.slice (de_text doc_data) 0 8000));
    eexists; (split; [reflexivity|]); by split_all.
Qed.

End RegistryClaims.

(** ** Comparing registered documents *)

Section CompareMoreFacts.
Import Ext Models RAGService.

(** The gathering loop over registered ids returns their texts and
    filenames and leaves the world as it is. *)
Lemma gather_documents_registered (ids : list str) (entries : list DocEntry)
    (w : World) :
  Forall2 (fun doc_id e => documents_store w !! doc_id = Some e)
    ids entries ->
  for_each gather_document ids w
  = Returned
      (List.map (fun e => (de_text e, Models.filename (de_document e)))
         entries) w.
Proof.
  induction 1 as [|doc_id e ids entries He _ IH]; [done|].
  simpl. unfold bind at 1, gather_document at 1, bind at 1,
    get_documents_store. cbv beta iota. rewrite He.
  unfold ret at 1. cbv beta iota. unfold bind. by rewrite IH.
Qed.

(** The gathering loop stops at the first id that is not registered. *)
Lemma gather_documents_missing (pre post : list str) (d : str)
    (entries : list DocEntry) (w : World) :
  Forall2 (fun doc_id e => documents_store w !! doc_id = Some e)
    pre entries ->
  documents_store w !! d = None ->
  for_each gather_document (pre ++ d :: post) w
  = Raised (Py.of_string "Document " ++ d ++ Py.of_string " not found") w.
Proof.
  intros Hpre Hd.
  induction Hpre as [|doc_id e ids entries He _ IH].
  - simpl. unfold bind at 1, gather_document at 1, bind at 1,
      get_documents_store. cbv beta iota. by rewrite Hd.
  - simpl. unfold bind at 1, gather_document at 1, bind at 1,
      get_documents_store. cbv beta iota. rewrite He.
    unfold ret at 1. cbv beta iota. unfold bind at 1.
    by rewrite IH.
Qed.

Lemma document_infos_registered (ids : list str) (entries : list DocEntry)
    (w : World) :
  Forall2 (fun doc_id e => documents_store w !! doc_id = Some e)
    ids entries ->
  for_each document_info ids w
  = Returned
      (zip_with (fun doc_id e =>
                   {| di_id := doc_id;
                      di_filename := Models.filename (de_document e);
                      di_word_count := word_count (de_document e) |})
         ids entries) w.
Proof.
  induction 1 as [|doc_id e ids entries He _ IH]; [done|].
  simpl. unfold bind at 1, document_info at 1, bind at 1,
    get_documents_store. cbv beta iota. rewrite He.
  unfold ret at 1. cbv beta iota. unfold bind. by rewrite IH.
Qed.

(** The prompt names every document with the first 3000 characters of
    its text, in order. *)
Lemma prompt_docs_aligned (pre : list str) (g : list (str * str)) :
  mapM (fun ic : nat * str =>
          name ← (pre ++ List.map snd g) !! fst ic; Some (name, snd ic))
    (imap (fun i content => ((length pre + i)%nat, Py.slice content 0 3000))
       (List.map fst g))
  = Some (List.map (fun p => (snd p, Py.slice (fst p) 0 3000)) g).
Proof.
  revert pre. induction g as [|[text name] g IH]; intros pre; [done|].
  simpl. rewrite Nat.add_0_r, list_lookup_middle by done. simpl.
  rewrite (imap_ext _
             (fun i content =>
                ((length (pre ++ [name]) + i)%nat, Py.slice content 0 3000))).
  2: { intros i x _. simpl. rewrite length_app. simpl. f_equal. lia. }
  pose proof (IH (pre ++ [name])) as IH'.
  rewrite <- app_assoc in IH'. simpl in IH'. by rewrite IH'.
Qed.

Lemma prompt_docs_gathered (g : list (str * str)) :
  GeminiService.prompt_docs (List.map fst g) (List.map snd g)
  = Some (List.map (fun p => (snd p, Py.slice (fst p) 0 3000)) g).
Proof. exact (prompt_docs_aligned [] g). Qed.

End CompareMoreFacts.

Section CompareMoreClaims.
Import Ext Models RAGService.

(** X10: comparing a list of at least two ids in which some id is not
    registered raises "Document comparison failed: Document <id> not
    found" for the first such id, and leaves the world as it is: the
    completion service is not called. *)
Theorem compare_documents_unknown_id (ext : Services) (pre post : list str)
    (d : str) (entries : list DocEntry) (w : World) :
  (2 <= length (pre ++ d :: post))%nat ->
  Forall2 (fun doc_id e => documents_store w !! doc_id = Some e)
    pre entries ->
  documents_store w !! d = None ->
  compare_documents ext (pre ++ d :: post) w
  = Raised (Py.of_string "Document comparison failed: "
            ++ Py.of_string "Document " ++ d ++ Py.of_string " not found") w.
Proof.
  intros Hlen Hpre Hd. unfold compare_documents, try_except.
  destruct (Z.ltb_spec (Z.of_nat (length (pre ++ d :: post))) 2); [lia|].
  unfold bind at 1. by rewrite (gather_documents_missing _ _ _ _ _ Hpre Hd).
Qed.

Lemma compare_documents_unknown_id_witness :
  exists e,
    compare_documents (healthy (1 # 4))
      [Py.of_string "a"; Py.of_string "zz"] two_docs_world
    = Raised e two_docs_world.
Proof.
  eexists.
  apply (compare_documents_unknown_id (healthy (1 # 4)) [Py.of_string "a"]
           [] (Py.of_string "zz")
           [text_entry (Py.of_string "a") (Py.of_string "a.txt")
              (Py.of_string "first text")] two_docs_world).
  - simpl. lia.
  - constructor; [by vm_compute|constructor].
  - by vm_compute.
Defined.

(** X11: comparing at least two registered documents calls the completion
    service exactly once, with the filename and the first 3000 characters
    of the text of each document in the order of the ids, and changes
    neither the registry nor the history. The result lists id, filename
    and word count of each document in the same order; its comparison is
    what the line scan reads from the reply, and is empty when the service
    raises. *)
Theorem compare_documents_registered (ext : Services) (ids : list str)
    (entries : list DocEntry) (w : World) :
  (2 <= length ids)%nat ->
  Forall2 (fun doc_id e => documents_store w !! doc_id = Some e)
    ids entries ->
  let prompt :=
    ComparePrompt
      (List.map (fun e => (Models.filename (de_document e),
                           Py.slice (de_text e) 0 3000)) entries) in
  exists r,
    compare_documents ext ids w = Returned r (log (EvGenerate prompt) w)
    /\ cr_documents r
       = zip_with (fun doc_id e =>
                     {| di_id := doc_id;
                        di_filename := Models.filename (de_document e);
                        di_word_count := word_count (de_document e) |})
           ids entries
    /\ comparison r
       = match generate_content ext prompt with
         | Ok reply => GeminiService.parse_comparison reply
         | Err _ =>
             {| GeminiService.similarities := [];
                GeminiService.differences := [];
                GeminiService.common_themes := [] |}
         end.
Proof.
  intros Hlen Hreg prompt. unfold compare_documents, try_except.
  destruct (Z.ltb_spec (Z.of_nat (length ids)) 2); [lia|].
  unfold bind at 1. rewrite (gather_documents_registered _ _ _ Hreg).
  cbv beta iota.
  unfold bind at 1, GeminiService.compare_documents, try_except.
  unfold bind at 1, of_option at 1.
  rewrite prompt_docs_gathered. cbv beta iota.
  rewrite !map_map. simpl. fold prompt.
  unfold bind at 1, call_result at 1.
  destruct (generate_content ext prompt) as [reply|e]; cbv beta iota.
  - unfold ret at 1. cbv beta iota. unfold bind at 1.
    rewrite (document_infos_registered ids entries).
    + eexists. split; [reflexivity|]. by split.
    + exact Hreg.
  - unfold ret at 1. cbv beta iota. unfold bind at 1.
    rewrite (document_infos_registered ids entries).
    + eexists. split; [reflexivity|]. by split.
    + exact Hreg.
Qed.

Lemma compare_documents_registered_witness :
  exists r w',
    compare_documents (healthy (1 # 4))
      [Py.of_string "a"; Py.of_string "b"] two_docs_world = Returned r w'
    /\ length (cr_documents r) = 2%nat.
Proof.
  destruct (compare_documents_registered (healthy (1 # 4))
              [Py.of_string "a"; Py.of_string "b"]
              [text_entry (Py.of_string "a") (Py.of_string "a.txt")
                 (Py.of_string "first text");
               text_entry (Py.of_string "b") (Py.of_string "b.txt")
                 (Py.of_string "second text")] two_docs_world)
    as (r & Hrun & Hdocs & _).
  - simpl. lia.
  - repeat constructor; by vm_compute.
  - eexists. eexists. split; [exact Hrun|]. by rewrite Hdocs.
Defined.

End CompareMoreClaims.

(** ** Sorting and slicing lists *)

Section ListFacts.
Context {A : Type}.

Lemma adjacent_cons (R : A -> A -> Prop) (a : A) (l : list A) :
  adjacent R (a :: l)
  <-> (forall b, head l = Some b -> R a b) /\ adjacent R l.
Proof.
  split.
  - intros H. split.
    + intros b Hb. destruct l as [|b' l]; [done|]. injection Hb as ->.
      by apply (H O a b).
    + intros i c d Hc Hd. by apply (H (S i) c d).
  - intros [Hhd Htl] [|i] c d Hc Hd.
    + injection Hc as <-. apply Hhd. by destruct l.
    + by apply (Htl i c d).
Qed.

Lemma adjacent_take (R : A -> A -> Prop) (n : nat) (l : list A) :
  adjacent R l -> adjacent R (take n l).
Proof.
  intros H i c d Hc Hd.
  apply lookup_take_Some in Hc as [Hc _].
  apply lookup_take_Some in Hd as [Hd _]. by apply (H i c d).
Qed.

Context (before : A -> A -> bool).

Lemma insert_by_head (x : A) (l : list A) :
  head (PyList.insert_by before x l) = Some x
  \/ (head (PyList.insert_by before x l) = head l
      /\ exists y, head l = Some y /\ before y x = true).
Proof.
  destruct l as [|y l]; [by left|]. simpl.
  destruct (before y x) eqn:E; [right; eauto|by left].
Qed.

Lemma insert_by_perm (x : A) (l : list A) :
  PyList.insert_by before x l ≡ₚ x :: l.
Proof.
  induction l as [|y l IH]; [done|]. simpl.
  destruct (before y x); [|done].
  rewrite IH. apply Permutation_swap.
Qed.

(** [sort_by] rearranges the list and drops nothing. *)
Lemma sort_by_perm (l : list A) : PyList.sort_by before l ≡ₚ l.
Proof.
  induction l as [|x l IH]; [done|]. simpl.
  by rewrite insert_by_perm, IH.
Qed.

Hypothesis before_asym : forall a b, before a b = true -> before b a = false.

Lemma insert_by_sorted (x : A) (l : list A) :
  adjacent (fun a b => before b a = false) l ->
  adjacent (fun a b => before b a = false) (PyList.insert_by before x l).
Proof.
  induction l as [|y l IH]; intros Hl.
  - intros [|i] c d; discriminate.
  - simpl. apply adjacent_cons in Hl as [Hhd Htl].
    destruct (before y x) eqn:E.
    + apply adjacent_cons. split; [|by apply IH].
      intros b Hb.
      destruct (insert_by_head x l) as [Hx|[Hh _]].
      * rewrite Hx in Hb. injection Hb as <-. by apply before_asym.
      * rewrite Hh in Hb. by apply Hhd.
    + apply adjacent_cons. split; [by intros b [= <-]|].
      by apply adjacent_cons.
Qed.

(** In a sorted list no element is followed by one that had to come
    before it. *)
Lemma sort_by_sorted (l : list A) :
  adjacent (fun a b => before b a = false) (PyList.sort_by before l).
Proof.
  induction l as [|x l IH]; [intros [|i] c d; discriminate|].
  simpl. by apply insert_by_sorted.
Qed.

End ListFacts.

Section UptoFacts.
Context {A : Type}.

Lemma upto_take (k : Z) (l : list A) :
  exists n, PyList.upto k l = take n l /\ (0 <= k -> Z.of_nat n <= k).
Proof.
  unfold PyList.upto. eexists. split; [reflexivity|].
  intros Hk. unfold Py.clamp_index.
  destruct (Z.ltb_spec k 0); lia.
Qed.

Lemma length_upto (k : Z) (l : list A) :
  0 <= k -> Z.of_nat (length (PyList.upto k l)) <= k.
Proof.
  intros Hk. destruct (upto_take k l) as (n & -> & Hn).
  rewrite length_take. specialize (Hn Hk). lia.
Qed.

Lemma upto_sublist (k : Z) (l : list A) : PyList.upto k l `sublist_of` l.
Proof. destruct (upto_take k l) as (n & -> & _). apply sublist_take. Qed.

End UptoFacts.

(** ** Ranking similar documents *)

Section MeanFacts.
Import Float64.
Local Open Scope Q_scope.

(** A float sum of [n] terms between the integers [a] and [b] lies between
    [n * a] and [n * b], as long as these are small enough to be floats. *)
Lemma float_sum_bounds (a b : Z) (l : list Q) (acc : Q) (k : Z) :
  (0 <= k)%Z ->
  ((k + Z.of_nat (length l)) * Z.max (Z.abs a) (Z.abs b) < 2 ^ 53)%Z ->
  Forall (fun x => inject_Z a <= x <= inject_Z b) l ->
  inject_Z (k * a) <= acc <= inject_Z (k * b) ->
  inject_Z ((k + Z.of_nat (length l)) * a) <= fold_left add l acc
  /\ fold_left add l acc <= inject_Z ((k + Z.of_nat (length l)) * b).
Proof.
  intros Hk Hsmall Hl. revert acc k Hk Hsmall.
  induction Hl as [|x l [Hlo Hhi] _ IH]; intros acc k Hk Hsmall [Ha Hb].
  - simpl. by rewrite Z.add_0_r.
  - cbn [fold_left length] in *. rewrite Nat2Z.inj_succ in *.
    replace (k + Z.succ (Z.of_nat (length l)))%Z
      with (k + 1 + Z.of_nat (length l))%Z in * by lia.
    apply IH; [lia|done|]. unfold add. split.
    + rewrite <- (round_integer ((k + 1) * a)) by nia.
      apply round_monotone.
      replace ((k + 1) * a)%Z with (k * a + a)%Z by lia.
      rewrite inject_Z_plus. lra.
    + rewrite <- (round_integer ((k + 1) * b)) by nia.
      apply round_monotone.
      replace ((k + 1) * b)%Z with (k * b + b)%Z by lia.
      rewrite inject_Z_plus. lra.
Qed.

(** The float mean of terms between two integers lies between them. *)
Lemma float_mean_bounds (a b : Z) (l : list Q) :
  l <> [] ->
  (Z.of_nat (length l) * Z.max (Z.abs a) (Z.abs b) < 2 ^ 53)%Z ->
  Forall (fun x => inject_Z a <= x <= inject_Z b) l ->
  inject_Z a <= div (PyList.sum l) (inject_Z (Z.of_nat (length l)))
  /\ div (PyList.sum l) (inject_Z (Z.of_nat (length l))) <= inject_Z b.
Proof.
  intros Hne Hsmall Hl.
  destruct (float_sum_bounds a b l 0 0 ltac:(done) Hsmall Hl) as [H1 H2].
  { simpl. split; apply Qle_refl. }
  rewrite Z.add_0_l in H1, H2. fold (PyList.sum l) in H1, H2.
  assert (0 < Z.of_nat (length l))%Z as Hn by (destruct l; [done|simpl; lia]).
  assert (0 < inject_Z (Z.of_nat (length l))) as Hpos.
  { change 0 with (inject_Z 0). by rewrite <- Zlt_Qlt. }
  rewrite inject_Z_mult in H1, H2. unfold div. split.
  - rewrite <- (round_integer a) by nia. apply round_monotone.
    apply Qle_shift_div_l; [done|]. lra.
  - rewrite <- (round_integer b) by nia. apply round_monotone.
    apply Qle_shift_div_r; [done|]. lra.
Qed.

(** Rounding can take the float mean out of the range of its terms: the
    mean of three scores 0.35 is below 0.35. *)
Lemma float_mean_below_terms :
  let x := round (35 # 100) in
  div (PyList.sum [x; x; x]) (inject_Z (Z.of_nat (length [x; x; x]))) < x.
Proof. by vm_compute. Qed.

End MeanFacts.

Section GroupFacts.
Import Ext VectorStore.

Lemma add_to_group_keys (c : FoundChunk) (groups : list DocGroup) :
  List.map dg_document_id (add_to_group c groups)
  = if decide (document_id c ∈ List.map dg_document_id groups)
    then List.map dg_document_id groups
    else List.map dg_document_id groups ++ [document_id c].
Proof.
  induction groups as [|g gs IH].
  - destruct (decide (document_id c ∈ List.map dg_document_id []))
      as [Hin|_]; [|done].
    by apply elem_of_nil in Hin.
  - cbn [add_to_group].
    destruct (decide (dg_document_id g = document_id c)) as [Heq|Hne].
    + destruct (decide (document_id c ∈ List.map dg_document_id (g :: gs)))
        as [_|Hnin]; [done|].
      destruct Hnin. cbn [List.map]. rewrite Heq. apply list_elem_of_here.
    + cbn [List.map]. rewrite IH.
      destruct (decide (document_id c ∈ List.map dg_document_id gs))
        as [Hin|Hnin];
        destruct (decide (document_id c
                          ∈ dg_document_id g :: List.map dg_document_id gs))
        as [Hin'|Hnin']; try done.
      * destruct Hnin'. by apply list_elem_of_further.
      * apply elem_of_cons in Hin' as [Heq|Hin']; [by destruct Hne|done].
Qed.

End GroupFacts.

Section GroupInvariant.
Import Ext VectorStore.

Lemma hits_of_snoc (doc : str) (l : list FoundChunk) (c : FoundChunk) :
  hits_of doc (l ++ [c])
  = hits_of doc l ++ (if decide (document_id c = doc) then [c] else []).
Proof.
  unfold hits_of. by rewrite filter_app.
Qed.

Lemma group_ok_other (source : str) (l : list FoundChunk) (c : FoundChunk)
    (g : DocGroup) :
  dg_document_id g <> document_id c ->
  group_ok source l g -> group_ok source (l ++ [c]) g.
Proof.
  intros Hne (H1 & H2 & H3 & H4 & H5). unfold group_ok.
  rewrite hits_of_snoc, decide_False, app_nil_r by done. by split_all.
Qed.

Lemma add_to_group_ok (source : str) (l : list FoundChunk) (c : FoundChunk)
    (groups : list DocGroup) :
  document_id c <> source ->
  Forall (group_ok source l) groups ->
  NoDup (List.map dg_document_id groups) ->
  (document_id c ∉ List.map dg_document_id groups ->
   hits_of (document_id c) l = []) ->
  Forall (group_ok source (l ++ [c])) (add_to_group c groups).
Proof.
  intros Hsrc. induction groups as [|g gs IH]; intros Hok Hnd Hnew.
  - cbn [add_to_group]. constructor; [|constructor].
    unfold group_ok. cbn [dg_document_id dg_chunks dg_similarities
                           dg_filename].
    rewrite hits_of_snoc, decide_True, Hnew by (done || apply not_elem_of_nil).
    split_all; try done. by intros c0 [= <-].
  - cbn [add_to_group]. cbn [List.map] in Hnd, Hnew.
    apply NoDup_cons in Hnd as [Hg Hnd].
    apply Forall_cons in Hok as [Hgok Hok].
    destruct (decide (dg_document_id g = document_id c)) as [Heq|Hne].
    + constructor.
      * destruct Hgok as (H1 & H2 & H3 & H4 & H5). unfold group_ok.
        cbn [dg_document_id dg_chunks dg_similarities dg_filename].
        rewrite hits_of_snoc, decide_True, H2, H4 by done.
        split_all; try done.
        -- by destruct (hits_of (dg_document_id g) l).
        -- by rewrite map_app, H2.
        -- intros c0 Hc0. apply H5. rewrite H2.
           destruct (hits_of (dg_document_id g) l) eqn:E;
             [by rewrite H2 in H3|done].
      * rewrite Forall_forall in Hok. apply Forall_forall. intros g' Hin.
        apply group_ok_other; [|by apply Hok]. intros Heq'.
        apply Hg. rewrite Heq, <- Heq'.
        by apply list_elem_of_In, in_map, list_elem_of_In.
    + constructor; [by apply group_ok_other|].
      apply IH; [done|done|]. intros Hnin. apply Hnew.
      rewrite not_elem_of_cons. by split.
Qed.

Lemma group_chunks_snoc (source : str) (l : list FoundChunk)
    (c : FoundChunk) :
  group_chunks source (l ++ [c])
  = if decide (document_id c = source) then group_chunks source l
    else add_to_group c (group_chunks source l).
Proof. unfold group_chunks. by rewrite fold_left_app. Qed.

(** After grouping, the keys are distinct, no key is the source, every
    entry holds exactly the hits of its document, and every hit of another
    document has an entry. *)
Lemma group_chunks_invariant (source : str) (l : list FoundChunk) :
  NoDup (List.map dg_document_id (group_chunks source l))
  /\ Forall (group_ok source l) (group_chunks source l)
  /\ forall c, c ∈ l -> document_id c <> source ->
       document_id c ∈ List.map dg_document_id (group_chunks source l).
Proof.
  induction l as [|c l (Hnd & Hok & Hall)] using rev_ind.
  - split; [constructor|]. split; [constructor|]. intros c Hc.
    by apply elem_of_nil in Hc.
  - rewrite group_chunks_snoc.
    destruct (decide (document_id c = source)) as [Heq|Hne].
    + split; [done|]. split.
      * eapply Forall_impl; [exact Hok|]. intros g Hg.
        apply group_ok_other; [|done]. destruct Hg as [Hg _]. congruence.
      * intros c' Hc' Hne'. apply elem_of_app in Hc' as [Hc'|Hc'];
          [by apply Hall|].
        apply list_elem_of_singleton in Hc'. congruence.
    + assert (document_id c ∉ List.map dg_document_id (group_chunks source l)
              -> hits_of (document_id c) l = []) as Hnew.
      { intros Hnin. unfold hits_of.
        destruct (filter _ l) as [|c0 rest] eqn:E; [done|].
        assert (c0 ∈ filter (fun c1 => document_id c1 = document_id c) l)
          as Hc0 by (rewrite E; apply list_elem_of_here).
        apply list_elem_of_filter in Hc0 as [Hid Hin].
        destruct Hnin. rewrite <- Hid. apply Hall; [done|congruence]. }
      split; [|split].
      * rewrite add_to_group_keys. destruct (decide _) as [|Hnin]; [done|].
        apply NoDup_app. split; [done|]. split; [|apply NoDup_singleton].
        intros x Hx Hx'. apply list_elem_of_singleton in Hx'. congruence.
      * by apply add_to_group_ok.
      * intros c' Hc' Hne'. rewrite add_to_group_keys.
        apply elem_of_app in Hc' as [Hc'|Hc'].
        -- destruct (decide _); [by apply Hall|].
           apply elem_of_app. left. by apply Hall.
        -- apply list_elem_of_singleton in Hc' as ->.
           destruct (decide _) as [|Hnin]; [done|].
           apply elem_of_app. right. apply list_elem_of_here.
Qed.

End GroupInvariant.

(** ** Reading the chunks of a document back *)

Section StoredChunkFacts.
Import Ext VectorStore.

Lemma stored_chunks_rows (r : GetResult) (rows : list StoredChunk) :
  stored_chunks r = Some rows ->
  List.map sc_content rows = gr_documents r /\ Forall copies_metadata rows.
Proof.
  unfold stored_chunks. intros Hm. pose proof (length_mapM _ _ _ Hm) as Hlen.
  rewrite length_seq in Hlen. apply mapM_Some in Hm. split.
  - apply list_eq. intros i.
    change (List.map sc_content rows) with (sc_content <$> rows).
    rewrite list_lookup_fmap.
    destruct (rows !! i) as [c|] eqn:Hc.
    + destruct (Forall2_lookup_r _ _ _ _ _ Hm Hc) as (j & Hj & Hat).
      apply lookup_seq in Hj as [-> _]. simpl in Hat.
      unfold stored_chunk_at in Hat.
      destruct (gr_documents r !! i) as [d|]; [|done].
      destruct (gr_metadatas r !! i) as [m|]; [|done].
      simpl in Hat. by injection Hat as <-.
    + apply lookup_ge_None in Hc. simpl. symmetry.
      apply lookup_ge_None. lia.
  - apply Forall_forall. intros c Hc.
    apply list_elem_of_lookup in Hc as [i Hc].
    destruct (Forall2_lookup_r _ _ _ _ _ Hm Hc) as (j & Hj & Hat).
    unfold stored_chunk_at in Hat.
    destruct (gr_documents r !! j) as [d|]; [|done].
    destruct (gr_metadatas r !! j) as [m|]; [|done].
    simpl in Hat. by injection Hat as <-.
Qed.

Lemma stored_chunks_aligned (r : GetResult) :
  (length (gr_documents r) <= length (gr_metadatas r))%nat ->
  is_Some (stored_chunks r).
Proof.
  intros Hlen. unfold stored_chunks. apply mapM_is_Some, Forall_forall.
  intros i Hi. apply elem_of_seq in Hi as [_ Hi]. simpl in Hi.
  unfold compose, stored_chunk_at.
  destruct (lookup_lt_is_Some_2 (gr_documents r) i) as [d ->]; [lia|].
  destruct (lookup_lt_is_Some_2 (gr_metadatas r) i) as [m ->]; [lia|].
  by eexists.
Qed.

Lemma stored_chunks_misaligned (r : GetResult) :
  (length (gr_metadatas r) < length (gr_documents r))%nat ->
  stored_chunks r = None.
Proof.
  intros Hlen. unfold stored_chunks. apply mapM_None, Exists_exists.
  exists (length (gr_metadatas r)). split.
  - apply elem_of_seq. lia.
  - unfold stored_chunk_at.
    destruct (gr_documents r !! _); [|done]. simpl.
    by rewrite (proj2 (lookup_ge_None _ _)) by lia.
Qed.

Lemma sort_by_chunk_index_sorted (rows : list StoredChunk) :
  adjacent (fun a b => sc_chunk_index a <= sc_chunk_index b)
    (sort_by_chunk_index rows).
Proof.
  intros i c d Hc Hd.
  assert ((sc_chunk_index d <? sc_chunk_index c) = false) as H.
  { refine (sort_by_sorted
              (fun y x : StoredChunk => sc_chunk_index y <? sc_chunk_index x)
              _ rows i c d Hc Hd).
    intros a b Hab. apply Z.ltb_lt in Hab. apply Z.ltb_ge. lia. }
  apply Z.ltb_ge in H. lia.
Qed.

Lemma get_document_chunks_run (be : Backend) (document_id : str)
    (w : World) :
  get_document_chunks be document_id w
  = Returned
      match collection_get be (Some document_id) with
      | Ok r =>
          match stored_chunks r with
          | Some rows => sort_by_chunk_index rows
          | None => []
          end
      | Err _ => []
      end w.
Proof.
  unfold get_document_chunks, try_except, bind, of_result, of_option, ret.
  destruct (collection_get be (Some document_id)) as [r|e]; [|done].
  by destruct (stored_chunks r).
Qed.

End StoredChunkFacts.

Section StoredChunkClaims.
Import Ext VectorStore.

(** X12: get_document_chunks never raises and leaves the service state
    as it was. The chunks it returns are in ascending order of chunk_index,
    and each carries the document_id, filename and chunk_index of its own
    metadata. When the collection answers with a metadata entry for every
    document text, the contents returned are the fetched texts, rearranged;
    when it answers with fewer metadata entries than texts, or raises, the
    result is the empty list. *)
Theorem get_document_chunks_sorted (be : Backend) (document_id : str)
    (w : World) :
  exists chunks,
    get_document_chunks be document_id w = Returned chunks w
    /\ adjacent (fun a b => sc_chunk_index a <= sc_chunk_index b) chunks
    /\ Forall copies_metadata chunks
    /\ (forall r, collection_get be (Some document_id) = Ok r ->
          ((length (gr_documents r) <= length (gr_metadatas r))%nat ->
           List.map sc_content chunks ≡ₚ gr_documents r)
          /\ ((length (gr_metadatas r) < length (gr_documents r))%nat ->
              chunks = []))
    /\ (forall e, collection_get be (Some document_id) = Err e ->
          chunks = []).
Proof.
  eexists. split; [apply get_document_chunks_run|].
  destruct (collection_get be (Some document_id)) as [r|e].
  - destruct (stored_chunks r) as [rows|] eqn:Hrows.
    + destruct (stored_chunks_rows r rows Hrows) as [Hdocs Hmeta].
      split; [apply sort_by_chunk_index_sorted|]. split.
      * unfold sort_by_chunk_index. by rewrite sort_by_perm.
      * split; [|done]. intros r' [= <-]. split.
        -- intros _. rewrite <- Hdocs. unfold sort_by_chunk_index.
           apply Permutation_map, sort_by_perm.
        -- intros Hlt. apply stored_chunks_misaligned in Hlt. congruence.
    + split; [intros [|i] c d; discriminate|]. split; [constructor|].
      split; [|done]. intros r' [= <-]. split; [|done].
      intros Hle. apply stored_chunks_aligned in Hle as [rows Hsome].
      congruence.
  - split; [intros [|i] c d; discriminate|]. split; [constructor|].
    split; [done|]. by intros.
Qed.

End StoredChunkClaims.

(** ** Finding similar documents *)

Section SimilarFacts.
Import Ext VectorStore.

Lemma similar_doc_summarises (source : str) (hits : list FoundChunk)
    (g : DocGroup) :
  group_ok source hits g -> summarises hits (similar_doc g).
Proof.
  intros (_ & Hchunks & Hne & Hsims & Hname). unfold summarises.
  cbn [similar_doc sd_document_id sd_matching_chunks sd_sample_chunks
       sd_average_similarity sd_filename].
  rewrite Hsims, length_map, <- Hchunks. by split_all.
Qed.

Lemma sort_by_similarity_sorted (docs : list SimilarDoc) :
  adjacent
    (fun a b => (sd_average_similarity b <= sd_average_similarity a)%Q)
    (sort_by_similarity docs).
Proof.
  intros i c d Hc Hd.
  assert (negb (Qle_bool (sd_average_similarity d) (sd_average_similarity c))
          = false) as H.
  { refine (sort_by_sorted
              (fun y x : SimilarDoc =>
                 negb (Qle_bool (sd_average_similarity y)
                         (sd_average_similarity x)))
              _ docs i c d Hc Hd).
    intros a b Hab. apply negb_true_iff in Hab. apply negb_false_iff.
    apply Qle_bool_iff.
    destruct (Qlt_le_dec (sd_average_similarity b) (sd_average_similarity a))
      as [Hlt|Hle]; [by apply Qlt_le_weak|].
    apply Qle_bool_iff in Hle. congruence. }
  apply negb_false_iff in H. by apply Qle_bool_iff.
Qed.

(** The ranking before it is cut to [top_k]: a rearrangement of one entry
    per group. *)
Lemma ranked_perm (source : str) (hits : list FoundChunk) :
  sort_by_similarity (List.map similar_doc (group_chunks source hits))
  ≡ₚ List.map similar_doc (group_chunks source hits).
Proof. apply sort_by_perm. Qed.

Lemma rank_documents_sublist (source : str) (top_k : Z)
    (hits : list FoundChunk) :
  rank_documents source top_k hits
  `sublist_of`
  sort_by_similarity (List.map similar_doc (group_chunks source hits)).
Proof. apply upto_sublist. Qed.

Lemma rank_documents_elem (source : str) (top_k : Z)
    (hits : list FoundChunk) (r : SimilarDoc) :
  r ∈ rank_documents source top_k hits ->
  exists g, g ∈ group_chunks source hits /\ r = similar_doc g.
Proof.
  intros Hr.
  apply (fun H => elem_of_sublist _ _ _ H
                    (rank_documents_sublist source top_k hits)) in Hr.
  rewrite ranked_perm in Hr.
  apply list_elem_of_In, in_map_iff in Hr as (g & <- & Hg).
  exists g. split; [by apply list_elem_of_In|done].
Qed.

Lemma rank_documents_ids (source : str) (top_k : Z)
    (hits : list FoundChunk) :
  NoDup (List.map sd_document_id (rank_documents source top_k hits)).
Proof.
  destruct (group_chunks_invariant source hits) as (Hnd & _ & _).
  apply sublist_NoDup
    with (List.map sd_document_id
            (sort_by_similarity
               (List.map similar_doc (group_chunks source hits)))).
  - erewrite (Permutation_map sd_document_id (ranked_perm source hits)),
      List.map_map, List.map_ext; [exact Hnd|done].
  - apply (fmap_sublist sd_document_id), rank_documents_sublist.
Qed.

Lemma rank_documents_entries (source : str) (top_k : Z)
    (hits : list FoundChunk) :
  Forall (fun r => sd_document_id r <> source /\ summarises hits r)
    (rank_documents source top_k hits).
Proof.
  destruct (group_chunks_invariant source hits) as (_ & Hok & _).
  rewrite Forall_forall in Hok. apply Forall_forall. intros r Hr.
  apply rank_documents_elem in Hr as (g & Hg & ->).
  split; [apply (Hok g Hg)|].
  eapply similar_doc_summarises. by apply Hok.
Qed.

Lemma rank_documents_sorted (source : str) (top_k : Z)
    (hits : list FoundChunk) :
  adjacent
    (fun a b => (sd_average_similarity b <= sd_average_similarity a)%Q)
    (rank_documents source top_k hits).
Proof.
  unfold rank_documents.
  destruct (upto_take top_k
              (sort_by_similarity
                 (List.map similar_doc (group_chunks source hits))))
    as (n & -> & _).
  apply adjacent_take, sort_by_similarity_sorted.
Qed.

(** A ranking shorter than [top_k] was not cut. *)
Lemma rank_documents_uncut (source : str) (top_k : Z)
    (hits : list FoundChunk) :
  Z.of_nat (length (rank_documents source top_k hits)) < top_k ->
  rank_documents source top_k hits
  = sort_by_similarity (List.map similar_doc (group_chunks source hits)).
Proof.
  unfold rank_documents, PyList.upto, Py.clamp_index.
  set (l := sort_by_similarity _). rewrite length_take.
  intros Hlen. apply take_ge.
  destruct (Z.ltb_spec top_k 0); lia.
Qed.

Lemma find_similar_documents_run (ext : Services) (be : Backend)
    (document_id : str) (top_k : Z) (w : World) :
  exists source,
    get_document_chunks be document_id w = Returned source w
    /\ match source with
       | [] => find_similar_documents ext be document_id top_k w
               = Returned [] w
       | _ :: _ =>
           exists hits w',
             search_similar_chunks ext (representative_text source) None
               (top_k * 3) w = Returned hits w'
             /\ same_stores w w'
             /\ find_similar_documents ext be document_id top_k w
                = Returned (rank_documents document_id top_k hits) w'
       end.
Proof.
  pose proof (get_document_chunks_run be document_id w) as Hget.
  destruct (match collection_get be (Some document_id) with
            | Ok r => _ | Err _ => _ end) as [|s ss].
  - exists []. split; [done|].
    unfold find_similar_documents, try_except. unfold bind at 1.
    by rewrite Hget.
  - exists (s :: ss). split; [done|].
    destruct (search_similar_chunks_spec ext (representative_text (s :: ss))
                None (top_k * 3) w)
      as (hits & evs & w' & Hs & [_ Hsame] & _).
    exists hits, w'. split; [done|]. split; [done|].
    unfold find_similar_documents, try_except. unfold bind at 1.
    rewrite Hget. unfold bind, ret.
    unfold representative_text in Hs. by rewrite Hs.
Qed.

End SimilarFacts.

Section SimilarClaims.
Import Ext VectorStore.

(** X13: find_similar_documents never raises and changes neither the
    document registry nor the chat history. The documents it returns have
    pairwise distinct ids, none of them is the source document, and they
    are in descending order of average similarity. *)
Theorem find_similar_documents_ranking (ext : Services) (be : Backend)
    (document_id : str) (top_k : Z) (w : World) :
  exists docs w',
    find_similar_documents ext be document_id top_k w = Returned docs w'
    /\ same_stores w w'
    /\ NoDup (List.map sd_document_id docs)
    /\ Forall (fun r => sd_document_id r <> document_id) docs
    /\ adjacent
         (fun a b => (sd_average_similarity b <= sd_average_similarity a)%Q)
         docs.
Proof.
  destruct (find_similar_documents_run ext be document_id top_k w)
    as ([|s ss] & _ & Hrun).
  - exists [], w. split; [done|]. split; [done|]. split; [constructor|].
    split; [constructor|]. intros [|i] c d; discriminate.
  - destruct Hrun as (hits & w' & _ & Hsame & ->).
    eexists. eexists. split; [reflexivity|]. split; [done|].
    split; [apply rank_documents_ids|]. split.
    + eapply Forall_impl; [apply rank_documents_entries|]. by intros r [? _].
    + apply rank_documents_sorted.
Qed.

(** X14: For top_k >= 0, find_similar_documents returns at most top_k
    documents. *)
Theorem find_similar_documents_at_most_top_k (ext : Services) (be : Backend)
    (document_id : str) (top_k : Z) (w : World) :
  0 <= top_k ->
  exists docs w',
    find_similar_documents ext be document_id top_k w = Returned docs w'
    /\ Z.of_nat (length docs) <= top_k.
Proof.
  intros Hk.
  destruct (find_similar_documents_run ext be document_id top_k w)
    as ([|s ss] & _ & Hrun).
  - exists [], w. split; [done|]. simpl. lia.
  - destruct Hrun as (hits & w' & _ & _ & ->).
    eexists. eexists. split; [reflexivity|]. by apply length_upto.
Qed.

Lemma find_similar_documents_at_most_top_k_witness :
  0 <= 1
  /\ exists source hits w1 docs w',
       get_document_chunks working_backend (Py.of_string "a") empty_world
       = Returned source empty_world
       /\ search_similar_chunks library (representative_text source) None
            (1 * 3) empty_world = Returned hits w1
       /\ List.map VectorStore.document_id hits
          = [Py.of_string "b"; Py.of_string "a"; Py.of_string "c"]
       /\ find_similar_documents library working_backend (Py.of_string "a") 1
            empty_world = Returned docs w'
       /\ Z.of_nat (length docs) <= 1
       /\ List.map sd_document_id docs = [Py.of_string "b"].
Proof.
  split; [lia|].
  destruct (find_similar_documents_at_most_top_k library working_backend
              (Py.of_string "a") 1 empty_world ltac:(lia))
    as (docs & w' & Hrun & Hlen).
  destruct (get_document_chunks working_backend (Py.of_string "a")
              empty_world) as [source w0| |] eqn:Hget;
    [|by vm_compute in Hget..].
  vm_compute in Hget. injection Hget as <- <-.
  eexists. eexists. eexists. exists docs, w'.
  split; [reflexivity|]. split; [by vm_compute|]. split; [by vm_compute|].
  split; [exact Hrun|]. split; [exact Hlen|].
  vm_compute in Hrun. by injection Hrun as <- _.
Defined.

(** X15: When the source document has stored chunks, find_similar_documents
    runs one unscoped search for 3 * top_k chunks with the contents of the
    first three source chunks (in chunk order) joined by spaces, and ranks
    the hits of that search: every returned entry stands for a document
    with at least one hit, counts exactly the hits of that document, carries
    the first two of them as samples, the filename of the first, and as
    average similarity the float mean of their scores: the scores added
    from left to right and the sum divided by their number, each operation
    rounded. That mean need not lie between the smallest and the largest
    score, but it lies between any two integers that bound all scores, as
    in [-1,1] or [0,1]. When fewer than top_k documents are returned, every
    other document with a hit is among them. *)
Theorem find_similar_documents_entries (ext : Services) (be : Backend)
    (document_id : str) (top_k : Z) (w w' : World)
    (source : list StoredChunk) (hits : list FoundChunk) :
  get_document_chunks be document_id w = Returned source w ->
  source <> [] ->
  search_similar_chunks ext (representative_text source) None (top_k * 3) w
  = Returned hits w' ->
  exists docs,
    find_similar_documents ext be document_id top_k w = Returned docs w'
    /\ Forall (summarises hits) docs
    /\ (forall a b : Z,
          Z.of_nat (length hits) * Z.max (Z.abs a) (Z.abs b) < 2 ^ 53 ->
          Forall (fun c =>
                    (inject_Z a <= similarity_score c <= inject_Z b)%Q)
            hits ->
          Forall (fun r =>
                    (inject_Z a <= sd_average_similarity r <= inject_Z b)%Q)
            docs)
    /\ (Z.of_nat (length docs) < top_k ->
        forall c, c ∈ hits -> VectorStore.document_id c <> document_id ->
          VectorStore.document_id c ∈ List.map sd_document_id docs).
Proof.
  intros Hget Hsource Hsearch.
  destruct (find_similar_documents_run ext be document_id top_k w)
    as (source' & Hget' & Hrun).
  rewrite Hget in Hget'. injection Hget' as <-.
  destruct source as [|s ss]; [done|].
  destruct Hrun as (hits' & w'' & Hsearch' & _ & Hfind).
  rewrite Hsearch in Hsearch'. injection Hsearch' as <- <-.
  eexists. split; [exact Hfind|]. split; [|split].
  - eapply Forall_impl; [apply rank_documents_entries|]. by intros r [_ ?].
  - intros a b Hsmall Hall.
    eapply Forall_impl; [apply rank_documents_entries|].
    intros r [_ (Hne & _ & _ & -> & _)].
    rewrite <- (length_map similarity_score).
    apply float_mean_bounds.
    + by destruct (hits_of (sd_document_id r) hits).
    + rewrite length_map.
      pose proof (length_filter
                    (fun c => VectorStore.document_id c = sd_document_id r)
                    hits) as Hle.
      unfold hits_of. nia.
    + apply Forall_forall. intros x Hx.
      apply list_elem_of_In, in_map_iff in Hx as (c & <- & Hc).
      apply list_elem_of_In, list_elem_of_filter in Hc as [_ Hc].
      rewrite Forall_forall in Hall. by apply Hall.
  - intros Hlen c Hc Hother.
    rewrite (rank_documents_uncut _ _ _ Hlen).
    destruct (group_chunks_invariant document_id hits) as (_ & _ & Hall).
    rewrite (Permutation_map sd_document_id (ranked_perm document_id hits)),
      List.map_map.
    erewrite List.map_ext; [by apply Hall|done].
Qed.

Lemma find_similar_documents_entries_witness :
  exists source hits w' docs,
    get_document_chunks working_backend (Py.of_string "a") empty_world
    = Returned source empty_world
    /\ source <> []
    /\ search_similar_chunks library (representative_text source) None
         (3 * 3) empty_world = Returned hits w'
    /\ find_similar_documents library working_backend (Py.of_string "a") 3
         empty_world = Returned docs w'
    /\ Forall (summarises hits) docs
    /\ List.map sd_document_id docs = [Py.of_string "b"; Py.of_string "c"]
    /\ List.map sd_matching_chunks docs = [2; 1].
Proof.
  destruct (get_document_chunks working_backend (Py.of_string "a")
              empty_world) as [source w0| |] eqn:Hget;
    [|by vm_compute in Hget..].
  assert (w0 = empty_world) as -> by (by vm_compute in Hget; injection Hget).
  assert (source <> []) as Hsource
    by (vm_compute in Hget; injection Hget as <-; discriminate).
  destruct (search_similar_chunks library (representative_text source) None
              (3 * 3) empty_world) as [hits w'| |] eqn:Hsearch;
    [|exfalso..].
  - destruct (find_similar_documents_entries library working_backend
                (Py.of_string "a") 3 empty_world w' source hits
                Hget Hsource Hsearch) as (docs & Hfind & Hsum & _).
    exists source, hits, w', docs.
    split; [reflexivity|]. split; [exact Hsource|]. split; [exact Hsearch|].
    split; [exact Hfind|]. split; [exact Hsum|].
    vm_compute in Hfind. injection Hfind as <- _. by split.
  - vm_compute in Hget. injection Hget as <-. by vm_compute in Hsearch.
  - vm_compute in Hget. injection Hget as <-. by vm_compute in Hsearch.
Defined.

(** X16: When the collection holds no chunk of the source document (the
    fetch raises, returns no text, or returns fewer metadata entries than
    texts), find_similar_documents returns the empty list without searching:
    no outside call is recorded and the service state is unchanged. *)
Theorem find_similar_documents_no_source (ext : Services) (be : Backend)
    (document_id : str) (top_k : Z) (w : World) :
  (forall r, collection_get be (Some document_id) = Ok r ->
     gr_documents r = []
     \/ (length (gr_metadatas r) < length (gr_documents r))%nat) ->
  find_similar_documents ext be document_id top_k w = Returned [] w.
Proof.
  intros Hnone.
  destruct (find_similar_documents_run ext be document_id top_k w)
    as (source & Hget & Hrun).
  rewrite get_document_chunks_run in Hget.
  destruct (collection_get be (Some document_id)) as [r|e].
  - destruct (Hnone r eq_refl) as [Hdocs|Hlt].
    + unfold stored_chunks in Hget. rewrite Hdocs in Hget.
      simpl in Hget. by injection Hget as <-.
    + rewrite (stored_chunks_misaligned r Hlt) in Hget.
      by injection Hget as <-.
  - by injection Hget as <-.
Qed.

Lemma find_similar_documents_no_source_witness :
  find_similar_documents library broken_backend (Py.of_string "a") 3
    empty_world = Returned [] empty_world.
Proof.
  apply (find_similar_documents_no_source library broken_backend
           (Py.of_string "a") 3 empty_world).
  intros r Hr. discriminate Hr.
Defined.

End SimilarClaims.

(** ** Order survives filtering *)

Section SublistFacts.
Context {A : Type} (R : A -> A -> Prop).
Hypothesis R_trans : forall a b c, R a b -> R b c -> R a c.

Lemma adjacent_strongly (l : list A) : adjacent R l -> StronglySorted R l.
Proof.
  induction l as [|a l IH]; intros Hl; [constructor|].
  apply adjacent_cons in Hl as [Hhd Htl]. specialize (IH Htl).
  constructor; [done|].
  destruct l as [|b l]; constructor; [by apply Hhd|].
  apply StronglySorted_inv in IH as [_ Hb].
  eapply Forall_impl; [exact Hb|]. intros c Hc.
  apply R_trans with b; [by apply Hhd|done].
Qed.

Lemma strongly_sublist (k l : list A) :
  k `sublist_of` l -> StronglySorted R l -> StronglySorted R k.
Proof.
  induction 1 as [|x k l Hsub IH|x k l Hsub IH]; intros Hl; [done|..].
  - apply StronglySorted_inv in Hl as [Hl Hx].
    constructor; [by apply IH|].
    rewrite Forall_forall in Hx. apply Forall_forall. intros y Hy.
    apply Hx. by eapply elem_of_sublist.
  - apply StronglySorted_inv in Hl as [Hl _]. by apply IH.
Qed.

Lemma strongly_adjacent (l : list A) : StronglySorted R l -> adjacent R l.
Proof.
  induction 1 as [|a l _ IH Ha]; [intros [|i] c d; discriminate|].
  apply adjacent_cons. split; [|done].
  intros b Hb. destruct l as [|b' l]; [done|]. injection Hb as ->.
  by apply Forall_cons in Ha as [? _].
Qed.

Lemma adjacent_sublist (k l : list A) :
  k `sublist_of` l -> adjacent R l -> adjacent R k.
Proof.
  intros Hsub Hl.
  by apply strongly_adjacent, (strongly_sublist k l), adjacent_strongly.
Qed.

End SublistFacts.

Section EnrichFacts.
Import Ext Models VectorStore RAGService.

Lemma enrich_similar (store : gmap str DocEntry) (sim : SimilarDoc)
    (d : EnrichedDoc) :
  enrich store sim = Some d ->
  ed_similar d = sim
  /\ exists entry,
       store !! sd_document_id sim = Some entry
       /\ ed_document_info d = de_document entry
       /\ ed_metadata d = de_metadata entry.
Proof.
  unfold enrich.
  destruct (store !! sd_document_id sim) as [entry|]; [|done].
  simpl. intros [= <-]. split; [done|]. by exists entry.
Qed.

Lemma enriched_sublist (store : gmap str DocEntry) (sims : list SimilarDoc) :
  List.map ed_similar (omap (enrich store) sims) `sublist_of` sims.
Proof.
  induction sims as [|sim sims IH]; [done|]. simpl.
  destruct (enrich store sim) as [d|] eqn:E.
  - apply enrich_similar in E as [<- _]. simpl. by constructor.
  - by constructor.
Qed.

Lemma enriched_elem (store : gmap str DocEntry) (sims : list SimilarDoc)
    (d : EnrichedDoc) :
  d ∈ omap (enrich store) sims ->
  ed_similar d ∈ sims /\ enrich store (ed_similar d) = Some d.
Proof.
  intros Hd. apply list_elem_of_omap in Hd as (sim & Hsim & Hen).
  destruct (enrich_similar _ _ _ Hen) as [Heq _]. rewrite Heq. by split.
Qed.

Lemma rag_find_similar_documents_run (ext : Services) (be : Backend)
    (document_id : str) (top_k : Z) (w : World) :
  match documents_store w !! document_id with
  | None =>
      RAGService.find_similar_documents ext be document_id top_k w
      = Returned [] w
  | Some _ =>
      exists sims w',
        VectorStore.find_similar_documents ext be document_id top_k w
        = Returned sims w'
        /\ same_stores w w'
        /\ RAGService.find_similar_documents ext be document_id top_k w
           = Returned (omap (enrich (documents_store w)) sims) w'
  end.
Proof.
  destruct (documents_store w !! document_id) as [entry|] eqn:Hdoc.
  - assert (exists sims w',
              VectorStore.find_similar_documents ext be document_id top_k w
              = Returned sims w' /\ same_stores w w')
      as (sims & w' & Hrun & Hsame).
    { destruct (find_similar_documents_run ext be document_id top_k w)
        as ([|s ss] & _ & Hrun); [by exists [], w|].
      destruct Hrun as (hits & w' & _ & Hsame & Hrun). eauto. }
    exists sims, w'. split; [done|]. split; [done|].
    unfold RAGService.find_similar_documents, try_except.
    unfold bind at 1, get_documents_store. rewrite Hdoc.
    unfold bind at 1. rewrite Hrun. unfold bind, ret.
    by destruct Hsame as [-> _].
  - unfold RAGService.find_similar_documents, try_except.
    unfold bind at 1, get_documents_store. by rewrite Hdoc.
Qed.

End EnrichFacts.

Section EnrichClaims.
Import Ext Models VectorStore RAGService.

Lemma similar_documents_facts (ext : Services) (be : Backend)
    (document_id : str) (top_k : Z) (w : World) :
  exists sims w',
    VectorStore.find_similar_documents ext be document_id top_k w
    = Returned sims w'
    /\ same_stores w w'
    /\ NoDup (List.map sd_document_id sims)
    /\ Forall (fun r => sd_document_id r <> document_id) sims
    /\ adjacent
         (fun a b => (sd_average_similarity b <= sd_average_similarity a)%Q)
         sims
    /\ (0 <= top_k -> Z.of_nat (length sims) <= top_k).
Proof.
  destruct (find_similar_documents_run ext be document_id top_k w)
    as ([|s ss] & _ & Hrun).
  - exists [], w. split; [done|]. split; [done|]. split; [constructor|].
    split; [constructor|]. split; [intros [|i] c d; discriminate|].
    simpl. lia.
  - destruct Hrun as (hits & w' & _ & Hsame & ->).
    eexists. eexists. split; [reflexivity|]. split; [done|].
    split; [apply rank_documents_ids|]. split; [|split].
    + eapply Forall_impl; [apply rank_documents_entries|]. by intros r [? _].
    + apply rank_documents_sorted.
    + apply length_upto.
Qed.

(** X17: RAGService.find_similar_documents never raises and changes
    neither the registry nor the chat history. For an unregistered
    document_id it returns the empty list and calls nothing. Every entry it
    returns stands for a registered document other than document_id and
    carries that document's registry record and extraction metadata; the
    entries have pairwise distinct ids, are in descending order of average
    similarity, and for top_k >= 0 there are at most top_k of them. *)
Theorem find_similar_documents_enriched (ext : Services) (be : Backend)
    (document_id : str) (top_k : Z) (w : World) :
  exists docs w',
    RAGService.find_similar_documents ext be document_id top_k w
    = Returned docs w'
    /\ same_stores w w'
    /\ (documents_store w !! document_id = None -> docs = [] /\ w' = w)
    /\ NoDup (List.map (fun d => sd_document_id (ed_similar d)) docs)
    /\ Forall
         (fun d =>
            sd_document_id (ed_similar d) <> document_id
            /\ exists entry,
                 documents_store w !! sd_document_id (ed_similar d)
                 = Some entry
                 /\ ed_document_info d = de_document entry
                 /\ ed_metadata d = de_metadata entry)
         docs
    /\ adjacent
         (fun a b =>
            (sd_average_similarity (ed_similar b)
             <= sd_average_similarity (ed_similar a))%Q)
         docs
    /\ (0 <= top_k -> Z.of_nat (length docs) <= top_k).
Proof.
  pose proof (rag_find_similar_documents_run ext be document_id top_k w)
    as Hrun.
  destruct (documents_store w !! document_id) as [entry|] eqn:Hdoc.
  - destruct Hrun as (sims & w' & Hsims & Hsame & ->).
    destruct (similar_documents_facts ext be document_id top_k w)
      as (sims' & w'' & Hsims' & _ & Hnd & Hother & Hsorted & Hlen).
    rewrite Hsims in Hsims'. injection Hsims' as <- <-.
    pose proof (enriched_sublist (documents_store w) sims) as Hsub.
    eexists. eexists. split; [reflexivity|]. split; [done|].
    split; [done|]. split; [|split; [|split]].
    + rewrite <- (List.map_map ed_similar sd_document_id).
      eapply sublist_NoDup; [exact Hnd|].
      by apply (fmap_sublist sd_document_id).
    + apply Forall_forall. intros d Hd.
      apply enriched_elem in Hd as [Hin Hen].
      rewrite Forall_forall in Hother. split; [by apply Hother|].
      by destruct (enrich_similar _ _ _ Hen) as [_ ?].
    + intros i a b Ha Hb.
      refine (adjacent_sublist
                (fun a b : SimilarDoc =>
                   (sd_average_similarity b <= sd_average_similarity a)%Q)
                _ _ sims Hsub Hsorted i (ed_similar a) (ed_similar b) _ _).
      * intros x y z Hxy Hyz. by apply Qle_trans with (sd_average_similarity y).
      * change (List.map ed_similar ?l) with (ed_similar <$> l).
        by rewrite list_lookup_fmap, Ha.
      * change (List.map ed_similar ?l) with (ed_similar <$> l).
        by rewrite list_lookup_fmap, Hb.
    + intros Hk. specialize (Hlen Hk).
      apply sublist_length in Hsub. rewrite length_map in Hsub. lia.
  - exists [], w. split; [done|]. split; [done|]. split; [done|].
    split; [constructor|]. split; [constructor|].
    split; [intros [|i] c d; discriminate|]. simpl. lia.
Qed.

End EnrichClaims.

(** ** System statistics *)

Section StatsFacts.
Import Ext Models VectorStore RAGService.

Lemma size_list_to_set_le (l : list str) :
  (base.size (list_to_set l : gset str) <= length l)%nat.
Proof.
  induction l as [|x l IH]; [done|].
  cbn [list_to_set foldr length]. rewrite size_union_alt, size_singleton.
  pose proof (subseteq_size (list_to_set l ∖ {[x]}) (list_to_set l : gset str))
    as Hsub.
  assert (list_to_set l ∖ {[x]} ⊆ (list_to_set l : gset str)) as Hd
    by apply subseteq_difference_l, reflexivity.
  specialize (Hsub Hd). lia.
Qed.

Lemma total_conversations_delete (h : gmap str (list ChatResponse))
    (k : str) :
  total_conversations h
  = Z.of_nat (length (default [] (h !! k))) + total_conversations (delete k h).
Proof.
  unfold total_conversations.
  destruct (h !! k) as [v|] eqn:Hk.
  - rewrite (map_fold_delete_L _ _ k v h); [done| |done].
    intros. lia.
  - rewrite delete_id by done. simpl. lia.
Qed.

Lemma total_conversations_nonneg (h : gmap str (list ChatResponse)) :
  0 <= total_conversations h.
Proof.
  unfold total_conversations.
  apply (map_fold_weak_ind (fun acc _ => 0 <= acc)); [done|].
  intros. lia.
Qed.

(** One [append] to a history adds one conversation. *)
Lemma total_conversations_append (h : gmap str (list ChatResponse))
    (k : str) (r : ChatResponse) :
  total_conversations (<[k := default [] (h !! k) ++ [r]]> h)
  = total_conversations h + 1.
Proof.
  rewrite (total_conversations_delete (<[k := _]> h) k),
    (total_conversations_delete h k).
  rewrite lookup_insert_eq, delete_insert_eq. simpl.
  rewrite length_app. simpl. lia.
Qed.

End StatsFacts.

Section StatsClaims.
Import Ext Models VectorStore RAGService.

Lemma total_conversations_lookup (r : ChatResponse) (ids : list str)
    (h h' : gmap str (list ChatResponse)) :
  (forall x,
     h' !! x
     = match length (filter (fun y => y = x) ids) with
       | O => h !! x
       | S n => Some (default [] (h !! x) ++ replicate (S n) r)
       end) ->
  total_conversations h'
  = total_conversations h + Z.of_nat (length ids).
Proof.
  revert h. induction ids as [|y ids IH]; intros h Hh.
  - assert (h' = h) as -> by (apply map_eq; intros x; apply Hh).
    simpl. lia.
  - rewrite (IH (<[y := default [] (h !! y) ++ [r]]> h)).
    + rewrite total_conversations_append. cbn [length]. lia.
    + intros x. rewrite Hh, filter_cons.
      destruct (decide (y = x)) as [->|Hne].
      * rewrite lookup_insert_eq. cbn [length].
        destruct (length (filter (fun y => y = x) ids)); [done|].
        simpl. by rewrite <- app_assoc.
      * by rewrite lookup_insert_ne.
Qed.

(** X18: get_system_stats never raises, never returns its error dict and
    changes nothing: total_documents is the number of registered documents
    and total_conversations the number of stored answers over all
    histories. When the collection cannot be counted or read, the report
    still comes, with total_chunks 0, embedding_model "unknown" and the
    error inside vector_store_stats; otherwise total_chunks is the
    collection's count and unique_documents is at most the number of stored
    chunks read. *)
Theorem get_system_stats_degrades (be : Backend) (w : World) :
  exists chunks vector_stats model,
    get_system_stats be w
    = Returned
        (SystemStatsOf (Z.of_nat (base.size (documents_store w))) chunks
           (total_conversations (chat_history w)) vector_stats model) w
    /\ 0 <= total_conversations (chat_history w)
    /\ match collection_count be, collection_get be None with
       | Ok count, Ok r =>
           exists unique,
             vector_stats
             = Stats count unique (embedding_model_name be)
                 (collection_name be)
             /\ chunks = count
             /\ model = embedding_model_name be
             /\ 0 <= unique <= Z.of_nat (length (gr_metadatas r))
       | Ok _, Err e | Err e, _ =>
           vector_stats = StatsError e
           /\ chunks = 0
           /\ model = Py.of_string "unknown"
       end.
Proof.
  unfold get_system_stats, get_collection_stats, try_except, bind, of_result,
    get_documents_store, get_chat_history_store, ret.
  destruct (collection_count be) as [count|e].
  - destruct (collection_get be None) as [r|e].
    + eexists. eexists. eexists. split; [reflexivity|].
      split; [apply total_conversations_nonneg|].
      eexists. split; [reflexivity|]. split; [done|]. split; [done|].
      pose proof (size_list_to_set_le
                    (List.map sm_document_id (gr_metadatas r))) as Hle.
      rewrite length_map in Hle. lia.
    + eexists. eexists. eexists. split; [reflexivity|].
      split; [apply total_conversations_nonneg|]. done.
  - eexists. eexists. eexists. split; [reflexivity|].
    split; [apply total_conversations_nonneg|]. done.
Qed.

(** X19: An answered question with a non-empty document scope adds one
    conversation per listed id (an id listed twice counts twice), so the
    total_conversations of the system statistics grows by the length of
    document_ids. *)
Theorem ask_question_counts_conversations (ext : Services) (question : str)
    (ids : list str) (max_sources : Z) (w : World) results chunks :
  search_returns ext question (Some ids) max_sources results chunks ->
  chunks <> [] ->
  exists resp w',
    ask_question ext question (Some ids) max_sources w = Returned resp w'
    /\ total_conversations (chat_history w')
       = total_conversations (chat_history w) + Z.of_nat (length ids).
Proof.
  intros Hsr Hne.
  destruct (search_similar_chunks_spec ext question (Some ids) max_sources
              (log EvTime w))
    as (found & evs & w1 & Hrun & (_ & Hds & Hch) & _ & _ & Hret & _).
  rewrite (Hret _ _ Hsr) in Hrun.
  destruct chunks as [|c chunks]; [done|].
  destruct (ask_question_found_run ext question (Some ids) max_sources w w1
              c chunks Hrun) as (resp & w' & Hask & _ & _ & Hh).
  exists resp, w'. split; [exact Hask|].
  simpl in Hch. rewrite <- Hch.
  by apply (total_conversations_lookup resp ids).
Qed.

Lemma ask_question_counts_conversations_witness :
  exists resp w',
    ask_question (healthy (1 # 4)) (Py.of_string "q")
      (Some [Py.of_string "doc-1"; Py.of_string "doc-1"]) 5 empty_world
    = Returned resp w'
    /\ total_conversations (chat_history w') = 2.
Proof.
  assert (search_returns (healthy (1 # 4)) (Py.of_string "q")
            (Some [Py.of_string "doc-1"; Py.of_string "doc-1"]) 5
            (one_row (1 # 4))
            (default []
               (VectorStore.format_results (one_row (1 # 4))))) as Hsr.
  { eexists. split; [reflexivity|]. split; reflexivity. }
  destruct (ask_question_counts_conversations (healthy (1 # 4))
              (Py.of_string "q")
              [Py.of_string "doc-1"; Py.of_string "doc-1"] 5 empty_world
              _ _ Hsr ltac:(discriminate)) as (resp & w' & Hask & Htotal).
  exists resp, w'. split; [exact Hask|]. exact Htotal.
Defined.

End StatsClaims.

(** ** Storing the chunks of a document *)

Section AddChunksFacts.
Import Ext VectorStore.
Context (ext : Services).

Lemma replicate_snoc_app {A} (n : nat) (x : A) (l : list A) :
  replicate n x ++ x :: l = replicate (S n) x ++ l.
Proof. induction n as [|n IH]; [done|]. simpl. by rewrite IH. Qed.

Lemma prepare_chunks_rows (document_id filename : str) (i : nat)
    (chunks : list DocumentProcessor.Chunk) (w : World) :
  exists rows w',
    prepare_chunks ext document_id filename i chunks w = Returned rows w'
    /\ trace w' = replicate (length chunks) EvNow ++ trace w
    /\ List.map (fun r => fst (fst r)) rows
       = List.map (fun j => document_id ++ Py.of_string "_" ++ Py.of_nat j)
           (seq i (length chunks))
    /\ List.map (fun r => snd (fst r)) rows
       = List.map DocumentProcessor.content chunks
    /\ Forall2
         (fun m c => exists created_at,
            m = stored_metadata document_id filename created_at c)
         (List.map snd rows) chunks.
Proof.
  revert i w. induction chunks as [|chunk rest IH]; intros i w.
  - exists [], w. split_all; try done.
  - simpl prepare_chunks. unfold bind at 1, call at 1. cbv beta iota.
    unfold bind at 1.
    destruct (IH (S i) (log EvNow w))
      as (rows & w' & Hrun & Htr & Hids & Hdocs & Hmeta).
    rewrite Hrun. eexists. exists w'. split; [reflexivity|].
    split_all.
    + rewrite Htr. cbn [log trace length]. apply replicate_snoc_app.
    + cbn [List.map length seq fst]. by rewrite Hids.
    + cbn [List.map fst snd]. by rewrite Hdocs.
    + cbn [List.map snd]. constructor; [by eexists|done].
Qed.

End AddChunksFacts.

Section AddChunksClaims.
Import Ext VectorStore.

(** X20: add_document_chunks never raises and touches neither the
    registry nor the chat history. It reads the clock once per chunk, then
    asks for the embeddings of all chunk contents in one batch, in chunk
    order; when that fails it returns False without adding anything. When
    it succeeds, it makes one add with the ids document_id_0 ..
    document_id_(n-1), the same contents, and one metadata entry per chunk
    that carries document_id and the chunk's index, offsets and own
    metadata; it returns True exactly when that add succeeds. *)
Theorem add_document_chunks_calls (ext : Services) (document_id : str)
    (chunks : list DocumentProcessor.Chunk) (filename : str) (w : World) :
  let ids :=
    List.map (fun j => document_id ++ Py.of_string "_" ++ Py.of_nat j)
      (seq 0 (length chunks)) in
  let documents := List.map DocumentProcessor.content chunks in
  exists success w',
    add_document_chunks ext document_id chunks filename w
    = Returned success w'
    /\ same_stores w w'
    /\ match encode ext documents with
       | Err _ =>
           success = false
           /\ trace w'
              = EvEncode documents
                :: replicate (length chunks) EvNow ++ trace w
       | Ok embeddings =>
           trace w'
           = EvAdd ids :: EvEncode documents
             :: replicate (length chunks) EvNow ++ trace w
           /\ exists metadatas,
                Forall2
                  (fun m c => exists created_at,
                     m = stored_metadata document_id filename created_at c)
                  metadatas chunks
                /\ (success = true
                    <-> collection_add ext ids documents embeddings metadatas
                        = Ok tt)
       end.
Proof.
  intros ids documents.
  destruct (prepare_chunks_rows ext document_id filename O chunks w)
    as (rows & w1 & Hrun & Htr & Hids & Hdocs & Hmeta).
  destruct (prepare_chunks_spec ext document_id filename O chunks w)
    as (rows' & w1' & Hrun' & Hsame).
  rewrite Hrun in Hrun'. injection Hrun' as <- <-.
  unfold add_document_chunks, try_except, bind at 1. rewrite Hrun.
  rewrite Hids, Hdocs. fold ids documents.
  unfold bind, call_result, ret.
  destruct (encode ext documents) as [embeddings|e].
  - destruct (collection_add ext ids documents embeddings (List.map snd rows))
      as [[]|e] eqn:Hadd.
    + eexists. eexists. split; [reflexivity|]. split; [exact Hsame|].
      split; [cbn [log trace]; by rewrite Htr|].
      exists (List.map snd rows). split; [done|]. by rewrite Hadd.
    + eexists. eexists. split; [reflexivity|]. split; [exact Hsame|].
      split; [cbn [log trace]; by rewrite Htr|].
      exists (List.map snd rows). split; [done|]. by rewrite Hadd.
  - eexists. eexists. split; [reflexivity|]. split; [exact Hsame|].
    split; [done|]. cbn [log trace]. by rewrite Htr.
Qed.

End AddChunksClaims.

(** ** The route handlers *)

Section ApiFacts.
Import Ext Models RAGService.

Lemma delete_document_registered_run (be : Backend) (document_id : str)
    (w : World) :
  is_Some (documents_store w !! document_id) ->
  exists w',
    delete_document be document_id w = Returned true w'
    /\ documents_store w' = delete document_id (documents_store w)
    /\ chat_history w' = delete document_id (chat_history w)
    /\ trace w' = trace w.
Proof.
  intros [doc_data Hdoc].
  unfold delete_document, try_except, bind at 1, get_documents_store.
  cbv beta iota. rewrite Hdoc.
  destruct (delete_document_chunks_spec be document_id w) as [b1 Hb1].
  unfold bind at 1. rewrite Hb1. cbv beta iota.
  destruct (delete_file_spec be (de_file_path doc_data) w) as [b2 Hb2].
  unfold bind at 1. rewrite Hb2. cbv beta iota.
  unfold bind, set_documents_store, get_chat_history_store,
    set_chat_history_store, ret. cbv beta iota.
  cbn [chat_history documents_store trace].
  destruct (chat_history w !! document_id) as [h|] eqn:Hh.
  - eexists. split; [reflexivity|]. by simpl.
  - eexists. split; [reflexivity|]. simpl. split; [done|]. split; [|done].
    symmetry. by apply delete_id.
Qed.

(** The ids up to the first one that is not registered. *)
Lemma first_unregistered (store : gmap str DocEntry) (ids : list str) :
  (exists entries,
     Forall2 (fun doc_id e => store !! doc_id = Some e) ids entries)
  \/ exists pre d post entries,
       ids = pre ++ d :: post
       /\ Forall2 (fun doc_id e => store !! doc_id = Some e) pre entries
       /\ store !! d = None.
Proof.
  induction ids as [|x ids IH]; [left; exists []; constructor|].
  destruct (store !! x) as [e|] eqn:Hx.
  - destruct IH as [[entries Hall]|(pre & d & post & entries & -> & Hpre & Hd)].
    + left. exists (e :: entries). by constructor.
    + right. exists (x :: pre), d, post, (e :: entries).
      split; [done|]. split; [by constructor|done].
  - right. exists [], x, ids, []. split; [done|]. split; [constructor|done].
Qed.

End ApiFacts.

Section ApiClaims.
Import Ext Models RAGService.

(** X21: five route handlers answer normally whatever the outside services
    do and whatever id they are given: ask_question, get_chat_history,
    clear_chat_history, find_similar_documents and get_system_stats never
    raise an HTTPException. In particular clearing the history of an id
    that was never registered reports success (the 404 of that handler
    cannot occur), and asking for documents similar to an unregistered id
    answers with the empty list. *)
Theorem handlers_that_always_succeed (ext : Services) (be : Backend)
    (question document_id : str) (document_ids : option (list str))
    (max_sources top_k : Z) (w : World) :
  (exists resp w',
     Api.ask_question ext question document_ids max_sources w
     = Some (Api.Success resp, w'))
  /\ Api.get_chat_history document_id w
     = Some (Api.Success (default [] (chat_history w !! document_id)), w)
  /\ (exists w',
        Api.clear_chat_history document_id w
        = Some (Api.Success Api.cleared_message, w')
        /\ chat_history w' = delete document_id (chat_history w)
        /\ documents_store w' = documents_store w)
  /\ (exists docs w',
        Api.find_similar_documents ext be document_id top_k w
        = Some (Api.Success docs, w')
        /\ (documents_store w !! document_id = None -> docs = []))
  /\ (exists stats,
        Api.get_system_stats be w = Some (Api.Success stats, w)
        /\ forall e, stats <> SystemStatsError e).
Proof.
  split_all.
  - destruct (ask_question_spec ext question document_ids max_sources w)
      as (chunks & sevs & resp & w' & Hask & _).
    exists resp, w'. unfold Api.ask_question, Api.route. by rewrite Hask.
  - done.
  - unfold Api.clear_chat_history, Api.route_checked, clear_chat_history,
      try_except, bind, get_chat_history_store, set_chat_history_store, ret.
    destruct (chat_history w !! document_id) as [h|] eqn:Hh.
    + eexists. split; [reflexivity|]. by simpl.
    + eexists. split; [reflexivity|]. simpl. by rewrite delete_id.
  - pose proof (rag_find_similar_documents_run ext be document_id top_k w)
      as Hrun.
    unfold Api.find_similar_documents, Api.route.
    destruct (documents_store w !! document_id) as [entry|].
    + destruct Hrun as (sims & w' & _ & _ & ->).
      eexists. eexists. split; [reflexivity|]. done.
    + rewrite Hrun. eexists. eexists. split; [reflexivity|]. done.
  - unfold Api.get_system_stats, Api.route, get_system_stats,
      VectorStore.get_collection_stats, try_except, bind, of_result,
      get_documents_store, get_chat_history_store, ret.
    destruct (collection_count be) as [count|e];
      [destruct (collection_get be None) as [r|e]|];
      (eexists; split; [reflexivity|done]).
Qed.

(** X22: get_document and delete_document raise HTTPException 404
    "Document not found" exactly for an id that is not registered, and then
    change nothing; neither handler ever raises a 500. For a registered id
    get_document returns the registry record and delete_document reports
    success after removing the record and the chat history of that id,
    whatever the index and the file system answer. *)
Theorem not_found_only_for_unregistered (be : Backend) (document_id : str)
    (w : World) :
  match documents_store w !! document_id with
  | None =>
      Api.get_document document_id w
      = Some (Api.HTTPException 404 (Py.of_string "Document not found"), w)
      /\ Api.delete_document be document_id w
         = Some (Api.HTTPException 404 (Py.of_string "Document not found"),
                 w)
  | Some entry =>
      Api.get_document document_id w
      = Some (Api.Success (de_document entry), w)
      /\ exists w',
           Api.delete_document be document_id w
           = Some (Api.Success Api.deleted_message, w')
           /\ documents_store w' = delete document_id (documents_store w)
           /\ chat_history w' = delete document_id (chat_history w)
  end.
Proof.
  destruct (documents_store w !! document_id) as [entry|] eqn:Hdoc.
  - split.
    + unfold Api.get_document, Api.route_checked, get_document, bind,
        get_documents_store, ret. by rewrite Hdoc.
    + destruct (delete_document_registered_run be document_id w)
        as (w' & Hrun & Hd & Hc & _); [by eexists|].
      exists w'. unfold Api.delete_document, Api.route_checked.
      by rewrite Hrun.
  - split.
    + unfold Api.get_document, Api.route_checked, get_document, bind,
        get_documents_store, ret. by rewrite Hdoc.
    + unfold Api.delete_document, Api.route_checked, delete_document,
        try_except, bind, get_documents_store, ret. by rewrite Hdoc.
Qed.

(** X23: the compare_documents handler rejects a list of fewer than two
    ids with HTTPException 400 before the service is entered, so the
    service's own message for that case never reaches a client. A list of
    at least two ids with an unregistered one is answered with 500, not
    404, and the detail "Document comparison failed: Document <id> not
    found" names the first unregistered id. In both cases nothing is
    called and nothing changes. *)
Theorem compare_documents_rejections (ext : Services) (ids : list str)
    (w : World) :
  ((length ids < 2)%nat ->
   Api.compare_documents ext ids w
   = Some (Api.HTTPException 400
             (Py.of_string "At least 2 document IDs are required"), w))
  /\ ((2 <= length ids)%nat ->
      (exists d, d ∈ ids /\ documents_store w !! d = None) ->
      exists pre d post,
        ids = pre ++ d :: post
        /\ Forall (fun x => is_Some (documents_store w !! x)) pre
        /\ documents_store w !! d = None
        /\ Api.compare_documents ext ids w
           = Some (Api.HTTPException 500
                     (Py.of_string "Document comparison failed: "
                      ++ Py.of_string "Document " ++ d
                      ++ Py.of_string " not found"), w)).
Proof.
  split.
  - intros Hlen. unfold Api.compare_documents.
    by destruct (Z.ltb_spec (Z.of_nat (length ids)) 2); [|lia].
  - intros Hlen (d0 & Hin & Hd0).
    destruct (first_unregistered (documents_store w) ids)
      as [[entries Hall]|(pre & d & post & entries & -> & Hpre & Hd)].
    + exfalso. apply list_elem_of_lookup in Hin as [i Hi].
      destruct (Forall2_lookup_l _ _ _ _ _ Hall Hi) as (e & _ & He).
      congruence.
    + exists pre, d, post. split; [done|]. split.
      { clear -Hpre. induction Hpre; constructor; [by eexists|done]. }
      split; [done|].
      unfold Api.compare_documents.
      destruct (Z.ltb_spec (Z.of_nat (length (pre ++ d :: post))) 2); [lia|].
      unfold Api.route, compare_documents, try_except.
      destruct (Z.ltb_spec (Z.of_nat (length (pre ++ d :: post))) 2); [lia|].
      unfold bind at 1.
      by rewrite (gather_documents_missing _ _ _ _ _ Hpre Hd).
Qed.

Lemma compare_documents_rejections_witness :
  Api.compare_documents (healthy (1 # 4)) [Py.of_string "zz"] two_docs_world
  = Some (Api.HTTPException 400
            (Py.of_string "At least 2 document IDs are required"),
          two_docs_world)
  /\ exists code detail,
       Api.compare_documents (healthy (1 # 4))
         [Py.of_string "a"; Py.of_string "zz"; Py.of_string "b"]
         two_docs_world
       = Some (Api.HTTPException code detail, two_docs_world)
       /\ code = 500.
Proof.
  split.
  - apply (compare_documents_rejections (healthy (1 # 4))
             [Py.of_string "zz"] two_docs_world).
    simpl. lia.
  - destruct (proj2 (compare_documents_rejections (healthy (1 # 4))
                       [Py.of_string "a"; Py.of_string "zz";
                        Py.of_string "b"] two_docs_world))
      as (pre & d & post & _ & _ & _ & Hrun).
    + simpl. lia.
    + exists (Py.of_string "zz"). split; [|by vm_compute].
      apply list_elem_of_further, list_elem_of_here.
    + eexists. eexists. split; [exact Hrun|done].
Defined.

End ApiClaims.

(** ** Reading the model's replies *)

Section ReplyFacts.
Import GeminiService.

Lemma fold_left_invariant {S A} (f : S -> A -> S) (Inv : S -> Prop)
    (l : list A) (st : S) :
  (forall a st, a ∈ l -> Inv st -> Inv (f st a)) ->
  Inv st -> Inv (fold_left f l st).
Proof.
  revert st. induction l as [|a l IH]; intros st Hstep Hst; [done|].
  simpl. apply IH.
  - intros b st' Hb. apply Hstep. by apply list_elem_of_further.
  - apply Hstep; [apply list_elem_of_here|done].
Qed.

Lemma not_has_header (label response_text raw : str) :
  ~ has_header label response_text ->
  raw ∈ Py.split 10%N response_text ->
  Py.startswith label (Py.strip raw) = false.
Proof.
  intros Hno Hraw. destruct (Py.startswith _ _) eqn:E; [|done].
  destruct Hno. apply Exists_exists. by exists raw.
Qed.

(** A scan of the lines decides that a header is absent. *)
Lemma no_header_by_scan (label response_text : str) :
  forallb (fun raw => negb (Py.startswith label (Py.strip raw)))
    (Py.split 10%N response_text) = true ->
  ~ has_header label response_text.
Proof.
  intros Hscan Hhas. apply Exists_exists in Hhas as (raw & Hraw & Hstarts).
  rewrite forallb_forall in Hscan.
  specialize (Hscan raw (proj1 (list_elem_of_In _ _) Hraw)).
  by rewrite Hstarts in Hscan.
Qed.

End ReplyFacts.

Section ReplyClaims.
Import GeminiService.

(** X24: in the comparison read from a reply, every similarity and every
    difference is a bullet line of the reply (stripped, with each "- "
    taken out), and common_themes is empty or is the comma-separated list of
    a COMMON_THEMES: line. Bullets count only under their header: without a
    SIMILARITIES: line there are no similarities, without a DIFFERENCES:
    line no differences, without a COMMON_THEMES: line no themes. *)
Theorem parse_comparison_reads_bullets (response_text : str) :
  let c := parse_comparison response_text in
  Forall (from_bullet response_text) (similarities c)
  /\ Forall (from_bullet response_text) (differences c)
  /\ (common_themes c = []
      \/ from_list_line (Py.of_string "COMMON_THEMES:") response_text
           (common_themes c))
  /\ (~ has_header (Py.of_string "SIMILARITIES:") response_text ->
      similarities c = [])
  /\ (~ has_header (Py.of_string "DIFFERENCES:") response_text ->
      differences c = [])
  /\ (~ has_header (Py.of_string "COMMON_THEMES:") response_text ->
      common_themes c = []).
Proof.
  unfold parse_comparison. cbn zeta.
  cbn [similarities differences common_themes].
  set (init := {| current_section := None; sc_similarities := [];
                  sc_differences := []; sc_common_themes := [] |}).
  split_all.
  - apply (fold_left_invariant scan_line
             (fun st =>
                Forall (from_bullet response_text) (sc_similarities st)));
      [|constructor].
    intros raw st Hraw Hst. unfold scan_line.
    repeat case_match; cbn [sc_similarities]; try done.
    apply Forall_app. split; [done|]. constructor; [|constructor].
    by exists raw.
  - apply (fold_left_invariant scan_line
             (fun st =>
                Forall (from_bullet response_text) (sc_differences st)));
      [|constructor].
    intros raw st Hraw Hst. unfold scan_line.
    repeat case_match; cbn [sc_differences]; try done.
    apply Forall_app. split; [done|]. constructor; [|constructor].
    by exists raw.
  - apply (fold_left_invariant scan_line
             (fun st =>
                sc_common_themes st = []
                \/ from_list_line (Py.of_string "COMMON_THEMES:")
                     response_text (sc_common_themes st)));
      [|by left].
    intros raw st Hraw Hst. unfold scan_line.
    repeat case_match; cbn [sc_common_themes]; try done.
    right. by exists raw.
  - intros Hno.
    apply (fold_left_invariant scan_line
             (fun st =>
                current_section st <> Some Similarities
                /\ sc_similarities st = [])); [|done].
    intros raw [sec sims diffs themes] Hraw [Hsec Hsims]. unfold scan_line.
    rewrite (not_has_header _ _ _ Hno Hraw).
    cbn [current_section sc_similarities sc_differences sc_common_themes]
      in *.
    repeat case_match;
      cbn [current_section sc_similarities]; try done; congruence.
  - intros Hno.
    apply (fold_left_invariant scan_line
             (fun st =>
                current_section st <> Some Differences
                /\ sc_differences st = [])); [|done].
    intros raw [sec sims diffs themes] Hraw [Hsec Hdiffs]. unfold scan_line.
    rewrite (not_has_header _ _ _ Hno Hraw).
    cbn [current_section sc_similarities sc_differences sc_common_themes]
      in *.
    repeat case_match;
      cbn [current_section sc_differences]; try done; congruence.
  - intros Hno.
    apply (fold_left_invariant scan_line
             (fun st => sc_common_themes st = [])); [|done].
    intros raw st Hraw Hst. unfold scan_line.
    rewrite (not_has_header _ _ _ Hno Hraw).
    repeat case_match; cbn [sc_common_themes]; done.
Qed.

Lemma parse_comparison_reads_bullets_witness :
  similarities (parse_comparison stray_bullet_reply) = []
  /\ differences (parse_comparison stray_bullet_reply)
     = [Py.of_string "late"].
Proof.
  split; [|by vm_compute].
  pose proof (parse_comparison_reads_bullets stray_bullet_reply) as Hc.
  cbv zeta in Hc. destruct Hc as (_ & _ & _ & Hsims & _).
  apply Hsims.
  apply no_header_by_scan. by vm_compute.
Defined.

(** X25: in the summary read from a reply, every key point is a bullet
    line of the reply (stripped, with each "- " taken out) and themes is
    empty or is the comma-separated list of a THEMES: line. A reply without
    a SUMMARY: line yields the empty summary, not the reply text; without a
    KEY_POINTS: line it yields no key points, whatever bullets it holds;
    without a THEMES: line no themes. *)
Theorem parse_summary_reads_sections (response_text : str) :
  let s := parse_summary response_text in
  Forall (from_bullet response_text) (key_points s)
  /\ (themes s = []
      \/ from_list_line (Py.of_string "THEMES:") response_text (themes s))
  /\ (~ has_header (Py.of_string "SUMMARY:") response_text ->
      summary s = [])
  /\ (~ has_header (Py.of_string "KEY_POINTS:") response_text ->
      key_points s = [])
  /\ (~ has_header (Py.of_string "THEMES:") response_text ->
      themes s = []).
Proof.
  unfold parse_summary. cbn zeta. cbn [summary key_points themes].
  set (init := {| ss_section := None; ss_summary := [];
                  ss_key_points := []; ss_themes := [] |}).
  split_all.
  - apply (fold_left_invariant scan_summary_line
             (fun st =>
                Forall (from_bullet response_text) (ss_key_points st)));
      [|constructor].
    intros raw st Hraw Hst. unfold scan_summary_line.
    repeat case_match; cbn [ss_key_points]; try done.
    apply Forall_app. split; [done|]. constructor; [|constructor].
    by exists raw.
  - apply (fold_left_invariant scan_summary_line
             (fun st =>
                ss_themes st = []
                \/ from_list_line (Py.of_string "THEMES:") response_text
                     (ss_themes st)));
      [|by left].
    intros raw st Hraw Hst. unfold scan_summary_line.
    repeat case_match; cbn [ss_themes]; try done.
    right. by exists raw.
  - intros Hno.
    assert (ss_section (fold_left scan_summary_line
                          (Py.split 10%N response_text) init)
            <> Some InSummary
            /\ ss_summary (fold_left scan_summary_line
                             (Py.split 10%N response_text) init) = [])
      as [_ ->]; [|done].
    apply (fold_left_invariant scan_summary_line
             (fun st => ss_section st <> Some InSummary
                        /\ ss_summary st = [])); [|done].
    intros raw [sec summ points thms] Hraw [Hsec Hsumm].
    unfold scan_summary_line.
    rewrite (not_has_header _ _ _ Hno Hraw).
    cbn [ss_section ss_summary ss_key_points ss_themes] in *.
    repeat case_match; cbn [ss_section ss_summary]; try done; congruence.
  - intros Hno.
    apply (fold_left_invariant scan_summary_line
             (fun st => ss_section st <> Some InKeyPoints
                        /\ ss_key_points st = [])); [|done].
    intros raw [sec summ points thms] Hraw [Hsec Hpoints].
    unfold scan_summary_line.
    rewrite (not_has_header _ _ _ Hno Hraw).
    cbn [ss_section ss_summary ss_key_points ss_themes] in *.
    repeat case_match; cbn [ss_section ss_key_points]; try done; congruence.
  - intros Hno.
    apply (fold_left_invariant scan_summary_line
             (fun st => ss_themes st = [])); [|done].
    intros raw st Hraw Hst. unfold scan_summary_line.
    rewrite (not_has_header _ _ _ Hno Hraw).
    repeat case_match; cbn [ss_themes]; done.
Qed.

Lemma parse_summary_reads_sections_witness :
  summary (parse_summary free_form_reply) = []
  /\ key_points (parse_summary free_form_reply) = [].
Proof.
  pose proof (parse_summary_reads_sections free_form_reply) as Hs.
  cbv zeta in Hs. destruct Hs as (_ & _ & Hsummary & Hpoints & _).
  split.
  - apply Hsummary.
    apply no_header_by_scan. by vm_compute.
  - apply Hpoints.
    apply no_header_by_scan. by vm_compute.
Defined.

End ReplyClaims.
